(** * ssscua: the dataset recorder and its offline validator

    A shallow embedding of [datagrab/datagrabber_69.py] (the event buffer,
    the constructor, the stop-key parser, the listener callbacks and the
    frame loop of [Recorder.record]), of [datagrab/validate_recording.py]
    (the checks and [main], on lines already read and on the rows of the
    file) and of what [datagrab/tk_dataset_recorder.py] keeps for the
    recorder (its stop key and its tasks), followed by the properties of
    the capture-and-attribution pipeline.

    Conventions of the embedding.
    - Python [int] is [Z]; Python [float] is the kernel's binary64
      [float], so that [<=], [<], [+] and [-] on timestamps are the IEEE
      operations the interpreter performs.
    - Python [str] is [string], read as ASCII text.
    - A [deque], a [list] and the rows appended to the CSV file are lists;
      mutation is explicit state passing.
    - A raised exception is the [Raise] case of [result]. *)

From Stdlib Require Import ZArith List String Ascii Bool Lia Floats.
From Stdlib Require Import DecimalString DecimalZ DecimalPos.
From stdpp Require Import base option list sorting gmap strings.
Import ListNotations.

#[local] Open Scope string_scope.
#[local] Open Scope list_scope.
#[local] Open Scope Z_scope.

(* ================================================================== *)
(** * Part I: definitions                                              *)
(* ================================================================== *)

(** ** The interpreter's builtins used by the two programs *)

Module Py.

(** Exceptions that the modelled code can raise. *)
Inductive exn :=
| KeyError (k : Z)
| ValueError
| AttributeError
| TypeError.

Inductive result (A : Type) :=
| Ok (a : A)
| Raise (e : exn).
Arguments Ok {A} a.
Arguments Raise {A} e.

Definition bind {A B} (r : result A) (k : A -> result B) : result B :=
  match r with
  | Ok a => k a
  | Raise e => Raise e
  end.

(** The literal [1e-6]: the binary64 value nearest to it. *)
Definition eps : float := 0x1.0c6f7a0b5ed8dp-20%float.

(** The float is no NaN: it is equal to itself. *)
Definition is_number (t : float) : bool := PrimFloat.eqb t t.

(** [a > b] on floats is [b < a]. *)
Definition fgt (a b : float) : bool := PrimFloat.ltb b a.

(** [str.isspace] on an ASCII character: TAB..CR, FS..US and the space. *)
Definition isspace (c : ascii) : bool :=
  let n := nat_of_ascii c in
  ((9 <=? n)%nat && (n <=? 13)%nat) || ((28 <=? n)%nat && (n <=? 32)%nat).

Fixpoint lstrip (s : string) : string :=
  match s with
  | EmptyString => EmptyString
  | String c s' => if isspace c then lstrip s' else s
  end.

Fixpoint rstrip (s : string) : string :=
  match s with
  | EmptyString => EmptyString
  | String c s' =>
      match rstrip s' with
      | EmptyString => if isspace c then EmptyString else String c EmptyString
      | r => String c r
      end
  end.

(** [s.strip()] *)
Definition strip (s : string) : string := rstrip (lstrip s).

Definition upper_char (c : ascii) : ascii :=
  let n := nat_of_ascii c in
  if ((97 <=? n)%nat && (n <=? 122)%nat) then ascii_of_nat (n - 32) else c.

Definition lower_char (c : ascii) : ascii :=
  let n := nat_of_ascii c in
  if ((65 <=? n)%nat && (n <=? 90)%nat) then ascii_of_nat (n + 32) else c.

Fixpoint map_string (f : ascii -> ascii) (s : string) : string :=
  match s with
  | EmptyString => EmptyString
  | String c s' => String (f c) (map_string f s')
  end.

(** [s.upper()] and [s.lower()] on ASCII text. *)
Definition upper : string -> string := map_string upper_char.
Definition lower : string -> string := map_string lower_char.

Definition is_digit (c : ascii) : bool :=
  let n := nat_of_ascii c in (48 <=? n)%nat && (n <=? 57)%nat.

Fixpoint all_digits (s : string) : bool :=
  match s with
  | EmptyString => true
  | String c s' => is_digit c && all_digits s'
  end.

(** [s.isascii()]: every character is below 128. *)
Fixpoint isascii (s : string) : bool :=
  match s with
  | EmptyString => true
  | String c s' => (nat_of_ascii c <? 128)%nat && isascii s'
  end.

(** [s.isdigit()]: false on the empty string. *)
Definition isdigit (s : string) : bool :=
  match s with
  | EmptyString => false
  | _ => all_digits s
  end.

(** [str.isprintable] on an ASCII character: the space up to the
    tilde. *)
Definition isprintable (c : ascii) : bool :=
  let n := nat_of_ascii c in (32 <=? n)%nat && (n <=? 126)%nat.

(** [s.startswith(p)] *)
Definition startswith (s p : string) : bool := String.prefix p s.

(** [s[1:]] *)
Definition tail (s : string) : string :=
  match s with
  | EmptyString => EmptyString
  | String _ s' => s'
  end.

(** [sys.get_int_max_str_digits()] as the interpreter starts: the most
    digits that [int()] reads and that [str()] writes. *)
Definition int_max_str_digits : Z := 4300.

(** [str(n)] for an [int]: the decimal text of [n]. The interpreter
    raises [ValueError] instead when [n] has more than
    [int_max_str_digits] digits; [str_fits n] tells that it does not. *)
Definition str (n : Z) : string := NilZero.string_of_int (Z.to_int n).

Definition str_fits (n : Z) : bool :=
  Z.of_nat (String.length (str (Z.abs n))) <=? int_max_str_digits.

(** The blanks that [int()] skips around a number: TAB..CR and the
    space. The separators FS..US, which [str.strip] removes, are no
    blanks for [int()]. *)
Definition is_c_space (c : ascii) : bool :=
  let n := nat_of_ascii c in
  ((9 <=? n)%nat && (n <=? 13)%nat) || (n =? 32)%nat.

Fixpoint lskip (s : string) : string :=
  match s with
  | EmptyString => EmptyString
  | String c s' => if is_c_space c then lskip s' else s
  end.

Fixpoint rskip (s : string) : string :=
  match s with
  | EmptyString => EmptyString
  | String c s' =>
      match rskip s' with
      | EmptyString => if is_c_space c then EmptyString else String c EmptyString
      | r => String c r
      end
  end.

(** The digits of an integer literal as [int()] reads them: groups of
    digits separated by single underscores. [None] when the text is empty
    or an underscore is leading, trailing or doubled. *)
Fixpoint int_digits (after_digit : bool) (s : string) : option string :=
  match s with
  | EmptyString => if after_digit then Some EmptyString else None
  | String c s' =>
      if is_digit c then option_map (String c) (int_digits true s')
      else if Ascii.eqb c "_" && after_digit then int_digits false s'
      else None
  end.

(** [int(s)] for a [str]: the blanks around the number are skipped, one
    sign is allowed, base ten, at most [int_max_str_digits] digits.
    [None] stands for [ValueError]. *)
Definition int (s : string) : option Z :=
  let s := rskip (lskip s) in
  let '(neg, body) :=
    match s with
    | String "-" r => (true, r)
    | String "+" r => (false, r)
    | _ => (false, s)
    end in
  match int_digits false body with
  | Some ds =>
      if int_max_str_digits <? Z.of_nat (String.length ds) then None
      else
        match NilEmpty.uint_of_string ds with
        | Some u => Some (if neg then - Z.of_uint u else Z.of_uint u)
        | None => None
        end
  | None => None
  end.

(** [f"{n:06d}"] for [0 <= n]. *)
Definition pad6 (n : Z) : string :=
  let s := str n in
  String.concat "" (repeat "0" (6 - String.length s)%nat) +:+ s.

(** A stable sort by a strict order [lt] on items, as [list.sort] is:
    each item is put behind the items that are not greater than it. (It
    orders as [list.sort] does when [lt] is a strict weak order on the
    items, as the order of keys without NaN is.) *)
Fixpoint insert_by {A} (lt : A -> A -> bool) (a : A) (l : list A) : list A :=
  match l with
  | [] => [a]
  | b :: l' => if lt a b then a :: l else b :: insert_by lt a l'
  end.

Definition sort_by {A} (lt : A -> A -> bool) (l : list A) : list A :=
  fold_left (fun acc a => insert_by lt a acc) l [].

(** [b] does not come before [a] in the order [lt]. *)
Definition not_after {A} (lt : A -> A -> bool) (a b : A) : Prop :=
  lt b a = false.

End Py.

(** [x ← r; k] runs [k] on the value of [r] and propagates an exception. *)
#[global] Instance result_ret : MRet Py.result := fun A a => Py.Ok a.
#[global] Instance result_bind : MBind Py.result := fun A B k r => Py.bind r k.

(** The ids [1; 2; ...; n]. *)
Definition ids_upto (n : nat) : list Z := map Z.of_nat (seq 1 n).

(** The ids [i; i + 1; ...], [n] of them. *)
Definition ids_from (i : Z) (n : nat) : list Z :=
  map (fun k => i + Z.of_nat k) (seq 0 n).

(** ** datagrab/datagrabber_69.py *)

Module datagrabber.

(** The [payload] dict of an [Event], by the keys the listeners store and
    the frame loop reads with [payload.get]. [None]: the key is absent
    (or, for [key_code], holds [None]). *)
Record Payload := {
  payload_x : option Z;
  payload_y : option Z;
  payload_button : option string;
  payload_action : option string;
  payload_scroll_dx : option Z;
  payload_scroll_dy : option Z;
  payload_key : option string;
  payload_key_code : option Z;
  payload_modifiers : option string }.

(** [@dataclass class Event] *)
Record Event := {
  ts : float;
  etype : string;
  payload : Payload }.

(** *** [class SafeDeque]

    The state is the content of [self._dq], oldest event first. Every
    method runs inside [with self._lock], so each is one transition. *)
Module SafeDeque.

Definition t := list Event.

Definition append (dq : t) (item : Event) : t := dq ++ [item].

(** [pop_all_upto]: the events popped, and the deque left. *)
Fixpoint pop_all_upto (dq : t) (ts_cutoff : float) : list Event * t :=
  match dq with
  | [] => ([], [])
  | e :: dq' =>
      if PrimFloat.leb (ts e) ts_cutoff
      then let '(out, rest) := pop_all_upto dq' ts_cutoff in (e :: out, rest)
      else ([], dq)
  end.

Definition drain_all (dq : t) : list Event * t := (dq, []).

(** The content is in the order of the timestamps: no event is
    stamped earlier than the one appended before it. *)
Fixpoint nondecreasing (dq : t) : bool :=
  match dq with
  | e1 :: ((e2 :: _) as rest) =>
      PrimFloat.leb (ts e1) (ts e2) && nondecreasing rest
  | _ => true
  end.

(** [e.ts <= cutoff] *)
Definition due (cutoff : float) (e : Event) : bool :=
  PrimFloat.leb (ts e) cutoff.

End SafeDeque.

(** *** [Recorder._parse_stop_key] *)

(** Modelled from the spec: the key objects of the input-hook library
    ([pynput], not among the sources) that the parser can return. The
    named keys are the members [esc], [enter], [space] and [f1] .. [f24]
    of [keyboard.Key]; [KeyCode_from_char c] is
    [keyboard.KeyCode.from_char(c)], which builds a key code from any
    text and raises nothing. *)
Inductive KeyObj :=
| Key_esc
| Key_enter
| Key_space
| Key_f (n : Z)
| KeyCode_from_char (c : string).

(** Modelled from the spec: [hasattr(keyboard.Key, attr)] and
    [getattr(keyboard.Key, attr)] on the function keys, [keyboard.Key]
    having the members [f1] .. [f24] and no other of that form. [None]:
    no such attribute. *)
Definition Key_getattr (attr : string) : option KeyObj :=
  let fkeys := map (fun n => ("f" +:+ Py.str n, Key_f n)) (map Z.of_nat (seq 1 24)) in
  snd <$> List.find (fun kv => String.eqb (fst kv) attr) fkeys.

Definition base : gmap string KeyObj :=
  <["SPACE" := Key_space]>
    (<["RETURN" := Key_enter]>
       (<["ENTER" := Key_enter]>
          (<["ESC" := Key_esc]> ∅))).

(** The [if name.startswith("F") and name[1:].isdigit()] block: the key
    it returns, or [None] when control falls out of it. *)
Definition parse_function_key (name : string) : option KeyObj :=
  if Py.startswith name "F" && Py.isdigit (Py.tail name) then
    match Py.int (Py.tail name) with
    | Some n =>
        if (1 <=? n) && (n <=? 24) then Key_getattr ("f" +:+ Py.str n) else None
    | None => None
    end
  else None.

Definition _parse_stop_key (name : string) : KeyObj :=
  let name := Py.upper (Py.strip name) in
  match base !! name with
  | Some k => k
  | None =>
      match parse_function_key name with
      | Some k => k
      | None =>
          if (String.length name =? 1)%nat
          then KeyCode_from_char (Py.lower name)
          else Key_f 10
      end
  end.

(** The stop key by the words of the specification: [esc],
    [enter]/[return], [space], the function keys [F1] .. [F24] and a
    single printable character stand for their keys, every other name for
    [F10]. Names are compared trimmed and in upper case, as the parser
    does. *)
Definition stop_key_as_specified (name : string) : KeyObj :=
  let name := Py.upper (Py.strip name) in
  if String.eqb name "ESC" then Key_esc
  else if String.eqb name "ENTER" || String.eqb name "RETURN" then Key_enter
  else if String.eqb name "SPACE" then Key_space
  else
    match List.find (fun n => String.eqb name ("F" +:+ Py.str n)) (ids_upto 24) with
    | Some n => Key_f n
    | None =>
        match name with
        | String c EmptyString =>
            if Py.isprintable c then KeyCode_from_char (Py.lower name)
            else Key_f 10
        | _ => Key_f 10
        end
    end.

(** *** The rows of [events.csv] *)

(** One dict handed to [csv.DictWriter.writerow]; [None] is a column the
    dict does not set or sets to [None] (an empty cell). *)
Record Row := {
  row_type : string;
  row_frame_id : Z;
  row_time_s : float;
  row_event_type : string;
  row_frame_path : option string;
  row_x : option Z;
  row_y : option Z;
  row_dx : option Z;
  row_dy : option Z;
  row_key : option string;
  row_key_code : option Z;
  row_mouse_button : option string;
  row_action : option string;
  row_scroll_dx : option Z;
  row_scroll_dy : option Z;
  row_modifiers : option string }.

(** The state [record] works on: the fields of [self] it touches, its
    local [frame_id], and the rows written to the CSV file so far. *)
Record State := {
  events_q : SafeDeque.t;
  frame_id : Z;
  _last_recorded_mouse_pos : option (Z * Z);
  _frames_captured : Z;
  _events_written : Z;
  csv : list Row }.

(** What one iteration of the frame loop observes: the events the
    listeners appended since the previous drain, and the boundary
    timestamp taken right after the grab. *)
Record Tick := {
  arrivals : list Event;
  t_boundary_rel : float }.

Section Record.

(** [round(t, 6)] *)
Variable round6 : float -> float.

Definition frame_row (frame_id : Z) (t : float) : Row :=
  {| row_type := "frame"; row_frame_id := frame_id;
     row_time_s := round6 t; row_event_type := "frame";
     row_frame_path := Some ("frames/" +:+ Py.pad6 frame_id +:+ ".png");
     row_x := None; row_y := None; row_dx := None; row_dy := None;
     row_key := None; row_key_code := None;
     row_mouse_button := None; row_action := None;
     row_scroll_dx := None; row_scroll_dy := None;
     row_modifiers := None |}.

(** The body of [for ev in ...]: the row written for [ev] and the new
    [_last_recorded_mouse_pos]. *)
Definition event_row (frame_id : Z) (last : option (Z * Z)) (ev : Event)
  : Row * option (Z * Z) :=
  let p := payload ev in
  if Py.startswith (etype ev) "mouse" then
    let x := default (-1) (payload_x p) in
    let y := default (-1) (payload_y p) in
    let '(dx, dy) :=
      match last with
      | None => (0, 0)
      | Some (lx, ly) => (x - lx, y - ly)
      end in
    ({| row_type := "event"; row_frame_id := frame_id;
        row_time_s := round6 (ts ev); row_event_type := etype ev;
        row_frame_path := None;
        row_x := Some x; row_y := Some y;
        row_dx := Some dx; row_dy := Some dy;
        row_key := None; row_key_code := None;
        row_mouse_button := payload_button p;
        row_action := payload_action p;
        row_scroll_dx := payload_scroll_dx p;
        row_scroll_dy := payload_scroll_dy p;
        row_modifiers := None |},
     Some (x, y))
  else if Py.startswith (etype ev) "key" then
    ({| row_type := "event"; row_frame_id := frame_id;
        row_time_s := round6 (ts ev); row_event_type := etype ev;
        row_frame_path := None;
        row_x := None; row_y := None; row_dx := None; row_dy := None;
        row_key := payload_key p; row_key_code := payload_key_code p;
        row_mouse_button := None; row_action := None;
        row_scroll_dx := None; row_scroll_dy := None;
        row_modifiers := payload_modifiers p |},
     last)
  else
    ({| row_type := "event"; row_frame_id := frame_id;
        row_time_s := round6 (ts ev); row_event_type := etype ev;
        row_frame_path := None;
        row_x := None; row_y := None; row_dx := None; row_dy := None;
        row_key := None; row_key_code := None;
        row_mouse_button := None; row_action := None;
        row_scroll_dx := None; row_scroll_dy := None;
        row_modifiers := None |},
     last).

(** One of the two [for ev in ...] loops: every event of [evs] gets a
    row with the current [frame_id]. *)
Fixpoint write_events (evs : list Event) (st : State) : State :=
  match evs with
  | [] => st
  | ev :: evs' =>
      let '(row, last) :=
        event_row (frame_id st) (_last_recorded_mouse_pos st) ev in
      write_events evs'
        {| events_q := events_q st;
           frame_id := frame_id st;
           _last_recorded_mouse_pos := last;
           _frames_captured := _frames_captured st;
           _events_written := _events_written st + 1;
           csv := csv st ++ [row] |}
  end.

(** The statements before the loop: the first frame. *)
Definition first_frame (t_rel : float) : State :=
  {| events_q := [];
     frame_id := 1;
     _last_recorded_mouse_pos := None;
     _frames_captured := 1;
     _events_written := 0;
     csv := [frame_row 1 t_rel] |}.

(** One iteration of [while not self._stop_flag.is_set()] from the grab
    on. *)
Definition tick (st : State) (tk : Tick) : State :=
  let next_frame_id := frame_id st + 1 in
  let '(drained, rest) :=
    SafeDeque.pop_all_upto (events_q st ++ arrivals tk) (t_boundary_rel tk) in
  let st1 :=
    write_events drained
      {| events_q := rest;
         frame_id := frame_id st;
         _last_recorded_mouse_pos := _last_recorded_mouse_pos st;
         _frames_captured := _frames_captured st;
         _events_written := _events_written st;
         csv := csv st |} in
  {| events_q := events_q st1;
     frame_id := next_frame_id;
     _last_recorded_mouse_pos := _last_recorded_mouse_pos st1;
     _frames_captured := _frames_captured st1 + 1;
     _events_written := _events_written st1;
     csv := csv st1 ++ [frame_row next_frame_id (t_boundary_rel tk)] |}.

(** The tail flush after the loop. *)
Definition flush_tail (st : State) (late : list Event) : State :=
  let '(evs, rest) := SafeDeque.drain_all (events_q st ++ late) in
  write_events evs
    {| events_q := rest;
       frame_id := frame_id st;
       _last_recorded_mouse_pos := _last_recorded_mouse_pos st;
       _frames_captured := _frames_captured st;
       _events_written := _events_written st;
       csv := csv st |}.

(** [Recorder.record] for a session that ends normally, up to the end
    of the tail flush: no call raises (the csv writer, in particular, can
    write every row). The stop flag, the [.stop] file and [max_duration]
    only decide after how many iterations the loop is left: the session
    runs one iteration per element of [ticks], then flushes the tail,
    [late] being the events appended after the last drain of the loop and
    before [drain_all]. *)
Definition record (t_rel : float) (ticks : list Tick) (late : list Event)
  : State :=
  flush_tail (fold_left tick ticks (first_frame t_rel)) late.

(** [Recorder.record] up to [kb_listener.stop()] and
    [ms_listener.stop()]. The listeners run while the tail is written and
    until they are stopped: [after] are the events they append once
    [drain_all] has returned. Nothing drains the buffer any more. *)
Definition record_until_stopped (t_rel : float) (ticks : list Tick)
    (late after : list Event) : State :=
  let st := record t_rel ticks late in
  {| events_q := fold_left SafeDeque.append after (events_q st);
     frame_id := frame_id st;
     _last_recorded_mouse_pos := _last_recorded_mouse_pos st;
     _frames_captured := _frames_captured st;
     _events_written := _events_written st;
     csv := csv st |}.

(** The row [r] is the event row of [ev] under frame [fid]. *)
Definition attributed (fid : Z) (ev : Event) (r : Row) : Prop :=
  row_type r = "event" /\ row_frame_id r = fid
  /\ row_time_s r = round6 (ts ev) /\ row_event_type r = etype ev.

End Record.

Definition is_frame_row (r : Row) : bool := String.eqb (row_type r) "frame".

(** The row is a frame row or an event row. *)
Definition row_typed (r : Row) : Prop :=
  row_type r = "frame" \/ row_type r = "event".

Definition is_mouse_row (r : Row) : bool :=
  String.eqb (row_type r) "event" && Py.startswith (row_event_type r) "mouse".

End datagrabber.

(** ** datagrab/validate_recording.py *)

Module validate_recording.

(** [@dataclass class FrameRow] *)
Record FrameRow := {
  fr_fid : Z;
  fr_t : float;
  fr_path : string }.

(** The [payload] dict [load_csv] builds: the eleven cells of a row as
    [csv.DictReader] returns them, [None] for a cell the line lacks. *)
Record Payload := {
  x : option string;
  y : option string;
  dx : option string;
  dy : option string;
  key : option string;
  key_code : option string;
  mouse_button : option string;
  action : option string;
  scroll_dx : option string;
  scroll_dy : option string;
  modifiers : option string }.

(** [@dataclass class EventRow] *)
Record EventRow := {
  ev_fid : Z;
  ev_t : float;
  ev_etype : string;
  ev_payload : Payload }.

(** The messages of the checks, by their class and the values they
    interpolate. *)
Inductive Err :=
| F01
| F02 (expected seen : Z)
| F03 (prev_fid : Z) (prev_t : float) (cur_fid : Z) (cur_t : float)
| E00
| E01 (fid last_fid : Z)
| E02 (t : float) (fid : Z) (t_next : float)
| E03 (t : float) (fid : Z) (t_frame : float)
| M01 (t : float) (dx dy expected_dx expected_dy : Z)
      (last_pos : option (Z * Z)) (x y : Z)
| I01 (path : string)
| I02 (path : string)
| I03 (path : string) (size ref_size : Z * Z).

Inductive Warn :=
| W10 (t_event t_frame1 : float).

(** The class of a message. *)
Definition is_F02 (e : Err) : bool :=
  match e with F02 _ _ => true | _ => false end.

Definition is_E02 (e : Err) : bool :=
  match e with E02 _ _ _ => true | _ => false end.

Definition is_E03 (e : Err) : bool :=
  match e with E03 _ _ _ => true | _ => false end.


(** *** [load_csv] *)

(** A line of [events.csv] once [csv.DictReader], [int] and [float] have
    read its cells: a line on which [load_csv] raises nothing, with text
    in every cell. ([validate_recording_file] below starts from the rows
    of the reader, and has what [load_csv] raises.) *)
Record CsvRow := {
  c_row_type : string;
  c_frame_id : Z;
  c_time_s : float;
  c_event_type : string;
  c_frame_path : string;
  c_payload : Payload }.

Definition frames_of (rows : list CsvRow) : list FrameRow :=
  omap (fun r =>
          if String.eqb (Py.strip (c_row_type r)) "frame"
          then Some {| fr_fid := c_frame_id r; fr_t := c_time_s r;
                       fr_path := c_frame_path r |}
          else None) rows.

Definition events_of (rows : list CsvRow) : list EventRow :=
  omap (fun r =>
          if String.eqb (Py.strip (c_row_type r)) "frame" then None
          else if String.eqb (Py.strip (c_row_type r)) "event"
          then Some {| ev_fid := c_frame_id r; ev_t := c_time_s r;
                       ev_etype := Py.strip (c_event_type r);
                       ev_payload := c_payload r |}
          else None) rows.

(** [(a.fid, a.t) < (b.fid, b.t)] on tuples. *)
Definition event_key_lt (a b : EventRow) : bool :=
  if ev_fid a =? ev_fid b
  then if PrimFloat.eqb (ev_t a) (ev_t b) then false
       else PrimFloat.ltb (ev_t a) (ev_t b)
  else ev_fid a <? ev_fid b.

Definition load_csv (rows : list CsvRow) : list FrameRow * list EventRow :=
  (Py.sort_by (fun a b => fr_fid a <? fr_fid b) (frames_of rows),
   Py.sort_by event_key_lt (events_of rows)).

(** *** [check_frames] *)

(** The first [for]: the first position [i] whose frame has another id. *)
Fixpoint first_id_mismatch (i : Z) (frames : list FrameRow) : list Err :=
  match frames with
  | [] => []
  | fr :: rest =>
      if fr_fid fr =? i then first_id_mismatch (i + 1) rest
      else [F02 i (fr_fid fr)]
  end.

(** The second [for], over [zip(frames, frames[1:])]. *)
Fixpoint first_time_drop (frames : list FrameRow) : list Err :=
  match frames with
  | prev :: (cur :: _) as rest =>
      if PrimFloat.ltb (fr_t cur) (fr_t prev - Py.eps)
      then [F03 (fr_fid prev) (fr_t prev) (fr_fid cur) (fr_t cur)]
      else first_time_drop rest
  | _ => []
  end.

Definition check_frames (frames : list FrameRow) : list Err :=
  match frames with
  | [] => [F01]
  | _ => first_id_mismatch 1 frames ++ first_time_drop frames
  end.

(** *** [check_events_vs_frames] *)

(** [{fr.fid: fr.t for fr in frames}]: a later frame overwrites an
    earlier one with the same id. *)
Definition frame_times (frames : list FrameRow) : gmap Z float :=
  fold_left (fun m fr => <[fr_fid fr := fr_t fr]> m) frames ∅.

(** [d[k]] *)
Definition getitem (d : gmap Z float) (k : Z) : Py.result float :=
  match d !! k with
  | Some v => Py.Ok v
  | None => Py.Raise (Py.KeyError k)
  end.

(** The body of [for ev in events]. *)
Definition check_event (frame_times : gmap Z float) (last_fid : Z)
    (acc : list Err * list Warn) (ev : EventRow)
  : Py.result (list Err * list Warn) :=
  let '(errs, warns) := acc in
  if (ev_fid ev <? 1) || (last_fid <? ev_fid ev) then
    Py.Ok (errs ++ [E01 (ev_fid ev) last_fid], warns)
  else
    errs ←
      (if ev_fid ev <? last_fid then
         t_next ← getitem frame_times (ev_fid ev + 1);
         Py.Ok (if Py.fgt (ev_t ev) (t_next + Py.eps)
                then errs ++ [E02 (ev_t ev) (ev_fid ev) t_next]
                else errs)
       else Py.Ok errs);
    t_cur ← getitem frame_times (ev_fid ev);
    let errs :=
      if (1 <? ev_fid ev) && PrimFloat.ltb (ev_t ev) (t_cur - Py.eps)
      then errs ++ [E03 (ev_t ev) (ev_fid ev) t_cur] else errs in
    let warns :=
      if (ev_fid ev =? 1) && PrimFloat.ltb (ev_t ev) (t_cur - Py.eps)
      then warns ++ [W10 (ev_t ev) t_cur] else warns in
    Py.Ok (errs, warns).

Fixpoint check_events (frame_times : gmap Z float) (last_fid : Z)
    (events : list EventRow) (acc : list Err * list Warn)
  : Py.result (list Err * list Warn) :=
  match events with
  | [] => Py.Ok acc
  | ev :: rest =>
      acc ← check_event frame_times last_fid acc ev;
      check_events frame_times last_fid rest acc
  end.

Definition check_events_vs_frames (frames : list FrameRow)
    (events : list EventRow) : Py.result (list Err * list Warn) :=
  match List.last (Some <$> frames) None with
  | None => Py.Ok ([E00], [])
  | Some last =>
      check_events (frame_times frames) (fr_fid last) events ([], [])
  end.

(** What the check owes to one event [ev] of a log whose frames carry
    the ids [1 .. N]: the error [e] is
    - [E01] when the frame id of [ev] is outside [1 .. N];
    - [E02] when the frame after the one of [ev] exists and [ev] is later
      than its timestamp plus [1e-6];
    - [E03] when the frame of [ev] is not the first one and [ev] is
      earlier than its timestamp minus [1e-6]. *)
Definition flagged (frames : list FrameRow) (ev : EventRow) (e : Err) : Prop :=
  (e = E01 (ev_fid ev) (Z.of_nat (length frames))
   /\ (ev_fid ev < 1 \/ Z.of_nat (length frames) < ev_fid ev))
  \/ (exists next,
        In next frames /\ fr_fid next = ev_fid ev + 1 /\ 1 <= ev_fid ev
        /\ Py.fgt (ev_t ev) (fr_t next + Py.eps) = true
        /\ e = E02 (ev_t ev) (ev_fid ev) (fr_t next))
  \/ (exists cur,
        In cur frames /\ fr_fid cur = ev_fid ev /\ 1 < ev_fid ev
        /\ PrimFloat.ltb (ev_t ev) (fr_t cur - Py.eps) = true
        /\ e = E03 (ev_t ev) (ev_fid ev) (fr_t cur)).

(** The warning [w] is owed to [ev]: [ev] belongs to frame 1 and is
    earlier than its timestamp minus [1e-6]. *)
Definition warned (frames : list FrameRow) (ev : EventRow) (w : Warn) : Prop :=
  exists cur,
    In cur frames /\ fr_fid cur = 1 /\ ev_fid ev = 1
    /\ PrimFloat.ltb (ev_t ev) (fr_t cur - Py.eps) = true
    /\ w = W10 (ev_t ev) (fr_t cur).

(** *** [check_mouse_deltas] *)

(** [int(v) if v not in (None, "") else None] *)
Definition int_or_none (v : option string) : Py.result (option Z) :=
  match v with
  | None => Py.Ok None
  | Some s =>
      if String.eqb s "" then Py.Ok None
      else match Py.int s with
           | Some n => Py.Ok (Some n)
           | None => Py.Raise Py.ValueError
           end
  end.

(** The [try] block: the four fields in the order they are read. *)
Definition read_fields (p : Payload)
  : Py.result (option Z * option Z * option Z * option Z) :=
  x ← int_or_none (x p);
  y ← int_or_none (y p);
  dx ← int_or_none (dx p);
  dy ← int_or_none (dy p);
  Py.Ok (x, y, dx, dy).

(** The loop state: [errs], [n_checked] and [last_pos]. *)
Definition MouseState : Type := list Err * Z * option (Z * Z).

(** The body of [for ev in events]. *)
Definition check_mouse_event (st : MouseState) (ev : EventRow) : MouseState :=
  let '(errs, n_checked, last_pos) := st in
  if negb (Py.startswith (ev_etype ev) "mouse") then st
  else
    match read_fields (ev_payload ev) with
    | Py.Raise _ => st
    | Py.Ok (Some x, Some y, Some dx, Some dy) =>
        let expected_dx :=
          match last_pos with None => 0 | Some (lx, _) => x - lx end in
        let expected_dy :=
          match last_pos with None => 0 | Some (_, ly) => y - ly end in
        let errs :=
          if negb (dx =? expected_dx) || negb (dy =? expected_dy)
          then errs ++ [M01 (ev_t ev) dx dy expected_dx expected_dy last_pos x y]
          else errs in
        (errs, n_checked + 1, Some (x, y))
    | Py.Ok _ => st
    end.

Definition check_mouse_deltas_from (st : MouseState) (events : list EventRow)
  : MouseState :=
  fold_left check_mouse_event events st.

Definition check_mouse_deltas (events : list EventRow) : list Err * Z :=
  fst (check_mouse_deltas_from ([], 0, None) events).

(** A cell that is present, not empty, and read by [int]. *)
Definition cell_is_int (v : option string) : bool :=
  match v with
  | None => false
  | Some s => negb (String.eqb s "") && bool_decide (is_Some (Py.int s))
  end.

(** The four fields the delta check needs are all integers. *)
Definition complete (p : Payload) : bool :=
  cell_is_int (x p) && cell_is_int (y p)
  && cell_is_int (dx p) && cell_is_int (dy p).

(** *** [check_images_exist_and_shape] *)

(** What the checks read from the recording directory besides the log:
    whether [rec_dir / path] exists, and the size [Image.open] reports
    for it ([None] when opening raises); [pillow] tells whether the
    imaging library could be imported. *)
Record Disk := {
  events_csv : option (list CsvRow);
  path_exists : string -> bool;
  image_size : string -> option (Z * Z);
  pillow : bool }.

(** The frames whose shape is read: all of them, or [sample] at each
    end. *)
Definition sampled (frames : list FrameRow) (sample : Z) : list FrameRow :=
  if (0 <? sample) && (2 * sample <? Z.of_nat (length frames))
  then firstn (Z.to_nat sample) frames
       ++ skipn (length frames - Z.to_nat sample)%nat frames
  else frames.

Definition check_shape (disk : Disk)
    (acc : list Err * option (Z * Z)) (fr : FrameRow)
  : list Err * option (Z * Z) :=
  let '(errs, ref_size) := acc in
  match image_size disk (fr_path fr) with
  | None => (errs ++ [I02 (fr_path fr)], ref_size)
  | Some size =>
      match ref_size with
      | None => (errs, Some size)
      | Some ref =>
          if (fst size =? fst ref) && (snd size =? snd ref)
          then (errs, ref_size)
          else (errs ++ [I03 (fr_path fr) size ref], ref_size)
      end
  end.

Definition check_images_exist_and_shape (disk : Disk)
    (frames : list FrameRow) (sample : Z) : list Err * option (Z * Z) :=
  let errs :=
    omap (fun fr => if path_exists disk (fr_path fr) then None
                    else Some (I01 (fr_path fr))) frames in
  if negb (pillow disk) || (sample =? 0) then (errs, None)
  else fold_left (check_shape disk) (sampled frames sample) (errs, None).

(** *** [main] *)

(** [--check-images] and [--sample-frames]. *)
Record Args := {
  check_images : bool;
  sample_frames : Z }.

(** What [main] prints, line by line. The text of [summarize] is not
    modelled beyond the two counts it starts with. *)
Inductive Line :=
| csv_not_found
| base_size (w h : Z)
| summary_header
| summary (n_frames n_events : nat)
| mouse_checked (n : Z)
| warnings_header
| warning (w : Warn)
| more_warnings (n : nat)
| errors_header
| error (e : Err)
| more_errors (n : nat)
| ok_line.

(** How the process ends: [main] returns, calls [exit(code)], or an
    exception leaves it. *)
Inductive Outcome :=
| Returns (stdout : list Line)
| Exits (code : Z) (stdout : list Line)
| Uncaught (e : Py.exn) (stdout : list Line).

(** The exit status of the interpreter. *)
Definition exit_status (o : Outcome) : Z :=
  match o with
  | Returns _ => 0
  | Exits code _ => code
  | Uncaught _ _ => 1
  end.

Definition stdout_of (o : Outcome) : list Line :=
  match o with
  | Returns out | Exits _ out | Uncaught _ out => out
  end.

Definition print_warnings (all_warns : list Warn) : list Line :=
  match all_warns with
  | [] => []
  | _ =>
      warnings_header :: map warning (firstn 50 all_warns)
      ++ (if (50 <? length all_warns)%nat
          then [more_warnings (length all_warns - 50)] else [])
  end.

Definition print_errors (all_errs : list Err) : list Line :=
  errors_header :: map error (firstn 200 all_errs)
  ++ (if (200 <? length all_errs)%nat
      then [more_errors (length all_errs - 200)] else []).

(** [main], with [meta.json] absent or well formed. The lists
    [all_errs] and [all_warns] are returned next to the outcome so that
    statements can speak about what was collected. *)
Definition main_collect (args : Args) (disk : Disk)
  : Outcome * list Err * list Warn :=
  match events_csv disk with
  | None => (Returns [csv_not_found], [], [])
  | Some rows =>
      let '(frames, events) := load_csv rows in
      let all_errs := check_frames frames in
      match check_events_vs_frames frames events with
      | Py.Raise e => (Uncaught e [], all_errs, [])
      | Py.Ok (errs, warns) =>
          let all_errs := all_errs ++ errs in
          let all_warns := warns in
          let '(m_errs, n_m) := check_mouse_deltas events in
          let all_errs := all_errs ++ m_errs in
          let '(all_errs, out) :=
            if check_images args then
              let '(img_errs, ref_size) :=
                check_images_exist_and_shape disk frames (sample_frames args) in
              (all_errs ++ img_errs,
               match ref_size with
               | Some (w, h) => [base_size w h]
               | None => []
               end)
            else (all_errs, []) in
          let out :=
            out ++ [summary_header; summary (length frames) (length events)]
            ++ (if n_m =? 0 then [] else [mouse_checked n_m])
            ++ print_warnings all_warns in
          match all_errs with
          | [] => (Returns (out ++ [ok_line]), all_errs, all_warns)
          | _ => (Exits 2 (out ++ print_errors all_errs), all_errs, all_warns)
          end
      end
  end.

Definition main (args : Args) (disk : Disk) : Outcome :=
  fst (fst (main_collect args disk)).

(** *** Readings of the messages and of the lines *)

Definition is_F03 (e : Err) : bool :=
  match e with F03 _ _ _ _ => true | _ => false end.

(** [cur.t < prev.t - 1e-6] *)
Definition drops (prev cur : FrameRow) : bool :=
  PrimFloat.ltb (fr_t cur) (fr_t prev - Py.eps).

Definition is_I01 (e : Err) : bool :=
  match e with I01 _ => true | _ => false end.

(** The size of the first sampled image that can be read. *)
Definition first_size (disk : Disk) (frames : list FrameRow) : option (Z * Z) :=
  head (omap (fun fr => image_size disk (fr_path fr)) frames).

(** What the shape check owes to one sampled frame, [ref] being the
    reference size: [I02] when its image cannot be read, [I03] when its
    size is another one. *)
Definition shape_error (disk : Disk) (ref : option (Z * Z)) (fr : FrameRow)
  : option Err :=
  match image_size disk (fr_path fr), ref with
  | None, _ => Some (I02 (fr_path fr))
  | Some size, Some ref =>
      if (fst size =? fst ref) && (snd size =? snd ref) then None
      else Some (I03 (fr_path fr) size ref)
  | Some _, None => None
  end.

(** The frames whose file is not there. *)
Definition missing (disk : Disk) (frames : list FrameRow) : list Err :=
  omap (fun fr => if path_exists disk (fr_path fr) then None
                  else Some (I01 (fr_path fr))) frames.



End validate_recording.

(** ** The log between the two programs *)

Module events_csv.

Import validate_recording.

(** A cell as [csv.DictWriter] writes it and [csv.DictReader] returns
    it: the empty text for [None], [str(v)] otherwise. *)
Definition cell {A} (render : A -> string) (v : option A) : option string :=
  Some (match v with None => "" | Some a => render a end).

(** The csv writer, which writes an integer [n] as [str(n)], can write
    the row: [str] raises for none of its integers. *)
Definition writable (r : datagrabber.Row) : bool :=
  Py.str_fits (datagrabber.row_frame_id r)
  && forallb (fun v => match v with Some n => Py.str_fits n | None => true end)
       [datagrabber.row_x r; datagrabber.row_y r;
        datagrabber.row_dx r; datagrabber.row_dy r;
        datagrabber.row_key_code r;
        datagrabber.row_scroll_dx r; datagrabber.row_scroll_dy r].

(** A row of the recorder read back by [load_csv]: [int(str(n))] is [n]
    for an integer that [str] writes, and [float(repr(t))] is [t]. *)
Definition read_back (r : datagrabber.Row) : CsvRow :=
  {| c_row_type := datagrabber.row_type r;
     c_frame_id := datagrabber.row_frame_id r;
     c_time_s := datagrabber.row_time_s r;
     c_event_type := datagrabber.row_event_type r;
     c_frame_path := default "" (datagrabber.row_frame_path r);
     c_payload :=
       {| x := cell Py.str (datagrabber.row_x r);
          y := cell Py.str (datagrabber.row_y r);
          dx := cell Py.str (datagrabber.row_dx r);
          dy := cell Py.str (datagrabber.row_dy r);
          key := cell id (datagrabber.row_key r);
          key_code := cell Py.str (datagrabber.row_key_code r);
          mouse_button := cell id (datagrabber.row_mouse_button r);
          action := cell id (datagrabber.row_action r);
          scroll_dx := cell Py.str (datagrabber.row_scroll_dx r);
          scroll_dy := cell Py.str (datagrabber.row_scroll_dy r);
          modifiers := cell id (datagrabber.row_modifiers r) |} |}.

(** The events of a log in the order of its lines, as [load_csv] has them
    before it sorts. *)
Definition events_in_log_order (log : list datagrabber.Row) : list EventRow :=
  events_of (map read_back log).

(** Reading the log from its first line on: whether every mouse row so
    far stores, as [(dx, dy)], the difference between its [(x, y)] and the
    [(x, y)] of the mouse row before it, [(0, 0)] for the first one; and
    the [(x, y)] of the last mouse row. *)
Definition follow_step (acc : bool * option (Z * Z)) (r : datagrabber.Row)
  : bool * option (Z * Z) :=
  let '(ok, prev) := acc in
  if datagrabber.is_mouse_row r then
    match datagrabber.row_x r, datagrabber.row_y r,
          datagrabber.row_dx r, datagrabber.row_dy r with
    | Some x, Some y, Some dx, Some dy =>
        (ok
         && (dx =? match prev with None => 0 | Some (px, _) => x - px end)
         && (dy =? match prev with None => 0 | Some (_, py) => y - py end),
         Some (x, y))
    | _, _, _, _ => (false, prev)
    end
  else acc.


(** The number of mouse rows of a log. *)
Definition mouse_rows (log : list datagrabber.Row) : Z :=
  Z.of_nat (length (List.filter datagrabber.is_mouse_row log)).

Definition is_event_row (r : datagrabber.Row) : bool :=
  String.eqb (datagrabber.row_type r) "event".

(** An event row of the recorder as [load_csv] has it. *)
Definition load_event (r : datagrabber.Row) : EventRow :=
  {| ev_fid := datagrabber.row_frame_id r;
     ev_t := datagrabber.row_time_s r;
     ev_etype := Py.strip (datagrabber.row_event_type r);
     ev_payload := c_payload (read_back r) |}.

(** The shape of the rows that [record] writes: a frame row, or an event
    row that has its four mouse cells exactly when its event type starts
    with [mouse]. *)
Definition row_shape (r : datagrabber.Row) : Prop :=
  datagrabber.row_type r = "frame"
  \/ (datagrabber.row_type r = "event"
      /\ if Py.startswith (datagrabber.row_event_type r) "mouse"
         then is_Some (datagrabber.row_x r) /\ is_Some (datagrabber.row_y r)
              /\ is_Some (datagrabber.row_dx r)
              /\ is_Some (datagrabber.row_dy r)
         else datagrabber.row_x r = None).

(** The events that the delta check does not pass over. *)
Definition checked (e : EventRow) : bool :=
  Py.startswith (ev_etype e) "mouse" && complete (ev_payload e).

(** The deltas of the log of [st] follow the positions, up to the last
    position the recorder holds. *)
Definition in_step (st : datagrabber.State) : Prop :=
  fold_left follow_step (datagrabber.csv st) (true, None)
  = (true, datagrabber._last_recorded_mouse_pos st).

End events_csv.

(** ** The validator on the lines of the file

    [validate_recording] above starts from lines whose [frame_id] and
    [time_s] are read and whose cells are all text. Here [load_csv] and
    [main] start from the rows that [csv.DictReader] yields, with what
    they raise on them. *)

Module validate_recording_file.

Import validate_recording.

(** A row as [csv.DictReader] yields it, for a file that the reader
    reads to its end: the cell of each column of the header, [None] for a
    column that a short line does not reach. (The cells of a long line
    beyond the header are read by nothing.) *)
Definition DictRow : Type := gmap string (option string).

(** [row.get(key, "")], which the code uses for [row_type], [event_type]
    and [frame_path], and [row.get(key)]; [None] is Python's [None]. *)
Definition get_or_empty (row : DictRow) (key : string) : option string :=
  default (Some "") (row !! key).

Definition get (row : DictRow) (key : string) : option string :=
  default None (row !! key).

(** [v.strip()]: [AttributeError] when [v] is [None]. *)
Definition strip_cell (v : option string) : Py.result string :=
  match v with
  | Some s => Py.Ok (Py.strip s)
  | None => Py.Raise Py.AttributeError
  end.

(** [int(v or 0)], [v] being [row.get("frame_id", 0)]. *)
Definition int_cell (v : option string) : Py.result Z :=
  match v with
  | None => Py.Ok 0
  | Some s =>
      if String.eqb s "" then Py.Ok 0
      else match Py.int s with
           | Some n => Py.Ok n
           | None => Py.Raise Py.ValueError
           end
  end.

(** A [FrameRow] as [load_csv] builds it: [path] is [None] when the line
    ends before the column [frame_path]. *)
Record LoadedFrame := {
  fid : Z;
  t : float;
  path : option string }.

(** What the body of [for row in rdr] appends. *)
Inductive Loaded :=
| frame_loaded (fr : LoadedFrame)
| event_loaded (ev : EventRow)
| nothing_loaded.

Definition frame_of_loaded (l : Loaded) : option LoadedFrame :=
  match l with frame_loaded fr => Some fr | _ => None end.

Definition event_of_loaded (l : Loaded) : option EventRow :=
  match l with event_loaded ev => Some ev | _ => None end.

(** The frame as the checks of frames and events read it: they read
    [fid] and [t] only. *)
Definition frame_of (fr : LoadedFrame) : FrameRow :=
  {| fr_fid := fid fr; fr_t := t fr; fr_path := default "" (path fr) |}.

Section Load.

(** [float(s)] for a text that is not empty; [None] stands for
    [ValueError]. *)
Variable float_ : string -> option float.

(** [float(v or 0.0)], [v] being [row.get("time_s", 0.0)]. *)
Definition float_cell (v : option string) : Py.result float :=
  match v with
  | None => Py.Ok 0%float
  | Some s =>
      if String.eqb s "" then Py.Ok 0%float
      else match float_ s with
           | Some t => Py.Ok t
           | None => Py.Raise Py.ValueError
           end
  end.

(** The body of [for row in rdr]: [row_type], [frame_id] and [time_s] are
    read on every line, before the test on [row_type]. *)
Definition load_row (row : DictRow) : Py.result Loaded :=
  rtype ← strip_cell (get_or_empty row "row_type");
  fid ← int_cell (get row "frame_id");
  t ← float_cell (get row "time_s");
  if String.eqb rtype "frame" then
    Py.Ok (frame_loaded {| fid := fid; t := t;
                           path := get_or_empty row "frame_path" |})
  else if String.eqb rtype "event" then
    etype ← strip_cell (get_or_empty row "event_type");
    Py.Ok (event_loaded
             {| ev_fid := fid; ev_t := t; ev_etype := etype;
                ev_payload :=
                  {| x := get row "x"; y := get row "y";
                     dx := get row "dx"; dy := get row "dy";
                     key := get row "key"; key_code := get row "key_code";
                     mouse_button := get row "mouse_button";
                     action := get row "action";
                     scroll_dx := get row "scroll_dx";
                     scroll_dy := get row "scroll_dy";
                     modifiers := get row "modifiers" |} |})
  else Py.Ok nothing_loaded.

(** The loop: it stops at the first line that raises. *)
Fixpoint load_rows (rows : list DictRow) : Py.result (list Loaded) :=
  match rows with
  | [] => Py.Ok []
  | row :: rest =>
      l ← load_row row;
      ls ← load_rows rest;
      Py.Ok (l :: ls)
  end.

Definition load_csv (rows : list DictRow)
  : Py.result (list LoadedFrame * list EventRow) :=
  loaded ← load_rows rows;
  Py.Ok (Py.sort_by (fun a b => fid a <? fid b) (omap frame_of_loaded loaded),
         Py.sort_by event_key_lt (omap event_of_loaded loaded)).

(** [rec_dir / fr.path] raises [TypeError] when the path is [None]: in
    the first loop, before anything is returned. *)
Definition check_images_exist_and_shape (disk : Disk)
    (frames : list LoadedFrame) (sample : Z)
  : Py.result (list Err * option (Z * Z)) :=
  if forallb (fun fr => bool_decide (is_Some (path fr))) frames
  then Py.Ok (validate_recording.check_images_exist_and_shape disk
                (map frame_of frames) sample)
  else Py.Raise Py.TypeError.

(** [main] on the rows [lines] of [events.csv] ([None]: the file is not
    there), with [meta.json] absent or a JSON object; [disk] is read for
    the images only. Next to the outcome, the lists [all_errs] and
    [all_warns] as they are when [main] ends. *)
Definition main_collect (args : Args) (lines : option (list DictRow))
    (disk : Disk) : Outcome * list Err * list Warn :=
  match lines with
  | None => (Returns [csv_not_found], [], [])
  | Some rows =>
      match load_csv rows with
      | Py.Raise e => (Uncaught e [], [], [])
      | Py.Ok (frames, events) =>
          let all_errs := check_frames (map frame_of frames) in
          match check_events_vs_frames (map frame_of frames) events with
          | Py.Raise e => (Uncaught e [], all_errs, [])
          | Py.Ok (errs, warns) =>
              let all_errs := all_errs ++ errs in
              let all_warns := warns in
              let '(m_errs, n_m) := check_mouse_deltas events in
              let all_errs := all_errs ++ m_errs in
              match
                (if check_images args then
                   '(img_errs, ref_size) ←
                     check_images_exist_and_shape disk frames
                       (sample_frames args);
                   Py.Ok (all_errs ++ img_errs,
                          match ref_size with
                          | Some (w, h) => [base_size w h]
                          | None => []
                          end)
                 else Py.Ok (all_errs, []))
              with
              | Py.Raise e => (Uncaught e [], all_errs, all_warns)
              | Py.Ok (all_errs, out) =>
                  let out :=
                    out
                    ++ [summary_header;
                        summary (length frames) (length events)]
                    ++ (if n_m =? 0 then [] else [mouse_checked n_m])
                    ++ print_warnings all_warns in
                  match all_errs with
                  | [] => (Returns (out ++ [ok_line]), all_errs, all_warns)
                  | _ => (Exits 2 (out ++ print_errors all_errs),
                          all_errs, all_warns)
                  end
              end
          end
      end
  end.

Definition main (args : Args) (lines : option (list DictRow)) (disk : Disk)
  : Outcome :=
  fst (fst (main_collect args lines disk)).

(** The body of the loop appends nothing for the line. *)
Definition passed_over (row : DictRow) : bool :=
  match load_row row with
  | Py.Ok nothing_loaded => true
  | _ => false
  end.


End Load.





End validate_recording_file.

(** ** [Recorder.__init__] and the listener callbacks *)

Module Recorder.

Import datagrabber.

(** *** [__init__]

    The fields computed from the arguments [fps] and [stop_key]. *)
Record Init := {
  fps : Z;
  stop_key_name : string;
  _stop_key_obj : KeyObj }.

Definition __init__ (fps : Z) (stop_key : string) : Init :=
  let stop_key_name :=
    Py.upper (if String.eqb stop_key "" then "F10" else stop_key) in
  {| fps := Z.max 1 fps;
     stop_key_name := stop_key_name;
     _stop_key_obj := _parse_stop_key stop_key_name |}.

End Recorder.

(** ** The listener callbacks of [Recorder] *)

Module listeners.

Import datagrabber.

(** The fields of [self] that the callbacks read and write. *)
Record Self := {
  events_q : SafeDeque.t;
  _start_perf : option float;
  _pressed_mods : gset string;
  _stop_flag : bool }.

(** The fields as [__init__] sets them. *)
Definition initial : Self :=
  {| events_q := []; _start_perf := None; _pressed_mods := ∅;
     _stop_flag := false |}.

(** [_now_rel], [perf_counter] being the reading of the clock;
    [self._start_perf or 0.0] is [0.0] for [None] and for a zero. *)
Definition _now_rel (self : Self) (perf_counter : float) : float :=
  perf_counter
  - match _start_perf self with
    | Some t => if PrimFloat.eqb t 0 then 0 else t
    | None => 0
    end.

(** What a keyboard callback reads off its argument [key]: the pair
    [(name, vk)] that [_normalize_key] returns for it, and the outcome of
    [key == self._stop_key_obj]. *)
Record Key := {
  name : string;
  vk : option Z;
  is_stop_key : bool }.

(** The [if]/[elif] chain over the name: the modifier it stands for. *)
Definition modifier_of (name : string) : option string :=
  if bool_decide (name ∈ ["shift"; "shift_l"; "shift_r"]) then Some "shift"
  else if bool_decide (name ∈ ["ctrl"; "ctrl_l"; "ctrl_r"]) then Some "ctrl"
  else if bool_decide (name ∈ ["alt"; "alt_l"; "alt_r"; "option"]) then Some "alt"
  else if bool_decide (name ∈ ["cmd"; "cmd_l"; "cmd_r"; "super"]) then Some "cmd"
  else None.

Definition order : list string := ["cmd"; "ctrl"; "alt"; "shift"].

Definition _collect_mods (_pressed_mods : gset string) : string :=
  if bool_decide (_pressed_mods = ∅) then ""
  else String.concat "+"
         (List.filter (fun m => bool_decide (m ∈ _pressed_mods)) order).

Definition key_event (t : float) (etype : string) (key : Key) (mods : string)
  : Event :=
  {| ts := t; etype := etype;
     payload := {| payload_x := None; payload_y := None;
                   payload_button := None; payload_action := None;
                   payload_scroll_dx := None; payload_scroll_dy := None;
                   payload_key := Some (name key);
                   payload_key_code := vk key;
                   payload_modifiers := Some mods |} |}.

Definition _kb_on_press (self : Self) (perf_counter : float) (key : Key) : Self :=
  let mods :=
    match modifier_of (name key) with
    | Some m => {[m]} ∪ _pressed_mods self
    | None => _pressed_mods self
    end in
  {| events_q :=
       SafeDeque.append (events_q self)
         (key_event (_now_rel self perf_counter) "key_down" key
            (_collect_mods mods));
     _start_perf := _start_perf self;
     _pressed_mods := mods;
     _stop_flag := if is_stop_key key then true else _stop_flag self |}.

Definition _kb_on_release (self : Self) (perf_counter : float) (key : Key) : Self :=
  let mods :=
    match modifier_of (name key) with
    | Some m => _pressed_mods self ∖ {[m]}
    | None => _pressed_mods self
    end in
  {| events_q :=
       SafeDeque.append (events_q self)
         (key_event (_now_rel self perf_counter) "key_up" key
            (_collect_mods mods));
     _start_perf := _start_perf self;
     _pressed_mods := mods;
     _stop_flag := _stop_flag self |}.

Definition mouse_event (t : float) (etype : string) (x y : Z)
    (button action : option string) (scroll_dx scroll_dy : option Z) : Event :=
  {| ts := t; etype := etype;
     payload := {| payload_x := Some x; payload_y := Some y;
                   payload_button := button; payload_action := action;
                   payload_scroll_dx := scroll_dx;
                   payload_scroll_dy := scroll_dy;
                   payload_key := None; payload_key_code := None;
                   payload_modifiers := None |} |}.

Definition enqueue (self : Self) (ev : Event) : Self :=
  {| events_q := SafeDeque.append (events_q self) ev;
     _start_perf := _start_perf self;
     _pressed_mods := _pressed_mods self;
     _stop_flag := _stop_flag self |}.

(** The pointer coordinates and the scroll steps are integers. *)
Definition _ms_on_move (self : Self) (perf_counter : float) (x y : Z) : Self :=
  enqueue self
    (mouse_event (_now_rel self perf_counter) "mouse_move" x y
       None None None None).

(** [button] is the text [getattr(button, "name", str(button))]. *)
Definition _ms_on_click (self : Self) (perf_counter : float) (x y : Z)
    (button : string) (pressed : bool) : Self :=
  enqueue self
    (mouse_event (_now_rel self perf_counter) "mouse_click" x y
       (Some button) (Some (if pressed then "down" else "up")) None None).

Definition _ms_on_scroll (self : Self) (perf_counter : float) (x y dx dy : Z)
  : Self :=
  enqueue self
    (mouse_event (_now_rel self perf_counter) "mouse_scroll" x y
       None None (Some dx) (Some dy)).

(** The text of the modifiers, by the four membership tests. *)
Definition code (cmd ctrl alt shift : bool) : string :=
  String.concat "+"
    ((if cmd then ["cmd"] else []) ++ (if ctrl then ["ctrl"] else [])
     ++ (if alt then ["alt"] else []) ++ (if shift then ["shift"] else [])).

(** One call of a callback by a listener thread. *)
Inductive Call :=
| kb_on_press (perf_counter : float) (key : Key)
| kb_on_release (perf_counter : float) (key : Key)
| ms_on_move (perf_counter : float) (x y : Z)
| ms_on_click (perf_counter : float) (x y : Z) (button : string) (pressed : bool)
| ms_on_scroll (perf_counter : float) (x y dx dy : Z).

Definition call (self : Self) (c : Call) : Self :=
  match c with
  | kb_on_press t key => _kb_on_press self t key
  | kb_on_release t key => _kb_on_release self t key
  | ms_on_move t x y => _ms_on_move self t x y
  | ms_on_click t x y button pressed => _ms_on_click self t x y button pressed
  | ms_on_scroll t x y dx dy => _ms_on_scroll self t x y dx dy
  end.

(** The callbacks run one at a time, each under the lock of the queue
    for its append: a run of calls. *)
Definition run (calls : list Call) (self : Self) : Self :=
  fold_left call calls self.

(** What a call does to the modifier [m]: [Some true] when it presses a
    key that stands for [m], [Some false] when it releases one. *)
Definition action_on (m : string) (c : Call) : option bool :=
  match c with
  | kb_on_press _ key =>
      if bool_decide (modifier_of (name key) = Some m) then Some true else None
  | kb_on_release _ key =>
      if bool_decide (modifier_of (name key) = Some m) then Some false else None
  | _ => None
  end.

(** The call presses the stop key. *)
Definition presses_stop_key (c : Call) : bool :=
  match c with
  | kb_on_press _ key => is_stop_key key
  | _ => false
  end.

(** The event type and the clock reading of a call. *)
Definition etype_of (c : Call) : string :=
  match c with
  | kb_on_press _ _ => "key_down"
  | kb_on_release _ _ => "key_up"
  | ms_on_move _ _ _ => "mouse_move"
  | ms_on_click _ _ _ _ _ => "mouse_click"
  | ms_on_scroll _ _ _ _ _ => "mouse_scroll"
  end.

Definition clock_of (c : Call) : float :=
  match c with
  | kb_on_press t _ | kb_on_release t _ | ms_on_move t _ _
  | ms_on_click t _ _ _ _ | ms_on_scroll t _ _ _ _ => t
  end.

End listeners.

(** ** datagrab/tk_dataset_recorder.py: the panel that starts the recorder *)

Module tk_dataset_recorder.

(** [@dataclass class Task] *)
Record Task := {
  task_id : string;
  text : string }.

(** *** [class LocalListTaskProvider] *)
Record LocalListTaskProvider := {
  tasks : list string;
  idx : nat }.

(** [__init__]: the tasks that are not blank, in their order. *)
Definition LocalListTaskProvider_init (tasks : list string)
  : LocalListTaskProvider :=
  {| tasks := List.filter (fun t => negb (String.eqb (Py.strip t) "")) tasks;
     idx := 0 |}.

(** [get_next_task]: what is returned, and the provider afterwards. *)
Definition get_next_task (self : LocalListTaskProvider)
  : option Task * LocalListTaskProvider :=
  if (length (tasks self) <=? idx self)%nat then (None, self)
  else
    match nth_error (tasks self) (idx self) with
    | Some t =>
        (Some {| task_id := "local_" +:+ Py.str (Z.of_nat (idx self + 1));
                 text := t |},
         {| tasks := tasks self; idx := (idx self + 1)%nat |})
    | None => (None, self)
    end.

(** [n] calls of [get_next_task] in a row: what they return. *)
Fixpoint serve (n : nat) (self : LocalListTaskProvider) : list (option Task) :=
  match n with
  | O => []
  | S n' => let '(t, self') := get_next_task self in t :: serve n' self'
  end.

(** The tasks of a list, numbered from [first] on. *)
Fixpoint numbered (first : nat) (tasks : list string) : list Task :=
  match tasks with
  | [] => []
  | t :: rest =>
      {| task_id := "local_" +:+ Py.str (Z.of_nat first); text := t |}
      :: numbered (S first) rest
  end.

(** *** [App.__init__]: [self._stop_key]

    [STOP_KEY] is the value of the environment variable, [None] when it
    is not set. *)
Definition _stop_key (STOP_KEY : option string) : string :=
  let s := Py.strip (default "" STOP_KEY) in
  if String.eqb (Py.upper s) "ESC" then "" else s.

End tk_dataset_recorder.

(** ** Sample data *)

Module sample.

Import datagrabber.

Definition mouse_move (t : float) (x y : Z) : Event :=
  {| ts := t; etype := "mouse_move";
     payload := {| payload_x := Some x; payload_y := Some y;
                   payload_button := None; payload_action := None;
                   payload_scroll_dx := None; payload_scroll_dy := None;
                   payload_key := None; payload_key_code := None;
                   payload_modifiers := None |} |}.

Definition key_down (t : float) (k : string) : Event :=
  {| ts := t; etype := "key_down";
     payload := {| payload_x := None; payload_y := None;
                   payload_button := None; payload_action := None;
                   payload_scroll_dx := None; payload_scroll_dy := None;
                   payload_key := Some k; payload_key_code := None;
                   payload_modifiers := Some "" |} |}.

(** The name made of the one character BEL (code 7). *)
Definition bell : string := String (ascii_of_nat 7) EmptyString.

(** The text [5] between the separators FS and US (codes 28 and 31),
    which [str.strip] removes and [int()] does not skip. *)
Definition five_between_separators : string :=
  String (ascii_of_nat 28) (String "5" (String (ascii_of_nat 31) EmptyString)).

(** A number of 4301 digits, one more than [int()] reads. *)
Definition digits_4301 : string := String.concat "" (repeat "1" 4301).

(** The name [F] followed by 4300 zeros and a five. *)
Definition f_and_4301_digits : string :=
  "F" +:+ String.concat "" (repeat "0" 4300) +:+ "5".

(** Three events, the second stamped at one half. *)
Definition buffer : SafeDeque.t :=
  [mouse_move 0.25 10 20; key_down 0.5 "a"; mouse_move 0.75 12 25].

(** A session of three frames: two ticks, at one half and at one, then a
    late mouse move. Every timestamp has at most six decimals, so that
    rounding leaves it as it is. *)
Definition ticks : list Tick :=
  [ {| arrivals := buffer; t_boundary_rel := 0.5 |};
    {| arrivals := []; t_boundary_rel := 1 |} ].

Definition session : State :=
  record (fun t => t) 0 ticks [mouse_move 1.5 0 0].


(** Rows of a log for the validator. *)
Definition no_cells : validate_recording.Payload :=
  {| validate_recording.x := Some ""; validate_recording.y := Some "";
     validate_recording.dx := Some ""; validate_recording.dy := Some "";
     validate_recording.key := Some ""; validate_recording.key_code := Some "";
     validate_recording.mouse_button := Some "";
     validate_recording.action := Some "";
     validate_recording.scroll_dx := Some "";
     validate_recording.scroll_dy := Some "";
     validate_recording.modifiers := Some "" |}.

Definition frame_at (fid : Z) (t : float) : validate_recording.FrameRow :=
  {| validate_recording.fr_fid := fid; validate_recording.fr_t := t;
     validate_recording.fr_path := "frames/" +:+ Py.pad6 fid +:+ ".png" |}.

Definition key_event_at (fid : Z) (t : float) : validate_recording.EventRow :=
  {| validate_recording.ev_fid := fid; validate_recording.ev_t := t;
     validate_recording.ev_etype := "key_down";
     validate_recording.ev_payload := no_cells |}.

(** Frame 1 at zero and frame 2 at one. *)
Definition two_frames : list validate_recording.FrameRow :=
  [frame_at 1 0; frame_at 2 1].

(** [1 + 2**-21] and [1 - 2**-21]: less than [1e-6] away from one. *)
Definition just_after_one : float := 0x1.000008p+0.
Definition just_before_one : float := 0x1.fffffp-1.

(** [float("1.000001")] and [float("0.999999")]: one microsecond, the
    resolution of the recorder, away from one. *)
Definition microsecond_after_one : float := 0x1.000010c6f7a0bp+0.
Definition microsecond_before_one : float := 0x1.ffffde7210be9p-1.

(** A mouse row as [load_csv] returns it, with the given cells. *)
Definition mouse_event_at (fid : Z) (t : float) (x y dx dy : option string)
  : validate_recording.EventRow :=
  {| validate_recording.ev_fid := fid; validate_recording.ev_t := t;
     validate_recording.ev_etype := "mouse_move";
     validate_recording.ev_payload :=
       {| validate_recording.x := x; validate_recording.y := y;
          validate_recording.dx := dx; validate_recording.dy := dy;
          validate_recording.key := Some "";
          validate_recording.key_code := Some "";
          validate_recording.mouse_button := Some "";
          validate_recording.action := Some "";
          validate_recording.scroll_dx := Some "";
          validate_recording.scroll_dy := Some "";
          validate_recording.modifiers := Some "" |} |}.

Definition frame_line (fid : Z) (t : float) : validate_recording.CsvRow :=
  {| validate_recording.c_row_type := "frame";
     validate_recording.c_frame_id := fid;
     validate_recording.c_time_s := t;
     validate_recording.c_event_type := "frame";
     validate_recording.c_frame_path := "frames/" +:+ Py.pad6 fid +:+ ".png";
     validate_recording.c_payload := no_cells |}.

Definition key_line (fid : Z) (t : float) : validate_recording.CsvRow :=
  {| validate_recording.c_row_type := "event";
     validate_recording.c_frame_id := fid;
     validate_recording.c_time_s := t;
     validate_recording.c_event_type := "key_down";
     validate_recording.c_frame_path := "";
     validate_recording.c_payload := no_cells |}.

(** A recording directory with the given log, every image in place. *)
Definition disk_with (log : option (list validate_recording.CsvRow))
  : validate_recording.Disk :=
  {| validate_recording.events_csv := log;
     validate_recording.path_exists := fun _ => true;
     validate_recording.image_size := fun _ => Some (1920, 1080);
     validate_recording.pillow := true |}.

Definition default_args : validate_recording.Args :=
  {| validate_recording.check_images := false;
     validate_recording.sample_frames := 8 |}.

(** A log whose frame 2 was dropped: frames 1 and 3, and a key press
    attributed to frame 1. *)
Definition log_with_dropped_frame : list validate_recording.CsvRow :=
  [frame_line 1 0; key_line 1 0.25; frame_line 3 0.5].



(** A session of three frames whose first event is stamped at one
    hundred, later than both boundaries; a key press stamped at one
    quarter arrives behind it. *)
Definition blocked_ticks : list Tick :=
  [ {| arrivals := [mouse_move 100 10 20; key_down 0.25 "a"];
       t_boundary_rel := 0.5 |};
    {| arrivals := []; t_boundary_rel := 1 |} ].

(** What [float()] makes of the texts of the sample lines. *)
Definition float_ (s : string) : option float :=
  if String.eqb s "0.0" then Some 0%float
  else if String.eqb s "0.25" then Some 0.25%float
  else if String.eqb s "0.5" then Some 0.5%float
  else None.

(** A line of a file whose header is
    [row_type,frame_id,time_s,event_type,frame_path]; [frame_path] is
    [None] when the line ends before it. *)
Definition line (row_type frame_id time_s event_type : string)
    (frame_path : option string) : validate_recording_file.DictRow :=
  list_to_map
    [("row_type", Some row_type); ("frame_id", Some frame_id);
     ("time_s", Some time_s); ("event_type", Some event_type);
     ("frame_path", frame_path)].

Definition frame_1_line : validate_recording_file.DictRow :=
  line "frame" "1" "0.0" "frame" (Some "frames/000001.png").

Definition key_down_line : validate_recording_file.DictRow :=
  line "event" "1" "0.25" "key_down" (Some "").

(** [note,1,0.0,,]: a line of another type. *)
Definition note_line : validate_recording_file.DictRow :=
  line "note" "1" "0.0" "" (Some "").

(** [note,abc,0.0,,]: a line of another type whose [frame_id] is no
    integer. *)
Definition note_abc_line : validate_recording_file.DictRow :=
  line "note" "abc" "0.0" "" (Some "").

(** [frame,2,0.5,frame]: a frame line that ends before [frame_path]. *)
Definition short_frame_line : validate_recording_file.DictRow :=
  line "frame" "2" "0.5" "frame" None.

Definition with_images : validate_recording.Args :=
  {| validate_recording.check_images := true;
     validate_recording.sample_frames := 8 |}.

End sample.

(** ** Proof steps *)

(** Computes through records and matches, leaving the text functions
    folded. *)
Ltac crunch :=
  cbn -[Py.startswith Py.int Py.str Py.strip];
  change (Py.strip "event") with "event";
  cbn -[Py.startswith Py.int Py.str Py.strip].

(** Evaluates the list that a goal [Forall P l] or [StronglySorted R l]
    speaks of, then proves the goal item by item. *)
Ltac item_by_item :=
  lazymatch goal with
  | |- StronglySorted _ ?l =>
      let l' := eval vm_compute in l in
      replace l with l' by (vm_compute; reflexivity)
  | |- Forall _ ?l =>
      let l' := eval vm_compute in l in
      replace l with l' by (vm_compute; reflexivity)
  end;
  repeat constructor.

(** Splits the comparison of two or three binary64 values, as
    [SFcompare] unfolds it, into the cases of their signs, exponents and
    mantissas. *)
Ltac sf_cases :=
  repeat match goal with s : bool |- _ => destruct s end; try done;
  change (Pos.compare_cont Eq ?a ?b) with (Pos.compare a b) in *;
  repeat match goal with
         | |- context [Z.compare ?a ?b] => destruct (Z.compare_spec a b)
         | H : context [Z.compare ?a ?b] |- _ => destruct (Z.compare_spec a b)
         end; try done; try lia; subst;
  repeat match goal with
         | |- context [Pos.compare ?a ?b] => destruct (Pos.compare_spec a b)
         | H : context [Pos.compare ?a ?b] |- _ => destruct (Pos.compare_spec a b)
         end; try done; try lia.

(* ================================================================== *)
(** * Part II: properties                                              *)
(* ================================================================== *)

(** ** The order of binary64 values *)

Section FloatOrder.

Lemma SFleb_trans x y z :
  SFleb x y = true -> SFleb y z = true -> SFleb x z = true.
Proof.
  unfold SFleb, SFcompare.
  destruct x as [sx|sx| |sx mx ex], y as [sy|sy| |sy my ey],
           z as [sz|sz| |sz mz ez];
    repeat match goal with s : bool |- _ => destruct s end; try done.
  all: change (Pos.compare_cont Eq ?a ?b) with (Pos.compare a b).
  all: destruct (Z.compare_spec ex ey), (Z.compare_spec ey ez),
         (Z.compare_spec ex ez); try done; try lia; subst.
  all: destruct (Pos.compare_spec mx my), (Pos.compare_spec my mz),
         (Pos.compare_spec mx mz); try done; try lia.
Qed.

Lemma float_leb_trans (a b c : float) :
  PrimFloat.leb a b = true -> PrimFloat.leb b c = true ->
  PrimFloat.leb a c = true.
Proof. rewrite !leb_spec. apply SFleb_trans. Qed.

Lemma float_eqb_leb (a b : float) :
  PrimFloat.eqb a b = true -> PrimFloat.leb a b = true.
Proof.
  rewrite FloatAxioms.eqb_spec, leb_spec. unfold SFeqb, SFleb.
  by destruct (SFcompare _ _) as [[]|].
Qed.

Lemma SFltb_asym x y : SFltb x y = true -> SFltb y x = false.
Proof.
  unfold SFltb, SFcompare.
  destruct x as [sx|sx| |sx mx ex], y as [sy|sy| |sy my ey]; sf_cases.
Qed.

Lemma SFltb_not_eqb x y : SFltb x y = true -> SFeqb x y = false.
Proof. unfold SFltb, SFeqb. by destruct (SFcompare x y) as [[]|]. Qed.

Lemma SFleb_not_gt x y : SFleb x y = true -> SFltb y x = false.
Proof.
  unfold SFleb, SFltb, SFcompare.
  destruct x as [sx|sx| |sx mx ex], y as [sy|sy| |sy my ey]; sf_cases.
Qed.

Lemma SFltb_between x y z :
  SFeqb z z = true -> SFltb x y = true -> SFltb x z || SFltb z y = true.
Proof.
  unfold SFltb, SFeqb, SFcompare.
  destruct x as [sx|sx| |sx mx ex], y as [sy|sy| |sy my ey],
           z as [sz|sz| |sz mz ez]; sf_cases.
Qed.

Lemma float_ltb_asym (a b : float) :
  PrimFloat.ltb a b = true -> PrimFloat.ltb b a = false.
Proof. rewrite !ltb_spec. apply SFltb_asym. Qed.

Lemma float_eqb_not_ltb (a b : float) :
  PrimFloat.eqb a b = true -> PrimFloat.ltb a b = false.
Proof.
  rewrite FloatAxioms.eqb_spec, ltb_spec. intros He.
  destruct (SFltb _ _) eqn:Hl; [|done].
  by rewrite (SFltb_not_eqb _ _ Hl) in He.
Qed.

Lemma float_leb_not_gt (a b : float) :
  PrimFloat.leb a b = true -> PrimFloat.ltb b a = false.
Proof. rewrite leb_spec, ltb_spec. apply SFleb_not_gt. Qed.

(** A value that is no NaN is after [a] or before [b] when [a < b]. *)
Lemma float_ltb_between (a b c : float) :
  PrimFloat.eqb c c = true -> PrimFloat.ltb a b = true ->
  PrimFloat.ltb a c = true \/ PrimFloat.ltb c b = true.
Proof.
  rewrite FloatAxioms.eqb_spec, !ltb_spec. intros Hc Hab.
  by apply orb_prop, SFltb_between.
Qed.

End FloatOrder.

(** ** The event buffer *)

Section EventBuffer.

Import datagrabber datagrabber.SafeDeque.

Lemma nondecreasing_tail e dq :
  nondecreasing (e :: dq) = true -> nondecreasing dq = true.
Proof. destruct dq as [|e' dq]; [done|]. simpl. by intros [_ ?]%andb_prop. Qed.

(** In a buffer in timestamp order, nothing is stamped before the head. *)
Lemma nondecreasing_head e dq :
  nondecreasing (e :: dq) = true ->
  Forall (fun e' => PrimFloat.leb (ts e) (ts e') = true) dq.
Proof.
  revert e. induction dq as [|e' dq IH]; intros e H; [constructor|].
  simpl in H. apply andb_prop in H as [Hle Hs].
  constructor; [done|].
  eapply Forall_impl; [apply (IH e' Hs)|].
  intros e'' ?. by eapply float_leb_trans.
Qed.

Lemma pop_all_upto_app dq cutoff :
  fst (pop_all_upto dq cutoff) ++ snd (pop_all_upto dq cutoff) = dq.
Proof.
  induction dq as [|e dq IH]; [done|]. simpl.
  destruct (PrimFloat.leb (ts e) cutoff); [|done].
  destruct (pop_all_upto dq cutoff). simpl in *. by rewrite IH.
Qed.

(** Whatever the order of the buffer, only due events are popped. *)
Lemma pop_all_upto_due dq cutoff :
  Forall (fun e => due cutoff e = true) (fst (pop_all_upto dq cutoff)).
Proof.
  induction dq as [|e dq IH]; [constructor|]. simpl.
  destruct (PrimFloat.leb (ts e) cutoff) eqn:He; [|constructor].
  destruct (pop_all_upto dq cutoff). by constructor.
Qed.

(** The pop stops at an event that is not due. *)
Lemma pop_all_upto_head dq cutoff e :
  head (snd (pop_all_upto dq cutoff)) = Some e -> due cutoff e = false.
Proof.
  induction dq as [|e' dq IH]; [done|]. simpl.
  destruct (PrimFloat.leb (ts e') cutoff) eqn:He.
  - destruct (pop_all_upto dq cutoff). exact IH.
  - simpl. intros [= <-]. exact He.
Qed.

Lemma pop_all_upto_filter dq cutoff :
  nondecreasing dq = true ->
  pop_all_upto dq cutoff =
    (List.filter (due cutoff) dq,
     List.filter (fun e => negb (due cutoff e)) dq).
Proof.
  induction dq as [|e dq IH]; intros Hs; [done|].
  simpl. change (PrimFloat.leb (ts e) cutoff) with (due cutoff e).
  destruct (due cutoff e) eqn:He; simpl.
  - by rewrite (IH (nondecreasing_tail _ _ Hs)).
  - unfold due in He. assert (Hlate : Forall (fun e' => due cutoff e' = false) dq).
    { eapply Forall_impl; [apply (nondecreasing_head _ _ Hs)|].
      intros e' Hle. unfold due.
      destruct (PrimFloat.leb (ts e') cutoff) eqn:He'; [|done].
      by rewrite (float_leb_trans _ _ _ Hle He') in He. }
    clear -Hlate. f_equal.
    + induction Hlate as [|e' dq He' _ IH']; [done|]. simpl. by rewrite He'.
    + f_equal. induction Hlate as [|e' dq He' _ IH']; [done|].
      simpl. rewrite He'. simpl. by f_equal.
Qed.

Lemma nondecreasing_filter (f : Event -> bool) dq :
  nondecreasing dq = true -> nondecreasing (List.filter f dq) = true.
Proof.
  induction dq as [|e dq IH]; intros Hs; [done|].
  pose proof (nondecreasing_head _ _ Hs) as Hh.
  specialize (IH (nondecreasing_tail _ _ Hs)).
  simpl. destruct (f e); [|done].
  destruct (List.filter f dq) as [|e' l] eqn:Hf; [done|].
  change (PrimFloat.leb (ts e) (ts e') && nondecreasing (e' :: l) = true).
  rewrite IH, andb_true_r.
  assert (Hin : In e' dq).
  { apply (proj1 (filter_In f e' dq)). rewrite Hf. by left. }
  by apply (proj1 (List.Forall_forall _ _) Hh).
Qed.

(** C3. When the buffer holds its events in non-decreasing timestamp
    order, [pop_all_upto cutoff] returns exactly the events stamped at
    or before [cutoff], in their order, and leaves exactly the later ones
    in the buffer, in their order; an event stamped at [cutoff] itself is
    among the returned ones. *)
Theorem pop_all_upto_exact (dq : SafeDeque.t) (cutoff : float) :
  nondecreasing dq = true ->
  pop_all_upto dq cutoff =
    (List.filter (due cutoff) dq,
     List.filter (fun e => negb (due cutoff e)) dq)
  /\ fst (pop_all_upto dq cutoff) ++ snd (pop_all_upto dq cutoff) = dq
  /\ nondecreasing (fst (pop_all_upto dq cutoff)) = true
  /\ Forall (fun e => PrimFloat.eqb (ts e) cutoff = true ->
                      In e (fst (pop_all_upto dq cutoff))) dq.
Proof.
  intros Hs. pose proof (pop_all_upto_filter dq cutoff Hs) as Heq.
  split; [done|]. split; [apply pop_all_upto_app|].
  rewrite Heq. simpl. split; [by apply nondecreasing_filter|].
  apply List.Forall_forall. intros e Hin Hc.
  apply filter_In. split; [done|]. by apply float_eqb_leb.
Qed.

Lemma pop_all_upto_exact_witness :
  nondecreasing sample.buffer = true
  /\ pop_all_upto sample.buffer 0.5 =
       ([sample.mouse_move 0.25 10 20; sample.key_down 0.5 "a"],
        [sample.mouse_move 0.75 12 25]).
Proof.
  split; [reflexivity|].
  exact (proj1 (pop_all_upto_exact sample.buffer 0.5%float eq_refl)).
Defined.

End EventBuffer.

(** ** The frame loop *)

Section FrameLoop.

Import datagrabber datagrabber.SafeDeque.

Variable round6 : float -> float.

Lemma event_row_attributed fid last ev :
  attributed round6 fid ev (fst (event_row round6 fid last ev)).
Proof.
  unfold event_row, attributed.
  destruct (Py.startswith (etype ev) "mouse").
  - by destruct last as [[lx ly]|].
  - by destruct (Py.startswith (etype ev) "key").
Qed.

(** A [for ev in ...] loop appends one row per event, in the order of the
    events, under the frame id it started with, and touches neither the
    buffer nor the frame counters. *)
Lemma write_events_log evs st :
  exists rows,
    csv (write_events round6 evs st) = csv st ++ rows
    /\ Forall2 (attributed round6 (frame_id st)) evs rows
    /\ frame_id (write_events round6 evs st) = frame_id st
    /\ events_q (write_events round6 evs st) = events_q st
    /\ _frames_captured (write_events round6 evs st) = _frames_captured st.
Proof.
  revert st. induction evs as [|ev evs IH]; intros st.
  - exists []. simpl. rewrite app_nil_r. repeat split. constructor.
  - simpl.
    pose proof (event_row_attributed (frame_id st)
                  (_last_recorded_mouse_pos st) ev) as Hrow.
    destruct (event_row round6 (frame_id st) (_last_recorded_mouse_pos st) ev)
      as [row last'].
    edestruct IH as (rows & Hcsv & Hall & Hfid & Hq & Hcap).
    exists (row :: rows). rewrite Hcsv, Hfid, Hq, Hcap. simpl in *.
    rewrite <- app_assoc. repeat split. by constructor.
Qed.

Lemma attributed_not_frame fid evs rows :
  Forall2 (attributed round6 fid) evs rows ->
  List.filter is_frame_row rows = [].
Proof.
  induction 1 as [|ev r evs rows (Hty & _) _ IH]; [done|].
  simpl. unfold is_frame_row at 1. by rewrite Hty.
Qed.

Lemma ids_upto_S n : ids_upto (S n) = ids_upto n ++ [Z.of_nat (S n)].
Proof. unfold ids_upto. by rewrite seq_S, map_app. Qed.

(** The state when the loop is left after the iterations [ticks]. *)
Lemma loop_frames t_rel ticks :
  let st := fold_left (tick round6) ticks (first_frame round6 t_rel) in
  frame_id st = Z.of_nat (S (length ticks))
  /\ map row_frame_id (List.filter is_frame_row (csv st))
     = ids_upto (S (length ticks))
  /\ exists rest, csv st = frame_row round6 1 t_rel :: rest.
Proof.
  induction ticks as [|tk ticks IH] using rev_ind; simpl.
  - repeat split. by exists [].
  - rewrite fold_left_app. simpl.
    set (st := fold_left (tick round6) ticks (first_frame round6 t_rel)) in *.
    destruct IH as (Hfid & Hids & rest & Hcsv).
    unfold tick.
    destruct (pop_all_upto (events_q st ++ arrivals tk) (t_boundary_rel tk))
      as [drained left].
    edestruct (write_events_log drained) as (rows & Hlog & Hall & _).
    simpl in *. rewrite Hlog.
    rewrite length_app, Nat.add_1_r. simpl length.
    split; [rewrite Hfid; lia|]. split.
    + rewrite !List.filter_app, (attributed_not_frame _ _ _ Hall), app_nil_r.
      simpl. rewrite map_app, Hids, (ids_upto_S (S (length ticks))).
      simpl. rewrite Hfid. do 3 f_equal. lia.
    + rewrite Hcsv. by eexists.
Qed.

(** One iteration: the rows of the drained events, then the new frame. *)
Lemma tick_log (st : State) (tk : Tick) :
  exists rows,
    csv (tick round6 st tk)
    = csv st ++ rows
      ++ [frame_row round6 (frame_id st + 1) (t_boundary_rel tk)]
    /\ Forall2 (attributed round6 (frame_id st))
         (fst (pop_all_upto (events_q st ++ arrivals tk) (t_boundary_rel tk)))
         rows
    /\ Forall (fun e => due (t_boundary_rel tk) e = true)
         (fst (pop_all_upto (events_q st ++ arrivals tk) (t_boundary_rel tk)))
    /\ frame_id (tick round6 st tk) = frame_id st + 1
    /\ events_q (tick round6 st tk)
       = snd (pop_all_upto (events_q st ++ arrivals tk) (t_boundary_rel tk)).
Proof.
  unfold tick.
  pose proof (pop_all_upto_due (events_q st ++ arrivals tk) (t_boundary_rel tk)) as Hdue.
  destruct (pop_all_upto (events_q st ++ arrivals tk) (t_boundary_rel tk))
    as [drained left].
  edestruct (write_events_log drained) as (rows & Hlog & Hall & _ & Hq & _).
  exists rows. simpl in *. rewrite Hlog, Hq, <- app_assoc. by repeat split.
Qed.


(** The tail flush: one row for every event still buffered. *)
Lemma flush_tail_log (st : State) (late : list Event) :
  exists rows,
    csv (flush_tail round6 st late) = csv st ++ rows
    /\ Forall2 (attributed round6 (frame_id st)) (events_q st ++ late) rows
    /\ events_q (flush_tail round6 st late) = [].
Proof.
  unfold flush_tail, drain_all.
  edestruct (write_events_log (events_q st ++ late))
    as (rows & Hlog & Hall & _ & Hq & _).
  exists rows. rewrite Hlog, Hq. by simpl in *.
Qed.

(** In [record] the tail goes under the id of the last frame written. *)
Lemma record_log (t_rel : float) (ticks : list Tick) (late : list Event) :
  exists rows,
    csv (record round6 t_rel ticks late)
    = csv (fold_left (tick round6) ticks (first_frame round6 t_rel)) ++ rows
    /\ Forall2 (attributed round6 (Z.of_nat (S (length ticks))))
         (events_q (fold_left (tick round6) ticks (first_frame round6 t_rel))
          ++ late) rows
    /\ List.last
         (map row_frame_id
            (List.filter is_frame_row
               (csv (fold_left (tick round6) ticks (first_frame round6 t_rel)))))
         0
       = Z.of_nat (S (length ticks)).
Proof.
  unfold record.
  destruct (loop_frames t_rel ticks) as (Hfid & Hids & _).
  destruct (flush_tail_log (fold_left (tick round6) ticks (first_frame round6 t_rel)) late)
    as (rows & Hlog & Hall & _).
  exists rows. rewrite Hfid in Hall. split; [done|]. split; [done|].
  rewrite Hids, ids_upto_S. apply last_last.
Qed.

End FrameLoop.

(** ** Sorting a list that is in order *)

Section SortInOrder.

Context {A : Type} (lt : A -> A -> bool).

Lemma insert_by_last a l :
  Forall (fun b => lt a b = false) l -> Py.insert_by lt a l = l ++ [a].
Proof.
  induction 1 as [|b l Hb _ IH]; [done|]. simpl. by rewrite Hb, IH.
Qed.

Lemma sort_by_snoc l a :
  Py.sort_by lt (l ++ [a]) = Py.insert_by lt a (Py.sort_by lt l).
Proof. unfold Py.sort_by. by rewrite fold_left_app. Qed.

End SortInOrder.

Lemma sort_by_key_in_order {A} (key : A -> Z) (l : list A) :
  StronglySorted Z.le (map key l) ->
  Py.sort_by (fun a b => key a <? key b) l = l.
Proof.
  induction l as [|a l IH] using rev_ind; intros Hs; [done|].
  rewrite map_app in Hs. apply StronglySorted_app in Hs as (Hle & Hl & _).
  rewrite sort_by_snoc, (IH Hl). apply insert_by_last.
  apply List.Forall_forall. intros b Hb.
  apply Z.ltb_ge, Hle; [|set_solver].
  apply list_elem_of_In, in_map, Hb.
Qed.

Lemma ids_upto_in_order n : StronglySorted Z.le (ids_upto n).
Proof.
  induction n as [|n IH]; [constructor|].
  unfold ids_upto in *. rewrite seq_S, map_app.
  apply StronglySorted_app_2; [|done|repeat constructor].
  intros x1 x2 Hx1%list_elem_of_In Hx2%list_elem_of_In.
  apply in_map_iff in Hx1 as (k & <- & Hk%in_seq).
  destruct Hx2 as [<-|[]]. lia.
Qed.

(** ** Frame ids *)

Section FrameIds.

Import datagrabber validate_recording.

Lemma ids_from_S i n : ids_from i (S n) = i :: ids_from (i + 1) n.
Proof.
  unfold ids_from. simpl. rewrite <- seq_shift, map_map.
  f_equal; [lia|]. apply map_ext. intros k. lia.
Qed.

Lemma ids_upto_from n : ids_upto n = ids_from 1 n.
Proof.
  unfold ids_upto, ids_from. rewrite <- seq_shift, map_map.
  apply map_ext. intros k. lia.
Qed.

(** The first loop of [check_frames] reports nothing exactly when the ids
    count up from [i], and one [F02] otherwise. *)
Lemma first_id_mismatch_cases i frames :
  (first_id_mismatch i frames = []
   /\ map fr_fid frames = ids_from i (length frames))
  \/ ((exists e s, first_id_mismatch i frames = [F02 e s])
      /\ map fr_fid frames <> ids_from i (length frames)).
Proof.
  revert i. induction frames as [|fr frames IH]; intros i; [by left|].
  simpl. rewrite ids_from_S.
  destruct (Z.eqb_spec (fr_fid fr) i) as [->|Hne].
  - destruct (IH (i + 1)) as [[-> ->]|[Hex Hneq]]; [by left|].
    right. split; [done|]. intros [=]. by apply Hneq.
  - right. split; [by eexists _, _|]. by intros [=].
Qed.

Lemma first_time_drop_no_F02 frames :
  existsb is_F02 (first_time_drop frames) = false.
Proof.
  induction frames as [|prev frames IH]; [done|].
  destruct frames as [|cur rest]; [done|].
  cbn [first_time_drop].
  by destruct (PrimFloat.ltb _ _).
Qed.

Lemma check_frames_F02 frames :
  existsb is_F02 (check_frames frames) = true
  <-> map fr_fid frames <> ids_upto (length frames).
Proof.
  rewrite ids_upto_from. unfold check_frames.
  destruct frames as [|fr frames]; [by split|].
  rewrite existsb_app, first_time_drop_no_F02, orb_false_r.
  destruct (first_id_mismatch_cases 1 (fr :: frames))
    as [[-> Heq]|[(e & s & ->) Hne]]; by split.
Qed.

End FrameIds.

(** ** The frames of a recorded session *)

Section RecordedFrames.

Import datagrabber datagrabber.SafeDeque validate_recording events_csv.

Variable round6 : float -> float.

Lemma attributed_typed fid evs rows :
  Forall2 (attributed round6 fid) evs rows -> Forall row_typed rows.
Proof.
  induction 1 as [|ev r evs rows (Hty & _) _ IH]; constructor; [|done].
  by right.
Qed.

Lemma loop_rows_typed t_rel ticks :
  Forall row_typed (csv (fold_left (tick round6) ticks (first_frame round6 t_rel))).
Proof.
  induction ticks as [|tk ticks IH] using rev_ind.
  - repeat constructor.
  - rewrite fold_left_app. simpl.
    destruct (tick_log round6 (fold_left (tick round6) ticks (first_frame round6 t_rel)) tk)
      as (rows & -> & Hall & _).
    rewrite !Forall_app. split; [done|]. split.
    + by eapply attributed_typed.
    + repeat constructor.
Qed.

(** The frame rows of the log of a session carry the ids [1 .. N], [N]
    being one more than the number of iterations, and the log starts with
    frame 1. *)
Lemma record_frame_ids t_rel ticks late :
  map row_frame_id
    (List.filter is_frame_row (csv (record round6 t_rel ticks late)))
  = ids_upto (S (length ticks))
  /\ (exists rest,
        csv (record round6 t_rel ticks late) = frame_row round6 1 t_rel :: rest)
  /\ Forall row_typed (csv (record round6 t_rel ticks late)).
Proof.
  destruct (record_log round6 t_rel ticks late) as (rows & -> & Hall & _).
  destruct (loop_frames round6 t_rel ticks) as (_ & Hids & rest & Hcsv).
  split; [|split].
  - by rewrite List.filter_app, (attributed_not_frame _ _ _ _ Hall), app_nil_r.
  - rewrite Hcsv. by eexists.
  - apply Forall_app. split; [apply loop_rows_typed|by eapply attributed_typed].
Qed.

(** What [load_csv] takes for frames out of rows of the recorder. *)
Lemma frames_of_read_back rows :
  Forall row_typed rows ->
  map fr_fid (frames_of (map read_back rows))
  = map row_frame_id (List.filter is_frame_row rows).
Proof.
  induction 1 as [|r rows Hty _ IH]; [done|].
  unfold frames_of in *. simpl. unfold is_frame_row at 1.
  destruct Hty as [Hty|Hty]; rewrite Hty; simpl;
    first [exact IH | f_equal; exact IH].
Qed.

(** Read back, the frames of a session pass the id check. *)
Lemma record_passes_id_check t_rel ticks late :
  existsb is_F02
    (check_frames
       (fst (load_csv (map read_back (csv (record round6 t_rel ticks late))))))
  = false.
Proof.
  destruct (record_frame_ids t_rel ticks late) as (Hids & _ & Hty).
  pose proof (frames_of_read_back _ Hty) as Hfr. rewrite Hids in Hfr.
  unfold load_csv. simpl.
  rewrite (sort_by_key_in_order fr_fid);
    [|rewrite Hfr; apply ids_upto_in_order].
  apply not_true_is_false. rewrite check_frames_F02.
  intros Hne. apply Hne. rewrite Hfr. f_equal.
  apply (f_equal (@length Z)) in Hfr. unfold ids_upto in Hfr.
  by rewrite !length_map, length_seq in Hfr.
Qed.

End RecordedFrames.

(** C1. The frame rows of the log that [record] writes carry the ids
    [1 .. N] in this order, without gap or repeat, [N] being one more than
    the number of iterations of the loop; the row of frame 1 is the first
    row of the log, before anything an iteration writes; read back by
    [load_csv], these frames get no [F02] from [check_frames]. And
    [check_frames] reports an [F02] for a list of frames exactly when the
    ids of the list, in its order, are not [1 .. N], [N] being its
    length. *)
Theorem frame_ids_contiguous :
  (forall (round6 : float -> float) (t_rel : float)
          (ticks : list datagrabber.Tick) (late : list datagrabber.Event),
      map datagrabber.row_frame_id
        (List.filter datagrabber.is_frame_row
           (datagrabber.csv (datagrabber.record round6 t_rel ticks late)))
      = ids_upto (S (length ticks))
      /\ (exists rest,
            datagrabber.csv (datagrabber.record round6 t_rel ticks late)
            = datagrabber.frame_row round6 1 t_rel :: rest)
      /\ existsb validate_recording.is_F02
           (validate_recording.check_frames
              (fst (validate_recording.load_csv
                      (map events_csv.read_back
                         (datagrabber.csv
                            (datagrabber.record round6 t_rel ticks late))))))
         = false)
  /\ (forall frames : list validate_recording.FrameRow,
         existsb validate_recording.is_F02 (validate_recording.check_frames frames)
         = true
         <-> map validate_recording.fr_fid frames <> ids_upto (length frames)).
Proof.
  split.
  - intros round6 t_rel ticks late.
    destruct (record_frame_ids round6 t_rel ticks late) as (Hids & Hfirst & _).
    split; [done|]. split; [done|]. apply record_passes_id_check.
  - apply check_frames_F02.
Qed.

Section Attribution.

Import datagrabber datagrabber.SafeDeque.




End Attribution.

(** ** [int(str(n))] is [n] *)

Section IntOfStr.

Lemma string_of_uint_digits d : Py.all_digits (NilEmpty.string_of_uint d) = true.
Proof. induction d; simpl; by rewrite ?IHd. Qed.

Lemma is_digit_not_blank c : Py.is_digit c = true -> Py.is_c_space c = false.
Proof. by destruct c as [[] [] [] [] [] [] [] []]. Qed.

Lemma is_digit_not_sign c :
  Py.is_digit c = true -> c <> "-"%char /\ c <> "+"%char /\ c <> "_"%char.
Proof. by destruct c as [[] [] [] [] [] [] [] []]. Qed.

(** Nothing is skipped at the right of a text that ends in a digit. *)
Lemma rskip_digits s :
  Py.all_digits s = true -> Py.rskip s = s.
Proof.
  induction s as [|c s IH]; [done|]. simpl.
  intros [Hc Hs]%andb_prop. rewrite (IH Hs), (is_digit_not_blank _ Hc).
  by destruct s.
Qed.

Lemma skip_digits s : Py.all_digits s = true -> Py.rskip (Py.lskip s) = s.
Proof.
  intros Hs. destruct s as [|c s]; [done|]. simpl in *.
  apply andb_prop in Hs as [Hc Hs].
  rewrite (is_digit_not_blank _ Hc).
  change (Py.rskip (String c s) = String c s).
  apply rskip_digits. simpl. by rewrite Hc, Hs.
Qed.

Lemma int_digits_digits b s :
  Py.all_digits s = true -> (s <> "" \/ b = true) ->
  Py.int_digits b s = Some s.
Proof.
  revert b. induction s as [|c s IH]; intros b Hs Hne.
  - by destruct Hne as [Hne | ->].
  - simpl in *. apply andb_prop in Hs as [Hc Hs].
    rewrite Hc, (IH true Hs); [done|by right].
Qed.

(** The text of a number without sign, of no more digits than [int]
    reads, is read back as that number. *)
Lemma int_unsigned d :
  d <> Decimal.Nil ->
  Z.of_nat (String.length (NilEmpty.string_of_uint d)) <= Py.int_max_str_digits ->
  Py.int (NilEmpty.string_of_uint d) = Some (Z.of_uint d).
Proof.
  intros Hd Hlen. pose proof (string_of_uint_digits d) as Hs.
  unfold Py.int. rewrite (skip_digits _ Hs).
  destruct (NilEmpty.string_of_uint d) as [|c s] eqn:Hstr; [by destruct d|].
  assert (Hc : Py.is_digit c = true) by (simpl in Hs; by apply andb_prop in Hs as []).
  assert (Hsign : match String c s with
                  | String "-" r => (true, r)
                  | String "+" r => (false, r)
                  | _ => (false, String c s)
                  end = (false, String c s)).
  { clear -Hc. by destruct c as [[] [] [] [] [] [] [] []]. }
  rewrite Hsign, (int_digits_digits false _ Hs); [|by left].
  rewrite (proj2 (Z.ltb_ge _ _) Hlen).
  by rewrite <- Hstr, NilEmpty.usu.
Qed.

Lemma int_negative d :
  d <> Decimal.Nil ->
  Z.of_nat (String.length (NilEmpty.string_of_uint d)) <= Py.int_max_str_digits ->
  Py.int (String "-" (NilEmpty.string_of_uint d)) = Some (- Z.of_uint d).
Proof.
  intros Hd Hlen. pose proof (string_of_uint_digits d) as Hs.
  unfold Py.int.
  change (Py.lskip (String "-" ?s)) with (String "-" s).
  assert (Hr : Py.rskip (String "-" (NilEmpty.string_of_uint d))
               = String "-" (NilEmpty.string_of_uint d)).
  { simpl. rewrite (rskip_digits _ Hs). by destruct (NilEmpty.string_of_uint d). }
  rewrite Hr, (int_digits_digits false _ Hs), (proj2 (Z.ltb_ge _ _) Hlen),
    NilEmpty.usu; [done|].
  left. by destruct d.
Qed.

(** [int(str(n))] is [n] for every [n] that [str] writes. *)
Lemma int_str (n : Z) : Py.str_fits n = true -> Py.int (Py.str n) = Some n.
Proof.
  unfold Py.str_fits. intros Hfit%Z.leb_le.
  destruct n as [|p|p]; [done| |]; unfold Py.str in *; simpl in *.
  - pose proof (Unsigned.to_uint_nonnil p) as Hp.
    assert (Heq : NilZero.string_of_uint (Pos.to_uint p)
                  = NilEmpty.string_of_uint (Pos.to_uint p))
      by (by destruct (Pos.to_uint p)).
    rewrite Heq in *.
    rewrite (int_unsigned _ Hp Hfit). unfold Z.of_uint.
    by rewrite Unsigned.of_to.
  - pose proof (Unsigned.to_uint_nonnil p) as Hp.
    assert (Heq : NilZero.string_of_uint (Pos.to_uint p)
                  = NilEmpty.string_of_uint (Pos.to_uint p))
      by (by destruct (Pos.to_uint p)).
    rewrite Heq in *.
    rewrite (int_negative _ Hp Hfit). unfold Z.of_uint.
    by rewrite Unsigned.of_to.
Qed.

Lemma str_nonempty (n : Z) : String.eqb (Py.str n) "" = false.
Proof.
  destruct n as [|p|p]; [done| |done]. unfold Py.str. simpl.
  pose proof (Unsigned.to_uint_nonnil p) as Hp.
  by destruct (Pos.to_uint p).
Qed.

Lemma prefix_cons a p s :
  String.prefix (String a p) s = true ->
  exists r, s = String a r /\ String.prefix p r = true.
Proof.
  destruct s as [|b r]; simpl; [done|].
  destruct (ascii_dec a b) as [->|]; [|done]. eauto.
Qed.

(** [strip] keeps a prefix that holds no blank. *)
Lemma strip_keeps_mouse s :
  Py.startswith s "mouse" = true -> Py.startswith (Py.strip s) "mouse" = true.
Proof.
  unfold Py.startswith. intros H.
  do 5 (apply prefix_cons in H as (? & -> & H)).
  unfold Py.strip.
  change (Py.lstrip (String "m" ?r)) with (String "m" r).
  cbn [Py.rstrip]. destruct (Py.rstrip _); reflexivity.
Qed.

End IntOfStr.

(** ** Mouse deltas, written and recomputed *)

Section MouseDeltas.

Import datagrabber validate_recording events_csv.

Variable round6 : float -> float.

Lemma events_in_log_order_app l1 l2 :
  events_in_log_order (l1 ++ l2)
  = events_in_log_order l1 ++ events_in_log_order l2.
Proof. unfold events_in_log_order, events_of. by rewrite map_app, omap_app. Qed.

Lemma mouse_rows_app l1 l2 : mouse_rows (l1 ++ l2) = mouse_rows l1 + mouse_rows l2.
Proof. unfold mouse_rows. rewrite List.filter_app, length_app. lia. Qed.

(** The row the recorder writes for [ev] stores the difference to the
    position it holds. *)
Lemma event_row_in_step fid last ev :
  follow_step (true, last) (fst (event_row round6 fid last ev))
  = (true, snd (event_row round6 fid last ev)).
Proof.
  unfold event_row, follow_step, is_mouse_row.
  destruct (Py.startswith (etype ev) "mouse") eqn:Hm.
  - destruct last as [[lx ly]|]; crunch; rewrite Hm; crunch;
      by rewrite ?Z.eqb_refl.
  - destruct (Py.startswith (etype ev) "key"); crunch; by rewrite Hm.
Qed.

Lemma write_events_in_step evs st :
  in_step st -> in_step (write_events round6 evs st).
Proof.
  revert st. induction evs as [|ev evs IH]; intros st Hst; [done|].
  simpl.
  pose proof (event_row_in_step (frame_id st) (_last_recorded_mouse_pos st) ev)
    as Hf.
  destruct (event_row round6 (frame_id st) (_last_recorded_mouse_pos st) ev)
    as [row last'].
  apply IH. unfold in_step in *. simpl in *.
  by rewrite fold_left_app, Hst.
Qed.

Lemma frame_row_in_step st fid t q cap :
  in_step st ->
  in_step {| events_q := q; frame_id := fid;
             _last_recorded_mouse_pos := _last_recorded_mouse_pos st;
             _frames_captured := cap;
             _events_written := _events_written st;
             csv := csv st ++ [frame_row round6 fid t] |}.
Proof.
  intros Hst. unfold in_step in *. simpl.
  by rewrite fold_left_app, Hst.
Qed.

Lemma tick_in_step st tk : in_step st -> in_step (tick round6 st tk).
Proof.
  intros Hst. unfold tick.
  destruct (SafeDeque.pop_all_upto _ _) as [drained left].
  apply (frame_row_in_step (write_events round6 drained _)).
  by apply write_events_in_step.
Qed.

Lemma record_in_step t_rel ticks late :
  in_step (record round6 t_rel ticks late).
Proof.
  unfold record, flush_tail, SafeDeque.drain_all.
  apply write_events_in_step.
  assert (Hloop : in_step (fold_left (tick round6) ticks (first_frame round6 t_rel))).
  { induction ticks as [|tk ticks IHticks] using rev_ind; [done|].
    rewrite fold_left_app. by apply tick_in_step. }
  exact Hloop.
Qed.

(** Once a delta is off, the reading of the log stays negative. *)
Lemma follow_step_false log p :
  fst (fold_left follow_step log (false, p)) = false.
Proof.
  revert p. induction log as [|r log IH]; intros p; [done|]. simpl.
  destruct (is_mouse_row r); [|apply IH].
  destruct (row_x r), (row_y r), (row_dx r), (row_dy r); apply IH.
Qed.

End MouseDeltas.

(** ** Events against frame boundaries *)

Section EventBounds.

Import validate_recording.

Lemma frame_times_snoc frames fr :
  frame_times (frames ++ [fr]) = <[fr_fid fr := fr_t fr]> (frame_times frames).
Proof. unfold frame_times. by rewrite fold_left_app. Qed.

(** With distinct frame ids the dict maps the id of every frame to its
    timestamp, and holds nothing else. *)
Lemma frame_times_lookup frames k t :
  NoDup (map fr_fid frames) ->
  frame_times frames !! k = Some t
  <-> exists fr, In fr frames /\ fr_fid fr = k /\ fr_t fr = t.
Proof.
  induction frames as [|fr frames IH] using rev_ind; intros Hnd.
  - split; [done|]. by intros (? & [] & _).
  - rewrite map_app in Hnd. apply NoDup_app in Hnd as (Hnd & Hfresh & _).
    rewrite frame_times_snoc, lookup_insert_Some, (IH Hnd). split.
    + intros [[<- <-]|[Hne (fr' & Hin & <- & <-)]].
      * exists fr. split; [|done]. apply in_or_app. right. by left.
      * exists fr'. split; [|done]. apply in_or_app. by left.
    + intros (fr' & [Hin|[<-|[]]]%in_app_or & <- & <-); [|by left].
      right. split; [|by exists fr'].
      intros Heq. apply (Hfresh (fr_fid fr')).
      * apply list_elem_of_In, in_map, Hin.
      * rewrite <- Heq. apply list_elem_of_In. by left.
Qed.

Lemma ids_upto_NoDup n : NoDup (ids_upto n).
Proof.
  unfold ids_upto. apply (NoDup_fmap_2 Z.of_nat), NoDup_ListNoDup, seq_NoDup.
Qed.

Lemma In_ids_upto k n : In k (ids_upto n) <-> 1 <= k <= Z.of_nat n.
Proof.
  unfold ids_upto. rewrite in_map_iff. split.
  - intros (i & <- & Hi%in_seq). lia.
  - intros Hk. exists (Z.to_nat k). split; [lia|]. apply in_seq. lia.
Qed.

End EventBounds.

(** ** Frames with the ids [1 .. N] *)

Section Contiguous.

Import validate_recording.

Variable frames : list FrameRow.
Hypothesis Hids : map fr_fid frames = ids_upto (length frames).

Lemma frame_in_range fr :
  In fr frames -> 1 <= fr_fid fr <= Z.of_nat (length frames).
Proof.
  intros Hin. apply In_ids_upto. rewrite <- Hids. by apply in_map.
Qed.

Lemma frame_exists k :
  1 <= k <= Z.of_nat (length frames) ->
  exists fr, In fr frames /\ fr_fid fr = k.
Proof.
  intros Hk%In_ids_upto. rewrite <- Hids in Hk.
  apply in_map_iff in Hk as (fr & <- & Hin). by exists fr.
Qed.

Lemma getitem_frame fr :
  In fr frames -> getitem (frame_times frames) (fr_fid fr) = Py.Ok (fr_t fr).
Proof.
  intros Hin. unfold getitem.
  assert (Hl : frame_times frames !! fr_fid fr = Some (fr_t fr)).
  { apply frame_times_lookup; [rewrite Hids; apply ids_upto_NoDup|].
    by exists fr. }
  by rewrite Hl.
Qed.

Lemma frame_unique fr fr' :
  In fr frames -> In fr' frames -> fr_fid fr = fr_fid fr' -> fr_t fr = fr_t fr'.
Proof.
  intros Hin Hin' Heq. pose proof (getitem_frame _ Hin) as H1.
  pose proof (getitem_frame _ Hin') as H2. rewrite Heq in H1. congruence.
Qed.

Lemma last_frame_id :
  List.last (Some <$> frames) None
  = match frames with [] => None | _ => List.last (Some <$> frames) None end
  /\ forall fr, List.last (Some <$> frames) None = Some fr ->
                fr_fid fr = Z.of_nat (length frames).
Proof.
  split; [by destruct frames|].
  destruct frames as [|fr0 l] using rev_ind; [done|].
  intros fr. rewrite fmap_app. simpl. rewrite last_last. intros [= <-].
  rewrite map_app, length_app, Nat.add_1_r, ids_upto_S in Hids.
  apply app_inj_tail in Hids as [_ Hlast].
  by rewrite length_app, Nat.add_1_r.
Qed.


(** One event: nothing is raised, and the messages added are the ones owed. *)
Lemma check_event_flagged ev errs warns :
  exists es ws,
    check_event (frame_times frames) (Z.of_nat (length frames)) (errs, warns) ev
    = Py.Ok (errs ++ es, warns ++ ws)
    /\ (forall e, In e es <-> flagged frames ev e)
    /\ (forall w, In w ws <-> warned frames ev w).
Proof.
  unfold check_event.
  destruct ((ev_fid ev <? 1) || (Z.of_nat (length frames) <? ev_fid ev)) eqn:Hr.
  - exists [E01 (ev_fid ev) (Z.of_nat (length frames))], [].
    rewrite app_nil_r. split; [done|].
    apply orb_prop in Hr. rewrite !Z.ltb_lt in Hr.
    split.
    + intros e. split.
      * intros [<-|[]]. by left.
      * intros [[-> _]|[(next & Hin%frame_in_range & Hfid & ? & _)
                       |(cur & Hin%frame_in_range & Hfid & _)]];
          [by left|lia|lia].
    + intros w. split; [done|].
      intros (cur & Hin%frame_in_range & ? & ? & _). lia.
  - apply orb_false_elim in Hr as [H1 HN]. rewrite Z.ltb_ge in H1, HN.
    destruct (frame_exists (ev_fid ev)) as (cur & Hcur & Hcfid); [lia|].
    pose proof (getitem_frame _ Hcur) as Hgc. rewrite Hcfid in Hgc.
    unfold mbind, result_bind. rewrite Hgc.
    destruct (ev_fid ev <? Z.of_nat (length frames)) eqn:Hlt.
    + apply Z.ltb_lt in Hlt.
      destruct (frame_exists (ev_fid ev + 1)) as (next & Hnext & Hnfid); [lia|].
      pose proof (getitem_frame _ Hnext) as Hgn. rewrite Hnfid in Hgn.
      rewrite Hgn. simpl.
      exists ((if Py.fgt (ev_t ev) (fr_t next + Py.eps)
               then [E02 (ev_t ev) (ev_fid ev) (fr_t next)] else [])
              ++ (if (1 <? ev_fid ev) && PrimFloat.ltb (ev_t ev) (fr_t cur - Py.eps)
                  then [E03 (ev_t ev) (ev_fid ev) (fr_t cur)] else [])),
             (if (ev_fid ev =? 1) && PrimFloat.ltb (ev_t ev) (fr_t cur - Py.eps)
              then [W10 (ev_t ev) (fr_t cur)] else []).
      split.
      { destruct (Py.fgt _ _), ((1 <? ev_fid ev) && _), ((ev_fid ev =? 1) && _);
          by rewrite <- ?app_assoc, ?app_nil_r. }
      split.
      * intros e. rewrite in_app_iff. split.
        -- intros [He|He].
           ++ destruct (Py.fgt _ _) eqn:Hg; [|done]. destruct He as [<-|[]].
              right. left. exists next. repeat split; done || lia.
           ++ destruct ((1 <? ev_fid ev) && _) eqn:Hb; [|done].
              destruct He as [<-|[]]. apply andb_prop in Hb as [?%Z.ltb_lt ?].
              right. right. by exists cur.
        -- intros [[-> ?]|[(nx & Hin & Hfid & ? & Hg & ->)
                          |(cu & Hin & Hfid & ? & Hl & ->)]]; [lia| |].
           ++ left. assert (Heq : fr_t nx = fr_t next) by (apply frame_unique; [done|done|congruence]).
           rewrite Heq in *.
              rewrite Hg. by left.
           ++ right. assert (Heq : fr_t cu = fr_t cur) by (apply frame_unique; [done|done|congruence]).
           rewrite Heq in *.
              rewrite Hl, (proj2 (Z.ltb_lt 1 (ev_fid ev))); [by left|done].
      * intros w. split.
        -- destruct ((ev_fid ev =? 1) && _) eqn:Hb; [|done].
           intros [<-|[]]. apply andb_prop in Hb as [?%Z.eqb_eq ?].
           exists cur. repeat split; done || congruence.
        -- intros (cu & Hin & Hfid & Hev & Hl & ->).
           assert (Heq : fr_t cu = fr_t cur) by (apply frame_unique; [done|done|congruence]).
           rewrite Heq in *.
           rewrite Hl, (proj2 (Z.eqb_eq (ev_fid ev) 1)); [by left|done].
    + apply Z.ltb_ge in Hlt. simpl.
      exists (if (1 <? ev_fid ev) && PrimFloat.ltb (ev_t ev) (fr_t cur - Py.eps)
              then [E03 (ev_t ev) (ev_fid ev) (fr_t cur)] else []),
             (if (ev_fid ev =? 1) && PrimFloat.ltb (ev_t ev) (fr_t cur - Py.eps)
              then [W10 (ev_t ev) (fr_t cur)] else []).
      split.
      { destruct ((1 <? ev_fid ev) && _), ((ev_fid ev =? 1) && _);
          by rewrite ?app_nil_r. }
      split.
      * intros e. split.
        -- destruct ((1 <? ev_fid ev) && _) eqn:Hb; [|done].
           intros [<-|[]]. apply andb_prop in Hb as [?%Z.ltb_lt ?].
           right. right. by exists cur.
        -- intros [[-> ?]|[(nx & Hin%frame_in_range & Hfid & ? & Hg & ->)
                          |(cu & Hin & Hfid & ? & Hl & ->)]]; [lia|lia|].
           assert (Heq : fr_t cu = fr_t cur) by (apply frame_unique; [done|done|congruence]).
           rewrite Heq in *.
           rewrite Hl, (proj2 (Z.ltb_lt 1 (ev_fid ev))); [by left|done].
      * intros w. split.
        -- destruct ((ev_fid ev =? 1) && _) eqn:Hb; [|done].
           intros [<-|[]]. apply andb_prop in Hb as [?%Z.eqb_eq ?].
           exists cur. repeat split; done || congruence.
        -- intros (cu & Hin & Hfid & Hev & Hl & ->).
           assert (Heq : fr_t cu = fr_t cur) by (apply frame_unique; [done|done|congruence]).
           rewrite Heq in *.
           rewrite Hl, (proj2 (Z.eqb_eq (ev_fid ev) 1)); [by left|done].
Qed.


Lemma check_events_flagged events errs warns :
  exists es ws,
    check_events (frame_times frames) (Z.of_nat (length frames)) events
      (errs, warns)
    = Py.Ok (errs ++ es, warns ++ ws)
    /\ (forall e, In e es <-> exists ev, In ev events /\ flagged frames ev e)
    /\ (forall w, In w ws <-> exists ev, In ev events /\ warned frames ev w).
Proof.
  revert errs warns. induction events as [|ev events IH]; intros errs warns.
  - exists [], []. rewrite !app_nil_r. split; [done|].
    split; intros ?; (split; [done|by intros (? & [] & _)]).
  - destruct (check_event_flagged ev errs warns) as (es1 & ws1 & Heq1 & He1 & Hw1).
    destruct (IH (errs ++ es1) (warns ++ ws1)) as (es2 & ws2 & Heq2 & He2 & Hw2).
    exists (es1 ++ es2), (ws1 ++ ws2).
    cbn [check_events]. unfold mbind, result_bind in *. rewrite Heq1. simpl.
    rewrite Heq2, !app_assoc. split; [done|].
    split; intros m; rewrite in_app_iff.
    + rewrite He1, He2. split.
      * intros [?|(ev' & ? & ?)]; [exists ev|exists ev']; split; simpl; auto.
      * intros (ev' & [<-|?] & ?); [by left|right; by exists ev'].
    + rewrite Hw1, Hw2. split.
      * intros [?|(ev' & ? & ?)]; [exists ev|exists ev']; split; simpl; auto.
      * intros (ev' & [<-|?] & ?); [by left|right; by exists ev'].
Qed.

(** On frames with the ids [1 .. N], [N >= 1], the check raises nothing
    and collects exactly the messages owed to the events. *)
Lemma check_events_vs_frames_flagged events :
  frames <> [] ->
  exists errs warns,
    check_events_vs_frames frames events = Py.Ok (errs, warns)
    /\ (forall e, In e errs <-> exists ev, In ev events /\ flagged frames ev e)
    /\ (forall w, In w warns <-> exists ev, In ev events /\ warned frames ev w).
Proof.
  intros Hne. unfold check_events_vs_frames.
  destruct (List.last (Some <$> frames) None) as [fr|] eqn:Hlast.
  - rewrite (proj2 last_frame_id fr Hlast).
    destruct (check_events_flagged events [] []) as (es & ws & Heq & He & Hw).
    by exists es, ws.
  - exfalso. destruct frames as [|fr0 l] using rev_ind; [done|].
    rewrite fmap_app in Hlast. simpl in Hlast. by rewrite last_last in Hlast.
Qed.

End Contiguous.

(** C5, as the code has it. On frames with the ids [1 .. N] the check
    raises nothing; it reports an [E02] for an event of frame [k] exactly
    when frame [k + 1] exists and the event is later than the timestamp of
    frame [k + 1] plus the tolerance [1e-6]; an event of the last frame
    [N] gets no [E02], however late it is. *)
Theorem late_event_flagged_beyond_tolerance
    (frames : list validate_recording.FrameRow)
    (events : list validate_recording.EventRow) :
  map validate_recording.fr_fid frames = ids_upto (length frames) ->
  exists errs warns,
    validate_recording.check_events_vs_frames frames events = Py.Ok (errs, warns)
    /\ (forall t k tn,
          In (validate_recording.E02 t k tn) errs
          <-> exists ev next,
                In ev events /\ In next frames
                /\ validate_recording.ev_t ev = t
                /\ validate_recording.ev_fid ev = k
                /\ validate_recording.fr_fid next = k + 1
                /\ validate_recording.fr_t next = tn
                /\ 1 <= k
                /\ Py.fgt t (tn + Py.eps) = true)
    /\ (forall t tn,
          ~ In (validate_recording.E02 t (Z.of_nat (length frames)) tn) errs).
Proof.
  intros Hids. destruct frames as [|fr0 frames0] eqn:Hfr.
  { exists [validate_recording.E00], []. split; [done|]. split.
    - intros t k tn. split; [by intros [|[]]|by intros (? & ? & _ & [] & _)].
    - by intros t tn [|[]]. }
  rewrite <- Hfr in *.
  destruct (check_events_vs_frames_flagged frames Hids events)
    as (errs & warns & Heq & He & _); [by rewrite Hfr|].
  exists errs, warns. split; [done|].
  assert (Hiff : forall t k tn,
             In (validate_recording.E02 t k tn) errs
             <-> exists ev next,
                   In ev events /\ In next frames
                   /\ validate_recording.ev_t ev = t
                   /\ validate_recording.ev_fid ev = k
                   /\ validate_recording.fr_fid next = k + 1
                   /\ validate_recording.fr_t next = tn
                   /\ 1 <= k
                   /\ Py.fgt t (tn + Py.eps) = true).
  { intros t k tn. rewrite He. split.
    - intros (ev & Hev & [[? _]|[(next & Hn & Hfid & H1 & Hg & [= -> -> ->])
                                |(? & _ & _ & _ & _ & ?)]]); [done| |done].
      by exists ev, next.
    - intros (ev & next & Hev & Hn & <- & <- & Hfid & <- & H1 & Hg).
      exists ev. split; [done|]. right. left. by exists next. }
  split; [exact Hiff|].
  intros t tn (ev & next & _ & Hn%(frame_in_range frames Hids) & _ & _ & Hfid & _)%Hiff.
  lia.
Qed.

(** C6, as the code has it. On frames with the ids [1 .. N] the check
    raises nothing; it gives a warning [W10] for an event of frame 1
    exactly when the event is earlier than the timestamp of frame 1 minus
    the tolerance [1e-6]; it reports an [E03] for an event of frame [k]
    exactly when [k > 1] and the event is earlier than the timestamp of
    frame [k] minus the tolerance; no [E03] is reported for frame 1. *)
Theorem early_event_warned_for_first_frame_only
    (frames : list validate_recording.FrameRow)
    (events : list validate_recording.EventRow) :
  map validate_recording.fr_fid frames = ids_upto (length frames) ->
  exists errs warns,
    validate_recording.check_events_vs_frames frames events = Py.Ok (errs, warns)
    /\ (forall t tf,
          In (validate_recording.W10 t tf) warns
          <-> exists ev first,
                In ev events /\ In first frames
                /\ validate_recording.ev_t ev = t
                /\ validate_recording.ev_fid ev = 1
                /\ validate_recording.fr_fid first = 1
                /\ validate_recording.fr_t first = tf
                /\ PrimFloat.ltb t (tf - Py.eps) = true)
    /\ (forall t k tf,
          In (validate_recording.E03 t k tf) errs
          <-> exists ev cur,
                In ev events /\ In cur frames
                /\ validate_recording.ev_t ev = t
                /\ validate_recording.ev_fid ev = k
                /\ validate_recording.fr_fid cur = k
                /\ validate_recording.fr_t cur = tf
                /\ 1 < k
                /\ PrimFloat.ltb t (tf - Py.eps) = true)
    /\ (forall t tf, ~ In (validate_recording.E03 t 1 tf) errs).
Proof.
  intros Hids. destruct frames as [|fr0 frames0] eqn:Hfr.
  { exists [validate_recording.E00], []. split; [done|]. split; [|split].
    - intros t tf. split; [done|by intros (? & ? & _ & [] & _)].
    - intros t k tf. split; [by intros [|[]]|by intros (? & ? & _ & [] & _)].
    - by intros t tf [|[]]. }
  rewrite <- Hfr in *.
  destruct (check_events_vs_frames_flagged frames Hids events)
    as (errs & warns & Heq & He & Hw); [by rewrite Hfr|].
  exists errs, warns. split; [done|].
  assert (Hiff : forall t k tf,
             In (validate_recording.E03 t k tf) errs
             <-> exists ev cur,
                   In ev events /\ In cur frames
                   /\ validate_recording.ev_t ev = t
                   /\ validate_recording.ev_fid ev = k
                   /\ validate_recording.fr_fid cur = k
                   /\ validate_recording.fr_t cur = tf
                   /\ 1 < k
                   /\ PrimFloat.ltb t (tf - Py.eps) = true).
  { intros t k tf. rewrite He. split.
    - intros (ev & Hev & [[? _]|[(? & _ & _ & _ & _ & ?)
                                |(cur & Hc & Hfid & H1 & Hl & [= -> -> ->])]]);
        [done|done|].
      by exists ev, cur.
    - intros (ev & cur & Hev & Hc & <- & <- & Hfid & <- & H1 & Hl).
      exists ev. split; [done|]. right. right. by exists cur. }
  split; [|split; [exact Hiff|]].
  - intros t tf. rewrite Hw. split.
    + intros (ev & Hev & cur & Hc & Hfid & Hev1 & Hl & [= -> ->]).
      by exists ev, cur.
    + intros (ev & cur & Hev & Hc & <- & Hev1 & Hfid & <- & Hl).
      exists ev. split; [done|]. by exists cur.
  - intros t tf (ev & cur & _ & _ & _ & _ & _ & _ & H1 & _)%Hiff. lia.
Qed.

Lemma late_event_flagged_witness :
  exists errs warns,
    validate_recording.check_events_vs_frames sample.two_frames
      [sample.key_event_at 1 1.5]
    = Py.Ok (errs, warns)
    /\ In (validate_recording.E02 1.5 1 1) errs.
Proof.
  destruct (late_event_flagged_beyond_tolerance sample.two_frames
              [sample.key_event_at 1 1.5] eq_refl)
    as (errs & warns & Heq & Hiff & _).
  exists errs, warns. split; [exact Heq|]. apply Hiff.
  exists (sample.key_event_at 1 1.5), (sample.frame_at 2 1).
  repeat split; simpl; auto; lia.
Defined.

(** An event of frame 1 stamped [1 + 2**-21], after frame 2 at [1], gets
    no [E02]; nor does one stamped [1.000001], one microsecond after
    frame 2. *)
Lemma late_within_tolerance_not_flagged :
  PrimFloat.ltb (validate_recording.fr_t (sample.frame_at 2 1))
    (validate_recording.ev_t (sample.key_event_at 1 sample.just_after_one))
  = true
  /\ validate_recording.check_events_vs_frames sample.two_frames
       [sample.key_event_at 1 sample.just_after_one]
     = Py.Ok ([], [])
  /\ PrimFloat.ltb (validate_recording.fr_t (sample.frame_at 2 1))
       (validate_recording.ev_t
          (sample.key_event_at 1 sample.microsecond_after_one))
     = true
  /\ validate_recording.check_events_vs_frames sample.two_frames
       [sample.key_event_at 1 sample.microsecond_after_one]
     = Py.Ok ([], []).
Proof. repeat split; reflexivity. Qed.

Lemma early_event_warned_witness :
  exists errs warns,
    validate_recording.check_events_vs_frames
      [sample.frame_at 1 1; sample.frame_at 2 2]
      [sample.key_event_at 1 0.5; sample.key_event_at 2 1.5]
    = Py.Ok (errs, warns)
    /\ In (validate_recording.W10 0.5 1) warns
    /\ In (validate_recording.E03 1.5 2 2) errs.
Proof.
  destruct (early_event_warned_for_first_frame_only
              [sample.frame_at 1 1; sample.frame_at 2 2]
              [sample.key_event_at 1 0.5; sample.key_event_at 2 1.5] eq_refl)
    as (errs & warns & Heq & Hw & He & _).
  exists errs, warns. split; [exact Heq|]. split.
  - apply Hw.
    exists (sample.key_event_at 1 0.5), (sample.frame_at 1 1).
    repeat split; simpl; auto.
  - apply He.
    exists (sample.key_event_at 2 1.5), (sample.frame_at 2 2).
    repeat split; simpl; auto; lia.
Defined.

(** An event stamped [1 - 2**-21], before its frame at [1], gets neither
    the warning, as an event of frame 1, nor [E03], as an event of
    frame 2; the same for one stamped [0.999999], one microsecond
    before its frame. *)
Lemma early_within_tolerance_not_reported :
  PrimFloat.ltb sample.just_before_one 1 = true
  /\ validate_recording.check_events_vs_frames [sample.frame_at 1 1]
       [sample.key_event_at 1 sample.just_before_one]
     = Py.Ok ([], [])
  /\ validate_recording.check_events_vs_frames sample.two_frames
       [sample.key_event_at 2 sample.just_before_one]
     = Py.Ok ([], [])
  /\ PrimFloat.ltb sample.microsecond_before_one 1 = true
  /\ validate_recording.check_events_vs_frames [sample.frame_at 1 1]
       [sample.key_event_at 1 sample.microsecond_before_one]
     = Py.Ok ([], [])
  /\ validate_recording.check_events_vs_frames sample.two_frames
       [sample.key_event_at 2 sample.microsecond_before_one]
     = Py.Ok ([], []).
Proof. repeat split; reflexivity. Qed.

(** ** Rows the delta check passes over *)

Section IncompleteRows.

Import validate_recording.

Lemma int_or_none_complete v :
  cell_is_int v = true -> exists n, int_or_none v = Py.Ok (Some n).
Proof.
  destruct v as [s|]; [|done]. simpl. intros [Hne Hint]%andb_prop.
  apply negb_true_iff in Hne. apply bool_decide_eq_true in Hint as [n Hn].
  exists n. by rewrite Hne, Hn.
Qed.

Lemma int_or_none_incomplete v :
  cell_is_int v = false ->
  int_or_none v = Py.Ok None \/ int_or_none v = Py.Raise Py.ValueError.
Proof.
  destruct v as [s|]; [|by left]. simpl.
  destruct (String.eqb s ""); [by left|]. simpl.
  destruct (Py.int s) as [n|]; [|by right].
  intros Hf. apply bool_decide_eq_false in Hf. by destruct Hf.
Qed.

(** With a field that is no integer, the [try] block raises or one of the
    four values is [None]. *)
Lemma read_fields_incomplete p :
  complete p = false ->
  match read_fields p with
  | Py.Ok (Some _, Some _, Some _, Some _) => False
  | _ => True
  end.
Proof.
  unfold complete, read_fields, mbind, result_bind. intros Hc.
  destruct (cell_is_int (x p)) eqn:Hx;
    [apply int_or_none_complete in Hx as [? ->]
    |apply int_or_none_incomplete in Hx as [-> | ->]]; simpl; [|clear Hc..].
  2: { by destruct (int_or_none (y p)) as [[]|], (int_or_none (dx p)) as [[]|],
            (int_or_none (dy p)) as [[]|]. }
  2: done.
  destruct (cell_is_int (y p)) eqn:Hy;
    [apply int_or_none_complete in Hy as [? ->]
    |apply int_or_none_incomplete in Hy as [-> | ->]]; simpl; [|clear Hc..].
  2: { by destruct (int_or_none (dx p)) as [[]|], (int_or_none (dy p)) as [[]|]. }
  2: done.
  destruct (cell_is_int (dx p)) eqn:Hdx;
    [apply int_or_none_complete in Hdx as [? ->]
    |apply int_or_none_incomplete in Hdx as [-> | ->]]; simpl; [|clear Hc..].
  2: { by destruct (int_or_none (dy p)) as [[]|]. }
  2: done.
  destruct (cell_is_int (dy p)) eqn:Hdy; [done|].
  by apply int_or_none_incomplete in Hdy as [-> | ->].
Qed.

Lemma check_mouse_event_incomplete st ev :
  complete (ev_payload ev) = false -> check_mouse_event st ev = st.
Proof.
  intros Hc%read_fields_incomplete. unfold check_mouse_event.
  destruct st as [[errs n] last].
  destruct (negb _); [done|].
  by destruct (read_fields (ev_payload ev)) as [[[[[?|] [?|]] [?|]] [?|]]|].
Qed.

End IncompleteRows.

(** A cell that is missing, empty or not read by [int] is no integer
    cell. *)
Lemma cell_is_no_int v :
  v = None \/ v = Some "" \/ (exists s, v = Some s /\ Py.int s = None) ->
  validate_recording.cell_is_int v = false.
Proof.
  intros [->|[->|(s & -> & Hs)]]; [done..|]. simpl. rewrite Hs.
  by rewrite andb_false_r.
Qed.

(** C9. A mouse event one of whose fields [x], [y], [dx], [dy] is missing,
    empty or not read by [int] leaves the state of the loop of
    [check_mouse_deltas] as it is: no message is added, the count stays,
    and the last position stays; the result of the whole check is the one
    the events without it give. (The check has no warnings at all.) *)
Theorem incomplete_mouse_row_is_skipped
    (ev : validate_recording.EventRow)
    (errs : list validate_recording.Err) (n_checked : Z)
    (last_pos : option (Z * Z))
    (before after : list validate_recording.EventRow)
    (v : option string) :
  In v [validate_recording.x (validate_recording.ev_payload ev);
        validate_recording.y (validate_recording.ev_payload ev);
        validate_recording.dx (validate_recording.ev_payload ev);
        validate_recording.dy (validate_recording.ev_payload ev)] ->
  v = None \/ v = Some "" \/ (exists s, v = Some s /\ Py.int s = None) ->
  validate_recording.check_mouse_event (errs, n_checked, last_pos) ev
  = (errs, n_checked, last_pos)
  /\ validate_recording.check_mouse_deltas (before ++ ev :: after)
     = validate_recording.check_mouse_deltas (before ++ after).
Proof.
  intros Hin Hv%cell_is_no_int.
  assert (Hc : validate_recording.complete (validate_recording.ev_payload ev)
               = false).
  { unfold validate_recording.complete.
    destruct Hin as [<-|[<-|[<-|[<-|[]]]]]; rewrite Hv;
      by rewrite ?andb_false_r. }
  split; [by apply check_mouse_event_incomplete|].
  unfold validate_recording.check_mouse_deltas,
    validate_recording.check_mouse_deltas_from.
  rewrite !fold_left_app. simpl.
  by rewrite (check_mouse_event_incomplete _ _ Hc).
Qed.

Lemma incomplete_mouse_row_witness :
  validate_recording.check_mouse_deltas
    [sample.mouse_event_at 1 0.25 (Some "10") (Some "20") (Some "0") (Some "0");
     sample.mouse_event_at 1 0.5 (Some sample.five_between_separators)
       (Some "25") (Some "2") (Some "5");
     sample.mouse_event_at 1 0.75 (Some "12") (Some "25") (Some "2") (Some "5")]
  = ([], 2).
Proof.
  exact (eq_trans
           (proj2 (incomplete_mouse_row_is_skipped
                     (sample.mouse_event_at 1 0.5
                        (Some sample.five_between_separators)
                        (Some "25") (Some "2") (Some "5"))
                     [] 0 None
                     [sample.mouse_event_at 1 0.25 (Some "10") (Some "20")
                        (Some "0") (Some "0")]
                     [sample.mouse_event_at 1 0.75 (Some "12") (Some "25")
                        (Some "2") (Some "5")]
                     (Some sample.five_between_separators)
                     (or_introl eq_refl)
                     (or_intror
                        (or_intror
                           (ex_intro _ sample.five_between_separators
                              (conj eq_refl eq_refl))))))
           eq_refl).
Defined.

(** What [int] reads: blanks around the number, a sign, underscores
    between digits; and what it does not: the separators FS..US around
    the number, which [strip] removes, a blank after the sign, an
    underscore at an end, more than 4300 digits. *)
Lemma int_reads_what_the_interpreter_reads :
  Py.int " +1_000 " = Some 1000
  /\ Py.int "-007" = Some (-7)
  /\ Py.strip sample.five_between_separators = "5"
  /\ Py.int sample.five_between_separators = None
  /\ Py.int "- 5" = None
  /\ Py.int "5_" = None
  /\ Py.int "" = None
  /\ Py.int sample.digits_4301 = None
  /\ Py.int (Py.tail sample.digits_4301)
     = Some (Z.of_uint (default Decimal.Nil
                          (NilEmpty.uint_of_string (Py.tail sample.digits_4301)))).
Proof. repeat split; vm_compute; reflexivity. Qed.

(** A row whose only flaw is a cell of 4301 digits, or a cell between
    separators, is passed over like a row with an empty cell. *)
Lemma unreadable_cells_are_skipped :
  validate_recording.check_mouse_deltas
    [sample.mouse_event_at 1 0.25 (Some sample.digits_4301) (Some "0")
       (Some "0") (Some "0")]
  = ([], 0)
  /\ validate_recording.check_mouse_deltas
       [sample.mouse_event_at 1 0.25 (Some sample.five_between_separators)
          (Some "0") (Some "0") (Some "0")]
     = ([], 0)
  /\ validate_recording.check_mouse_deltas
       [sample.mouse_event_at 1 0.25 (Some "5") (Some "0") (Some "0") (Some "0")]
     = ([], 1).
Proof. repeat split; vm_compute; reflexivity. Qed.

(** ** [main] *)

Section Main.

Import validate_recording.

(** When the event check raises, the ids of the frames are not [1 .. N],
    so the frame check has reported [F02] before. *)
Lemma raise_after_F02 frames events e :
  check_events_vs_frames frames events = Py.Raise e ->
  existsb is_F02 (check_frames frames) = true.
Proof.
  intros Hraise. apply check_frames_F02. intros Hids.
  destruct frames as [|fr frames].
  - done.
  - destruct (check_events_vs_frames_flagged (fr :: frames) Hids events)
      as (errs & warns & Heq & _); [done|]. congruence.
Qed.

(** The exit status is not zero exactly when an error was collected. *)
Lemma exit_status_nonzero args disk :
  exit_status (main args disk) <> 0
  <-> snd (fst (main_collect args disk)) <> [].
Proof.
  unfold main, main_collect.
  destruct (events_csv disk) as [rows|]; [|by split].
  destruct (load_csv rows) as [frames events].
  destruct (check_events_vs_frames frames events) as [[errs warns]|e] eqn:Hev.
  - destruct (check_mouse_deltas events) as [m_errs n_m].
    destruct (check_images args).
    + destruct (check_images_exist_and_shape _ _ _) as [img_errs ref_size].
      by destruct (((check_frames frames ++ errs) ++ m_errs) ++ img_errs).
    + by destruct ((check_frames frames ++ errs) ++ m_errs).
  - simpl. split; [|done]. intros _ Hnil.
    apply raise_after_F02 in Hev. by rewrite Hnil in Hev.
Qed.

(** Without the log nothing is checked. *)
Lemma main_without_log args disk :
  events_csv disk = None ->
  main_collect args disk = (Returns [csv_not_found], [], []).
Proof. unfold main_collect. by intros ->. Qed.

End Main.

(** C10. When [events.csv] is not in the recording directory, [main]
    prints the one line saying so and returns: the exit status is 0, no
    check has run, and no error or warning is collected. *)
Theorem missing_log_is_no_error
    (args : validate_recording.Args) (disk : validate_recording.Disk) :
  validate_recording.events_csv disk = None ->
  validate_recording.main args disk
  = validate_recording.Returns [validate_recording.csv_not_found]
  /\ validate_recording.exit_status (validate_recording.main args disk) = 0
  /\ validate_recording.main_collect args disk
     = (validate_recording.Returns [validate_recording.csv_not_found], [], []).
Proof.
  intros Hnone. pose proof (main_without_log args disk Hnone) as Hmain.
  unfold validate_recording.main. rewrite Hmain. by repeat split.
Qed.

Lemma missing_log_witness :
  validate_recording.main sample.default_args (sample.disk_with None)
  = validate_recording.Returns [validate_recording.csv_not_found].
Proof.
  exact (proj1 (missing_log_is_no_error sample.default_args
                  (sample.disk_with None) eq_refl)).
Defined.

(** C7, at a log whose frame 2 was dropped. The frame check collects
    [F02]; the event check then looks up the timestamp of frame 2 for the
    key press of frame 1 and raises [KeyError]; the exception leaves
    [main], which has printed nothing: the exit status is 1, and neither
    the summary nor the collected error is reported. *)
Theorem validator_stops_on_dropped_frame :
  validate_recording.main_collect sample.default_args
    (sample.disk_with (Some sample.log_with_dropped_frame))
  = (validate_recording.Uncaught (Py.KeyError 2) [],
     [validate_recording.F02 2 3], [])
  /\ validate_recording.exit_status
       (validate_recording.main sample.default_args
          (sample.disk_with (Some sample.log_with_dropped_frame))) = 1
  /\ validate_recording.stdout_of
       (validate_recording.main sample.default_args
          (sample.disk_with (Some sample.log_with_dropped_frame))) = [].
Proof. repeat split; vm_compute; reflexivity. Qed.

(** ** The stop key *)

Section StopKey.

Import datagrabber.

Lemma base_lookup name :
  base !! name
  = if decide (name = "SPACE") then Some Key_space
    else if decide (name = "RETURN") then Some Key_enter
    else if decide (name = "ENTER") then Some Key_enter
    else if decide (name = "ESC") then Some Key_esc
    else None.
Proof.
  unfold base. rewrite !lookup_insert, lookup_empty.
  repeat case_decide; congruence.
Qed.

(** [keyboard.Key] has the attribute [f"f{n}"] for [n] from 1 to 24. *)
Lemma Key_getattr_f n :
  1 <= n <= 24 -> Key_getattr ("f" +:+ Py.str n) = Some (Key_f n).
Proof.
  intros Hn. assert (Hin : In n (ids_upto 24)) by (apply In_ids_upto; lia).
  assert (Hall : Forall (fun n => Key_getattr ("f" +:+ Py.str n) = Some (Key_f n))
                   (ids_upto 24)) by (repeat constructor).
  by apply (proj1 (List.Forall_forall _ _) Hall).
Qed.

Lemma parse_function_key_F ds n :
  Py.isdigit ds = true -> Py.int ds = Some n -> 1 <= n <= 24 ->
  parse_function_key (String "F" ds) = Some (Key_f n).
Proof.
  intros Hd Hi Hn. unfold parse_function_key.
  assert (HF : Py.startswith (String "F" ds) "F" = true).
  { unfold Py.startswith. simpl. by destruct ds. }
  rewrite HF. change (Py.tail (String "F" ds)) with ds.
  rewrite Hd, Hi. simpl.
  rewrite (proj2 (Z.leb_le 1 n)), (proj2 (Z.leb_le n 24)); [|lia..].
  by apply Key_getattr_f.
Qed.

Lemma parse_function_key_Some name k :
  parse_function_key name = Some k ->
  exists ds n,
    name = String "F" ds /\ Py.isdigit ds = true /\ Py.int ds = Some n
    /\ 1 <= n <= 24 /\ k = Key_f n.
Proof.
  unfold parse_function_key.
  destruct (Py.startswith name "F" && Py.isdigit (Py.tail name)) eqn:Hb; [|done].
  apply andb_prop in Hb as [(ds & -> & _)%prefix_cons Hd]. simpl in *.
  destruct (Py.int ds) as [n|] eqn:Hi; [|done].
  destruct ((1 <=? n) && (n <=? 24)) eqn:Hr; [|done].
  apply andb_prop in Hr as [H1%Z.leb_le H24%Z.leb_le].
  rewrite Key_getattr_f by lia. intros [= <-]. by exists ds, n.
Qed.

End StopKey.

(** C8, as the code has it. [_parse_stop_key] returns a key for every
    name and raises nothing. With the name trimmed and put in upper case:
    [ESC], [ENTER], [RETURN] and [SPACE] give their keys; [F] followed by
    decimal digits that [int] reads as a value [n] from 1 to 24 gives the
    function key [Fn]; a name of one character, printable or not, gives
    the key code of that character in lower case; every other name gives
    [F10]. *)
Theorem parse_stop_key_total (name : string) :
  (Py.upper (Py.strip name) = "ESC" ->
   datagrabber._parse_stop_key name = datagrabber.Key_esc)
  /\ (Py.upper (Py.strip name) = "ENTER" \/ Py.upper (Py.strip name) = "RETURN" ->
      datagrabber._parse_stop_key name = datagrabber.Key_enter)
  /\ (Py.upper (Py.strip name) = "SPACE" ->
      datagrabber._parse_stop_key name = datagrabber.Key_space)
  /\ (forall ds n,
         Py.upper (Py.strip name) = String "F" ds ->
         Py.isdigit ds = true -> Py.int ds = Some n -> 1 <= n <= 24 ->
         datagrabber._parse_stop_key name = datagrabber.Key_f n)
  /\ (String.length (Py.upper (Py.strip name)) = 1%nat ->
      datagrabber._parse_stop_key name
      = datagrabber.KeyCode_from_char (Py.lower (Py.upper (Py.strip name))))
  /\ (~ In (Py.upper (Py.strip name)) ["ESC"; "ENTER"; "RETURN"; "SPACE"] ->
      (forall ds n,
          Py.upper (Py.strip name) = String "F" ds ->
          Py.isdigit ds = true -> Py.int ds = Some n -> ~ 1 <= n <= 24) ->
      String.length (Py.upper (Py.strip name)) <> 1%nat ->
      datagrabber._parse_stop_key name = datagrabber.Key_f 10).
Proof.
  unfold datagrabber._parse_stop_key. rewrite base_lookup.
  generalize (Py.upper (Py.strip name)). clear name. intros name.
  repeat split.
  - by intros ->.
  - by intros [-> | ->].
  - by intros ->.
  - intros ds n -> Hd Hi Hn.
    rewrite (parse_function_key_F ds n Hd Hi Hn).
    repeat case_decide; try done; simplify_eq; done.
  - intros Hlen.
    destruct name as [|c [|c' name]]; [done| |done].
    repeat case_decide; try done.
    unfold datagrabber.parse_function_key. simpl.
    by rewrite andb_false_r.
  - intros Hnot Hnof Hlen.
    repeat case_decide; try (exfalso; apply Hnot; subst; simpl; tauto).
    destruct (datagrabber.parse_function_key name) as [k|] eqn:Hk.
    + apply parse_function_key_Some in Hk as (ds & n & -> & Hd & Hi & Hn & _).
      by destruct (Hnof ds n eq_refl Hd Hi).
    + by apply Nat.eqb_neq in Hlen as ->.
Qed.

(** The name BEL is one character and not printable: by the words of the
    specification it stands for [F10], and the parser makes a key code of
    it. *)
Lemma bell_is_a_key_code :
  datagrabber._parse_stop_key sample.bell
  = datagrabber.KeyCode_from_char sample.bell
  /\ datagrabber.stop_key_as_specified sample.bell = datagrabber.Key_f 10.
Proof. split; reflexivity. Qed.

(** The digits after [F] are read by [int]: leading zeros count for
    nothing, and a name of [F] and 4301 digits, at which [int] raises,
    gives [F10] though its digits stand for 5. *)
Lemma function_key_names_as_int_reads_them :
  datagrabber._parse_stop_key "f05" = datagrabber.Key_f 5
  /\ datagrabber._parse_stop_key sample.f_and_4301_digits
     = datagrabber.Key_f 10.
Proof. split; vm_compute; reflexivity. Qed.

(** ** Sorting keeps what is in order *)

Section StableSort.

Context {A : Type} (lt : A -> A -> bool) (good : A -> Prop) (P : A -> bool).

Hypothesis lt_asym :
  forall a b, good a -> good b -> lt a b = true -> lt b a = false.
Hypothesis lt_between :
  forall a b c, good a -> good b -> good c ->
                lt a b = true -> lt a c = true \/ lt c b = true.

#[local] Abbreviation not_after := (Py.not_after lt).

Lemma In_insert_by a b s : In b (Py.insert_by lt a s) <-> b = a \/ In b s.
Proof.
  induction s as [|c s IH]; simpl; [intuition|].
  destruct (lt a c); simpl; [intuition|]. rewrite IH. intuition.
Qed.

Lemma insert_by_in_order a s :
  good a -> Forall good s -> StronglySorted not_after s ->
  StronglySorted not_after (Py.insert_by lt a s).
Proof.
  intros Ha Hg Hs. induction Hs as [|b s Hs IH Hb]; simpl.
  - repeat constructor.
  - apply Forall_cons in Hg as [Hgb Hg].
    destruct (lt a b) eqn:Hab.
    + constructor; [by constructor|].
      constructor; [by apply lt_asym|].
      apply List.Forall_forall. intros c Hc. unfold not_after.
      destruct (lt c a) eqn:Hca; [|done].
      assert (Hgc : good c) by (by apply (proj1 (List.Forall_forall _ _) Hg)).
      destruct (lt_between c a b Hgc Ha Hgb Hca) as [Hcb|Hba].
      * pose proof (proj1 (List.Forall_forall _ _) Hb c Hc) as Hbc.
        unfold not_after in Hbc.
        by rewrite (lt_asym c b Hgc Hgb Hcb) in Hbc || congruence.
      * by rewrite (lt_asym a b Ha Hgb Hab) in Hba.
    + constructor; [by apply IH|].
      apply List.Forall_forall. intros c [->|Hc]%In_insert_by; [done|].
      by apply (proj1 (List.Forall_forall _ _) Hb).
Qed.

Lemma filter_insert_by_other a s :
  P a = false -> List.filter P (Py.insert_by lt a s) = List.filter P s.
Proof.
  intros Ha. induction s as [|b s IH]; simpl; [by rewrite Ha|].
  destruct (lt a b); simpl; [by rewrite Ha|]. by rewrite IH.
Qed.

(** An item that no kept item is behind goes behind all the kept ones. *)
Lemma filter_insert_by_last a s :
  good a -> Forall good s -> StronglySorted not_after s ->
  P a = true ->
  (forall c, In c s -> P c = true -> lt a c = false) ->
  List.filter P (Py.insert_by lt a s) = List.filter P s ++ [a].
Proof.
  intros Ha Hg Hs HPa. induction Hs as [|b s Hs IH Hb]; intros Hlast; simpl.
  - by rewrite HPa.
  - apply Forall_cons in Hg as [Hgb Hg].
    destruct (lt a b) eqn:Hab.
    + assert (Hnone : Forall (fun c => P c = false) (b :: s)).
      { apply List.Forall_forall. intros c Hc.
        destruct (P c) eqn:HPc; [|done].
        pose proof (Hlast c Hc HPc) as Hac.
        destruct Hc as [->|Hc]; [congruence|].
        assert (Hgc : good c) by (by apply (proj1 (List.Forall_forall _ _) Hg)).
        pose proof (proj1 (List.Forall_forall _ _) Hb c Hc) as Hcb.
        unfold not_after in Hcb.
        destruct (lt_between a b c Ha Hgb Hgc Hab); congruence. }
      assert (Hnil : List.filter P (b :: s) = []).
      { clear -Hnone. induction Hnone as [|c l Hc _ IHl]; [done|].
        simpl. by rewrite Hc. }
      simpl (List.filter P (a :: b :: s)). rewrite HPa.
      change (a :: List.filter P (b :: s) = List.filter P (b :: s) ++ [a]).
      by rewrite Hnil.
    + simpl. rewrite IH; [by destruct (P b)|done|].
      intros c Hc. apply Hlast. by right.
Qed.

(** Sorting keeps the kept items in their order when they are in order
    among themselves. *)
Lemma sort_by_keeps_order l :
  Forall good l ->
  StronglySorted not_after (List.filter P l) ->
  StronglySorted not_after (Py.sort_by lt l)
  /\ (forall c, In c (Py.sort_by lt l) <-> In c l)
  /\ List.filter P (Py.sort_by lt l) = List.filter P l.
Proof.
  induction l as [|a l IH] using rev_ind; intros Hg Hs.
  - repeat split; by try constructor.
  - apply Forall_app in Hg as [Hg Ha]. apply Forall_cons in Ha as [Ha _].
    rewrite List.filter_app in Hs. apply StronglySorted_app in Hs as (Hle & Hs & _).
    destruct (IH Hg Hs) as (Hsorted & Hin & Hf).
    assert (Hgs : Forall good (Py.sort_by lt l)).
    { apply List.Forall_forall. intros c Hc%Hin.
      by apply (proj1 (List.Forall_forall _ _) Hg). }
    rewrite sort_by_snoc. split; [by apply insert_by_in_order|]. split.
    + intros c. rewrite In_insert_by, Hin, in_app_iff. simpl. intuition.
    + rewrite List.filter_app. simpl. destruct (P a) eqn:HPa.
      * rewrite filter_insert_by_last, Hf; try done.
        intros c Hc%Hin HPc. apply Hle.
        -- apply list_elem_of_In, filter_In. by split.
        -- simpl. rewrite HPa. apply list_elem_of_In. by left.
      * by rewrite filter_insert_by_other, Hf, app_nil_r.
Qed.

End StableSort.

(** ** The log as [load_csv] sorts it *)

Section SortedLog.

Import datagrabber validate_recording events_csv.

Variable round6 : float -> float.

(** On timestamps the order of the keys is the plain [<]. *)
Lemma event_key_lt_alt a b :
  event_key_lt a b
  = if ev_fid a =? ev_fid b then PrimFloat.ltb (ev_t a) (ev_t b)
    else ev_fid a <? ev_fid b.
Proof.
  unfold event_key_lt. destruct (ev_fid a =? ev_fid b); [|done].
  destruct (PrimFloat.eqb _ _) eqn:He; [|done].
  by rewrite (float_eqb_not_ltb _ _ He).
Qed.

Lemma event_key_lt_asym a b :
  event_key_lt a b = true -> event_key_lt b a = false.
Proof.
  rewrite !event_key_lt_alt.
  destruct (Z.eqb_spec (ev_fid a) (ev_fid b)) as [Heq|Hne].
  - rewrite Heq, Z.eqb_refl. apply float_ltb_asym.
  - destruct (Z.eqb_spec (ev_fid b) (ev_fid a)); [congruence|].
    rewrite !Z.ltb_lt, Z.ltb_ge. lia.
Qed.

Lemma event_key_lt_between a b c :
  Py.is_number (ev_t c) = true -> event_key_lt a b = true ->
  event_key_lt a c = true \/ event_key_lt c b = true.
Proof.
  intros Hc. rewrite !event_key_lt_alt.
  destruct (Z.eqb_spec (ev_fid a) (ev_fid b)) as [Hab|Hab];
    destruct (Z.eqb_spec (ev_fid a) (ev_fid c)) as [Hac|Hac];
    destruct (Z.eqb_spec (ev_fid c) (ev_fid b)) as [Hcb|Hcb];
    rewrite ?Z.ltb_lt; try lia; try (by apply float_ltb_between).
  all: intros _; lia.
Qed.

Lemma check_mouse_event_unchecked st e :
  checked e = false -> check_mouse_event st e = st.
Proof.
  unfold checked. intros [Hm|Hc]%andb_false_iff.
  - unfold check_mouse_event. destruct st as [[errs n] last]. by rewrite Hm.
  - by apply check_mouse_event_incomplete.
Qed.

(** The delta check sees only the events it does not pass over. *)
Lemma check_mouse_deltas_from_checked st l :
  check_mouse_deltas_from st l
  = check_mouse_deltas_from st (List.filter checked l).
Proof.
  unfold check_mouse_deltas_from. revert st.
  induction l as [|e l IH]; intros st; [done|]. simpl.
  destruct (checked e) eqn:He; simpl; [apply IH|].
  rewrite (check_mouse_event_unchecked _ _ He). apply IH.
Qed.

(** *** The rows of a session *)

Lemma event_row_shape fid last ev :
  row_shape (fst (event_row round6 fid last ev)).
Proof.
  unfold event_row, row_shape. right.
  destruct (Py.startswith (etype ev) "mouse") eqn:Hm.
  - destruct last as [[lx ly]|]; simpl; rewrite Hm; by repeat split.
  - destruct (Py.startswith (etype ev) "key"); simpl; by rewrite Hm.
Qed.

Lemma write_events_shape evs st :
  Forall row_shape (csv st) ->
  Forall row_shape (csv (write_events round6 evs st)).
Proof.
  revert st. induction evs as [|ev evs IH]; intros st Hst; [done|].
  simpl. pose proof (event_row_shape (frame_id st)
                       (_last_recorded_mouse_pos st) ev) as Hrow.
  destruct (event_row round6 (frame_id st) (_last_recorded_mouse_pos st) ev)
    as [row last']. apply IH. simpl. apply Forall_app. by split; [|constructor].
Qed.

Lemma record_shape t_rel ticks late :
  Forall row_shape (csv (record round6 t_rel ticks late)).
Proof.
  unfold record, flush_tail, SafeDeque.drain_all.
  apply write_events_shape. simpl.
  induction ticks as [|tk ticks IHticks] using rev_ind.
  - repeat constructor.
  - rewrite fold_left_app. simpl. unfold tick.
    destruct (SafeDeque.pop_all_upto _ _) as [drained left]. simpl.
    apply Forall_app. split; [by apply write_events_shape|].
    repeat constructor.
Qed.

(** The rows of the log are in the order of their frame ids. *)
Lemma loop_ids_in_order t_rel ticks :
  StronglySorted (fun r r' => row_frame_id r <= row_frame_id r')
    (csv (fold_left (tick round6) ticks (first_frame round6 t_rel)))
  /\ Forall (fun r => row_frame_id r
                      <= frame_id (fold_left (tick round6) ticks
                                     (first_frame round6 t_rel)))
       (csv (fold_left (tick round6) ticks (first_frame round6 t_rel))).
Proof.
  induction ticks as [|tk ticks IHticks] using rev_ind.
  - split; repeat constructor. simpl. lia.
  - rewrite fold_left_app. simpl.
    set (st := fold_left (tick round6) ticks (first_frame round6 t_rel)) in *.
    destruct IHticks as [Hs Hle].
    destruct (tick_log round6 st tk) as (rows & -> & Hall & _ & -> & _).
    assert (Hrows : Forall (fun r => row_frame_id r = frame_id st) rows).
    { clear -Hall. induction Hall as [|ev r evs rows (_ & Hfid & _) _ IH];
        by constructor. }
    split.
    + apply StronglySorted_app_2; [|done|apply StronglySorted_app_2].
      * intros r r' Hr%list_elem_of_In [Hr'|Hr']%list_elem_of_In%in_app_or.
        -- rewrite (proj1 (List.Forall_forall _ _) Hrows r' Hr').
           by apply (proj1 (List.Forall_forall _ _) Hle).
        -- destruct Hr' as [<-|[]]. simpl.
           pose proof (proj1 (List.Forall_forall _ _) Hle r Hr) as Hx.
           simpl in Hx. lia.
      * intros r r' Hr%list_elem_of_In [<-|[]]%list_elem_of_In. simpl.
        rewrite (proj1 (List.Forall_forall _ _) Hrows r Hr). lia.
      * clear -Hrows. induction Hrows as [|r rows Hr Hrows IH]; constructor;
          [done|]. eapply Forall_impl; [exact Hrows|]. simpl. intros; lia.
      * repeat constructor.
    + rewrite !Forall_app. split; [|split].
      * eapply Forall_impl; [exact Hle|]. simpl. intros; lia.
      * eapply Forall_impl; [exact Hrows|]. simpl. intros; lia.
      * repeat constructor. simpl. lia.
Qed.

Lemma record_ids_in_order t_rel ticks late :
  StronglySorted (fun r r' => row_frame_id r <= row_frame_id r')
    (csv (record round6 t_rel ticks late)).
Proof.
  destruct (loop_ids_in_order t_rel ticks) as [Hs Hle].
  destruct (record_log round6 t_rel ticks late) as (rows & -> & Hall & _).
  destruct (loop_frames round6 t_rel ticks) as (Hfid & _). simpl in Hfid.
  rewrite Hfid in Hle.
  assert (Hrows : Forall (fun r => row_frame_id r = Z.of_nat (S (length ticks))) rows).
  { clear -Hall. induction Hall as [|ev r evs rows (_ & Hf & _) _ IH];
      by constructor. }
  apply StronglySorted_app_2; [|done|].
  - intros r r' Hr%list_elem_of_In Hr'%list_elem_of_In.
    rewrite (proj1 (List.Forall_forall _ _) Hrows r' Hr').
    by apply (proj1 (List.Forall_forall _ _) Hle).
  - clear -Hrows. induction Hrows as [|r rows Hr Hrows IH]; constructor;
      [done|]. eapply Forall_impl; [exact Hrows|]. simpl. intros; lia.
Qed.

(** *** From the rows to the events of the check *)

Lemma writable_cells r x y dx dy :
  writable r = true ->
  row_x r = Some x -> row_y r = Some y ->
  row_dx r = Some dx -> row_dy r = Some dy ->
  Py.str_fits x = true /\ Py.str_fits y = true
  /\ Py.str_fits dx = true /\ Py.str_fits dy = true.
Proof.
  unfold writable. intros Hw Hx Hy Hdx Hdy. rewrite Hx, Hy, Hdx, Hdy in Hw.
  cbn [forallb] in Hw.
  apply andb_prop in Hw as [_ Hw].
  apply andb_prop in Hw as [? Hw]. apply andb_prop in Hw as [? Hw].
  apply andb_prop in Hw as [? Hw]. apply andb_prop in Hw as [? Hw].
  done.
Qed.

Lemma filter_checked_log log :
  Forall row_shape log -> Forall (fun r => writable r = true) log ->
  List.filter checked (events_in_log_order log)
  = map load_event (List.filter is_mouse_row log).
Proof.
  induction 1 as [|r log Hr _ IH]; intros Hw; [done|].
  apply Forall_cons in Hw as [Hwr Hw].
  change (r :: log) with ([r] ++ log).
  rewrite events_in_log_order_app, !List.filter_app, map_app, (IH Hw).
  f_equal. clear IH.
  unfold events_in_log_order, events_of, is_mouse_row, checked.
  destruct Hr as [Hty|[Hty Hcells]]; crunch; rewrite Hty; crunch; [done|].
  destruct (Py.startswith (row_event_type r) "mouse") eqn:Hm.
  - destruct Hcells as ([x Hx] & [y Hy] & [dx Hdx] & [dy Hdy]).
    destruct (writable_cells r x y dx dy Hwr Hx Hy Hdx Hdy)
      as (Hfx & Hfy & Hfdx & Hfdy).
    rewrite (strip_keeps_mouse _ Hm). unfold complete, cell_is_int. crunch.
    rewrite Hx, Hy, Hdx, Hdy. unfold cell.
    rewrite !str_nonempty, (int_str _ Hfx), (int_str _ Hfy),
      (int_str _ Hfdx), (int_str _ Hfdy). crunch.
    unfold load_event, read_back, cell. crunch.
    by rewrite ?Hx, ?Hy, ?Hdx, ?Hdy.
  - unfold complete, cell_is_int. crunch. rewrite Hcells. crunch.
    by rewrite andb_false_r.
Qed.

Lemma events_in_log_order_frame r :
  row_type r = "frame" -> events_in_log_order [r] = [].
Proof.
  intros Hty. unfold events_in_log_order, events_of. crunch. by rewrite Hty.
Qed.

Lemma events_in_log_order_event r :
  row_type r = "event" -> events_in_log_order [r] = [load_event r].
Proof.
  intros Hty. unfold events_in_log_order, events_of. crunch. rewrite Hty.
  by crunch.
Qed.

(** What the delta check does with one row that was written: what
    [follow_step] does. *)
Lemma check_follows_row r errs n last last' :
  row_shape r -> writable r = true ->
  follow_step (true, last) r = (true, last') ->
  check_mouse_deltas_from (errs, n, last) (events_in_log_order [r])
  = (errs, n + mouse_rows [r], last').
Proof.
  intros Hr Hwr. unfold follow_step, mouse_rows, is_mouse_row.
  cbn [List.filter].
  destruct Hr as [Hty|[Hty Hcells]].
  - rewrite (events_in_log_order_frame _ Hty), Hty. simpl.
    intros [= <-]. by rewrite Z.add_0_r.
  - rewrite (events_in_log_order_event _ Hty), Hty.
    unfold check_mouse_deltas_from. cbn [fold_left String.eqb Ascii.eqb
      Bool.eqb andb].
    destruct (Py.startswith (row_event_type r) "mouse") eqn:Hm.
    + destruct Hcells as ([x Hx] & [y Hy] & [dx Hdx] & [dy Hdy]).
      destruct (writable_cells r x y dx dy Hwr Hx Hy Hdx Hdy)
        as (Hfx & Hfy & Hfdx & Hfdy).
      rewrite Hx, Hy, Hdx, Hdy. intros [= Hok <-].
      apply andb_prop in Hok as [Hdxok Hdyok].
      unfold check_mouse_event, load_event. crunch.
      rewrite (strip_keeps_mouse _ Hm). crunch.
      unfold read_fields, int_or_none, cell. rewrite Hx, Hy, Hdx, Hdy.
      rewrite !str_nonempty, (int_str _ Hfx), (int_str _ Hfy),
        (int_str _ Hfdx), (int_str _ Hfdy). crunch.
      destruct last as [[lx ly]|]; by rewrite Hdxok, Hdyok.
    + intros [= <-]. cbn [length]. rewrite Z.add_0_r.
      apply check_mouse_event_unchecked.
      unfold checked, load_event, complete, cell_is_int. crunch.
      rewrite Hcells. crunch. by rewrite andb_false_r.
Qed.

(** On a log of rows that were written, read in the order of its lines,
    the delta check does what [follow_step] does: it reports nothing when
    the deltas follow the positions, and it has then checked every mouse
    row. *)
Lemma check_follows_log log :
  Forall row_shape log -> Forall (fun r => writable r = true) log ->
  forall errs n last last',
    fold_left follow_step log (true, last) = (true, last') ->
    check_mouse_deltas_from (errs, n, last) (events_in_log_order log)
    = (errs, n + mouse_rows log, last').
Proof.
  induction 1 as [|r log Hr _ IH]; intros Hw errs n last last' Hf.
  - injection Hf as <-. unfold mouse_rows. simpl. by rewrite Z.add_0_r.
  - apply Forall_cons in Hw as [Hwr Hw].
    change (r :: log) with ([r] ++ log).
    rewrite events_in_log_order_app, mouse_rows_app.
    unfold check_mouse_deltas_from. rewrite fold_left_app.
    fold (check_mouse_deltas_from (errs, n, last) (events_in_log_order [r])).
    cbn [fold_left] in Hf.
    destruct (follow_step (true, last) r) as [ok last1] eqn:Hstep.
    destruct ok.
    + rewrite (check_follows_row r errs n last last1 Hr Hwr Hstep).
      fold (check_mouse_deltas_from (errs, n + mouse_rows [r], last1)
              (events_in_log_order log)).
      rewrite (IH Hw _ _ _ _ Hf). f_equal. f_equal. lia.
    + pose proof (follow_step_false log last1) as Hno.
      rewrite Hf in Hno. done.
Qed.

Lemma events_are_numbers log :
  Forall (fun r => Py.is_number (row_time_s r) = true) log ->
  Forall (fun e => Py.is_number (ev_t e) = true) (events_in_log_order log).
Proof.
  induction 1 as [|r log Hr _ IH]; [constructor|].
  change (r :: log) with ([r] ++ log).
  rewrite events_in_log_order_app. apply Forall_app. split; [|done].
  unfold events_in_log_order, events_of. simpl.
  destruct (String.eqb (Py.strip (row_type r)) "frame"); [constructor|].
  destruct (String.eqb (Py.strip (row_type r)) "event"); by repeat constructor.
Qed.

(** Mouse rows in the order of their timestamps give events in the order
    of their keys. *)
Lemma mouse_events_in_order (mice : list Row) :
  StronglySorted (fun r r' => row_frame_id r <= row_frame_id r') mice ->
  StronglySorted
    (fun r r' => PrimFloat.leb (row_time_s r) (row_time_s r') = true) mice ->
  StronglySorted (Py.not_after event_key_lt) (map load_event mice).
Proof.
  induction mice as [|r mice IH]; intros Hid Ht; [constructor|].
  apply StronglySorted_cons in Hid as [Hid1 Hid].
  apply StronglySorted_cons in Ht as [Ht1 Ht].
  simpl. constructor; [by apply IH|].
  apply Forall_map, Forall_forall. intros r' Hr'.
  unfold Py.not_after. rewrite event_key_lt_alt. simpl.
  pose proof (proj1 (Forall_forall _ _) Hid1 r' Hr') as Hle.
  pose proof (proj1 (Forall_forall _ _) Ht1 r' Hr') as Hlt. simpl in *.
  destruct (Z.eqb_spec (row_frame_id r') (row_frame_id r)).
  - by apply float_leb_not_gt.
  - apply Z.ltb_ge. lia.
Qed.

Lemma StronglySorted_filter_bool {B} (R : B -> B -> Prop) (f : B -> bool) l :
  StronglySorted R l -> StronglySorted R (List.filter f l).
Proof.
  induction 1 as [|b l Hs IH Hb]; [constructor|]. simpl.
  destruct (f b); [|done]. constructor; [done|].
  apply List.Forall_forall. intros c [Hc _]%filter_In.
  by apply (proj1 (List.Forall_forall _ _) Hb).
Qed.

(** When the rows of the log were written, no timestamp of the log is a
    NaN and the mouse rows are in the order of their timestamps,
    [load_csv] leaves the events that the delta check reads in the order
    of the log. *)
Lemma sorted_log_deltas t_rel ticks late :
  Forall (fun r => writable r = true) (csv (record round6 t_rel ticks late)) ->
  Forall (fun r => Py.is_number (row_time_s r) = true)
    (csv (record round6 t_rel ticks late)) ->
  StronglySorted
    (fun r r' => PrimFloat.leb (row_time_s r) (row_time_s r') = true)
    (List.filter is_mouse_row (csv (record round6 t_rel ticks late))) ->
  check_mouse_deltas
    (snd (load_csv (map read_back (csv (record round6 t_rel ticks late)))))
  = ([], mouse_rows (csv (record round6 t_rel ticks late))).
Proof.
  intros Hwr Hnum Htime.
  set (log := csv (record round6 t_rel ticks late)) in *.
  pose proof (record_shape t_rel ticks late) as Hshape. fold log in Hshape.
  pose proof (record_ids_in_order t_rel ticks late) as Hids. fold log in Hids.
  pose proof (record_in_step round6 t_rel ticks late) as Hfollow.
  unfold in_step in Hfollow. fold log in Hfollow.
  pose proof (check_follows_log log Hshape Hwr [] 0 None _ Hfollow) as Hcheck.
  unfold load_csv. simpl. fold (events_in_log_order log).
  unfold check_mouse_deltas. rewrite check_mouse_deltas_from_checked.
  destruct (sort_by_keeps_order event_key_lt
              (fun e => Py.is_number (ev_t e) = true) checked
              (fun a b _ _ => event_key_lt_asym a b)
              (fun a b c _ _ Hc => event_key_lt_between a b c Hc)
              (events_in_log_order log))
    as (_ & _ & ->).
  - by apply events_are_numbers.
  - rewrite (filter_checked_log _ Hshape Hwr).
    apply mouse_events_in_order; [|done].
    by apply StronglySorted_filter_bool.
  - by rewrite <- check_mouse_deltas_from_checked, Hcheck.
Qed.

End SortedLog.




(** X19. Through [load_csv]: when the rows of the log were written, no
    timestamp of the log is a NaN and the mouse rows of the log are in the
    order of their timestamps, the validator, which sorts the events by
    frame id and timestamp before it recomputes the deltas, reports no
    [M01] on the log of a session and has checked every mouse row. *)
Theorem sorted_log_round_trip
    (round6 : float -> float) (t_rel : float)
    (ticks : list datagrabber.Tick) (late : list datagrabber.Event) :
  Forall (fun r => events_csv.writable r = true)
    (datagrabber.csv (datagrabber.record round6 t_rel ticks late)) ->
  Forall (fun r => Py.is_number (datagrabber.row_time_s r) = true)
    (datagrabber.csv (datagrabber.record round6 t_rel ticks late)) ->
  StronglySorted
    (fun r r' => PrimFloat.leb (datagrabber.row_time_s r)
                   (datagrabber.row_time_s r') = true)
    (List.filter datagrabber.is_mouse_row
       (datagrabber.csv (datagrabber.record round6 t_rel ticks late))) ->
  validate_recording.check_mouse_deltas
    (snd (validate_recording.load_csv
            (map events_csv.read_back
               (datagrabber.csv (datagrabber.record round6 t_rel ticks late)))))
  = ([], events_csv.mouse_rows
           (datagrabber.csv (datagrabber.record round6 t_rel ticks late))).
Proof. apply sorted_log_deltas. Qed.

Lemma sorted_log_round_trip_witness :
  validate_recording.check_mouse_deltas
    (snd (validate_recording.load_csv
            (map events_csv.read_back (datagrabber.csv sample.session))))
  = ([], 3).
Proof.
  refine (sorted_log_round_trip (fun t => t) 0%float sample.ticks
            [sample.mouse_move 1.5 0 0] _ _ _).
  - apply List.Forall_forall, List.forallb_forall. vm_compute. reflexivity.
  - item_by_item.
  - item_by_item.
Defined.

(* ================================================================== *)
(** * Part III: further properties of the recorder and the validator   *)
(* ================================================================== *)

(** ** The event buffer in any order *)

Section BufferAnyOrder.

Import datagrabber datagrabber.SafeDeque.

Lemma pop_all_upto_steps dq c1 c2 :
  PrimFloat.leb c1 c2 = true ->
  pop_all_upto dq c2
  = (fst (pop_all_upto dq c1)
     ++ fst (pop_all_upto (snd (pop_all_upto dq c1)) c2),
     snd (pop_all_upto (snd (pop_all_upto dq c1)) c2)).
Proof.
  intros Hc. induction dq as [|e dq IH]; [done|].
  simpl. destruct (PrimFloat.leb (ts e) c1) eqn:He1.
  - rewrite (float_leb_trans _ _ _ He1 Hc), IH.
    destruct (pop_all_upto dq c1) as [out1 rest1]. simpl.
    by destruct (pop_all_upto rest1 c2).
  - simpl. by destruct (PrimFloat.leb (ts e) c2), (pop_all_upto dq c2).
Qed.

End BufferAnyOrder.

(** X1. Whatever the order of the buffer, [pop_all_upto cutoff] splits
    it in two: what it returns, followed by what it leaves, is the buffer
    as it was; every event returned is stamped at or before [cutoff]; and
    the first event left, when there is one, is stamped after [cutoff].
    So the pop stops at the first event that is not due, also when due
    events are queued behind it. *)
Theorem pop_all_upto_longest_due_prefix
    (dq : datagrabber.SafeDeque.t) (cutoff : float) :
  fst (datagrabber.SafeDeque.pop_all_upto dq cutoff)
  ++ snd (datagrabber.SafeDeque.pop_all_upto dq cutoff) = dq
  /\ Forall (fun e => datagrabber.SafeDeque.due cutoff e = true)
       (fst (datagrabber.SafeDeque.pop_all_upto dq cutoff))
  /\ (forall e,
         head (snd (datagrabber.SafeDeque.pop_all_upto dq cutoff)) = Some e ->
         datagrabber.SafeDeque.due cutoff e = false).
Proof.
  split; [apply pop_all_upto_app|]. split; [apply pop_all_upto_due|].
  intros e. apply pop_all_upto_head.
Qed.

(** X2. Popping up to [c1] and then, from what is left, up to a later
    cutoff [c2] returns, one after the other, the events that one pop up
    to [c2] returns, and leaves the same buffer. *)
Theorem pop_all_upto_in_two_steps
    (dq : datagrabber.SafeDeque.t) (c1 c2 : float) :
  PrimFloat.leb c1 c2 = true ->
  datagrabber.SafeDeque.pop_all_upto dq c2
  = (fst (datagrabber.SafeDeque.pop_all_upto dq c1)
     ++ fst (datagrabber.SafeDeque.pop_all_upto
               (snd (datagrabber.SafeDeque.pop_all_upto dq c1)) c2),
     snd (datagrabber.SafeDeque.pop_all_upto
            (snd (datagrabber.SafeDeque.pop_all_upto dq c1)) c2)).
Proof. apply pop_all_upto_steps. Qed.

Lemma pop_all_upto_in_two_steps_witness :
  datagrabber.SafeDeque.pop_all_upto sample.buffer 0.5
  = ([sample.mouse_move 0.25 10 20] ++ [sample.key_down 0.5 "a"],
     [sample.mouse_move 0.75 12 25]).
Proof.
  exact (pop_all_upto_in_two_steps sample.buffer 0.25%float 0.5%float eq_refl).
Defined.

(** ** Every event gets its row *)

Section Conservation.

Import datagrabber datagrabber.SafeDeque events_csv.

Variable round6 : float -> float.

Lemma attributed_event_rows fid evs rows :
  Forall2 (attributed round6 fid) evs rows ->
  List.filter is_event_row rows = rows.
Proof.
  induction 1 as [|ev r evs rows (Hty & _) _ IH]; [done|].
  simpl. unfold is_event_row at 1. rewrite Hty. simpl. by f_equal.
Qed.

Lemma attributed_somewhere fid evs rows :
  Forall2 (attributed round6 fid) evs rows ->
  Forall2 (fun ev r => exists fid, attributed round6 fid ev r) evs rows.
Proof. induction 1; constructor; eauto. Qed.

(** The counters a [for ev in ...] loop keeps. *)
Lemma write_events_counts evs st :
  _events_written (write_events round6 evs st)
  = _events_written st + Z.of_nat (length evs)
  /\ Z.of_nat (length (csv (write_events round6 evs st)))
     = Z.of_nat (length (csv st)) + Z.of_nat (length evs).
Proof.
  revert st. induction evs as [|ev evs IH]; intros st; simpl; [lia|].
  destruct (event_row round6 (frame_id st) (_last_recorded_mouse_pos st) ev)
    as [row last'].
  destruct (IH {| events_q := events_q st; frame_id := frame_id st;
                  _last_recorded_mouse_pos := last';
                  _frames_captured := _frames_captured st;
                  _events_written := _events_written st + 1;
                  csv := csv st ++ [row] |}) as [-> ->].
  simpl. rewrite length_app. simpl. lia.
Qed.

(** When the loop is left, the events written and the events still
    buffered are, in this order, the events that arrived. *)
Lemma loop_keeps_events t_rel ticks :
  let st := fold_left (tick round6) ticks (first_frame round6 t_rel) in
  exists written,
    written ++ events_q st = concat (map arrivals ticks)
    /\ Forall2 (fun ev r => exists fid, attributed round6 fid ev r)
         written (List.filter is_event_row (csv st)).
Proof.
  induction ticks as [|tk ticks IH] using rev_ind; simpl.
  - exists []. split; [done|]. constructor.
  - rewrite fold_left_app. simpl.
    set (st := fold_left (tick round6) ticks (first_frame round6 t_rel)) in *.
    destruct IH as (written & Hq & Hrows).
    destruct (tick_log round6 st tk) as (rows & -> & Hall & _ & _ & ->).
    exists (written ++ fst (pop_all_upto (events_q st ++ arrivals tk)
                              (t_boundary_rel tk))).
    split.
    + rewrite map_app, concat_app. simpl. rewrite app_nil_r, <- Hq.
      rewrite <- !app_assoc. f_equal. apply pop_all_upto_app.
    + rewrite !List.filter_app, (attributed_event_rows _ _ _ Hall). simpl.
      rewrite app_nil_r. apply Forall2_app; [done|].
      by eapply attributed_somewhere.
Qed.

Lemma append_all (q evs : SafeDeque.t) :
  fold_left SafeDeque.append evs q = q ++ evs.
Proof.
  revert q. induction evs as [|ev evs IH]; intros q; simpl.
  - by rewrite app_nil_r.
  - unfold SafeDeque.append at 2. by rewrite IH, <- app_assoc.
Qed.

(** X3. A session writes one event row for every event that the
    listeners appended before the tail flush drained the buffer, be it
    during an iteration or after the last drain of the loop, and no other
    event row: the event rows of the log, in the order of the log, are the
    rows of these events in the order they arrived, each with the event's
    type and rounded timestamp under some frame id. The events that the
    listeners append after that drain, until they are stopped, get no
    row: they are what the buffer holds when [record] is done. *)
Theorem events_before_the_last_drain_are_written_once
    (t_rel : float) (ticks : list Tick) (late after : list Event) :
  Forall2 (fun ev r => exists fid, attributed round6 fid ev r)
    (concat (map arrivals ticks) ++ late)
    (List.filter is_event_row
       (csv (record_until_stopped round6 t_rel ticks late after)))
  /\ events_q (record_until_stopped round6 t_rel ticks late after) = after.
Proof.
  destruct (loop_keeps_events t_rel ticks) as (written & Hq & Hrows).
  unfold record_until_stopped, record. cbn [csv events_q].
  set (st := fold_left (tick round6) ticks (first_frame round6 t_rel)) in *.
  destruct (flush_tail_log round6 st late) as (rows & -> & Hall & ->).
  split; [|by rewrite append_all].
  rewrite <- Hq, <- app_assoc, List.filter_app, (attributed_event_rows _ _ _ Hall).
  apply Forall2_app; [done|]. by eapply attributed_somewhere.
Qed.

Lemma tick_counts st tk :
  _frames_captured (tick round6 st tk) = _frames_captured st + 1
  /\ _events_written (tick round6 st tk) + Z.of_nat (length (events_q (tick round6 st tk)))
     = _events_written st + Z.of_nat (length (events_q st))
       + Z.of_nat (length (arrivals tk))
  /\ Z.of_nat (length (csv (tick round6 st tk)))
     - _frames_captured (tick round6 st tk) - _events_written (tick round6 st tk)
     = Z.of_nat (length (csv st)) - _frames_captured st - _events_written st.
Proof.
  unfold tick.
  pose proof (pop_all_upto_app (events_q st ++ arrivals tk) (t_boundary_rel tk)) as Happ.
  destruct (pop_all_upto (events_q st ++ arrivals tk) (t_boundary_rel tk))
    as [drained left]. simpl in Happ.
  apply (f_equal (@length Event)) in Happ. rewrite !length_app in Happ.
  match goal with |- context [write_events round6 drained ?s] =>
    destruct (write_events_counts drained s) as [Hw Hl];
    destruct (write_events_log round6 drained s) as (rows & _ & _ & _ & Hq & Hcap)
  end.
  simpl in *. rewrite Hw, Hq, Hcap, length_app, Nat2Z.inj_add, Hl. simpl. lia.
Qed.

Lemma loop_counts t_rel ticks :
  let st := fold_left (tick round6) ticks (first_frame round6 t_rel) in
  _frames_captured st = Z.of_nat (S (length ticks))
  /\ _events_written st + Z.of_nat (length (events_q st))
     = Z.of_nat (length (concat (map arrivals ticks)))
  /\ Z.of_nat (length (csv st)) = _frames_captured st + _events_written st.
Proof.
  induction ticks as [|tk ticks IH] using rev_ind; simpl; [done|].
  rewrite fold_left_app. simpl.
  set (st := fold_left (tick round6) ticks (first_frame round6 t_rel)) in *.
  destruct IH as (Hcap & Hev & Hlen).
  destruct (tick_counts st tk) as (Hcap' & Hev' & Hlen').
  rewrite map_app, concat_app, !length_app. simpl. rewrite app_nil_r.
  lia.
Qed.

(** X4. When [record] is done, [_frames_captured] is one more than
    the number of iterations, [_events_written] is the number of events
    that arrived before the tail flush drained the buffer, whatever
    arrived after it, and the log has as many rows as the two counters
    together. *)
Theorem record_counters_match_the_log
    (t_rel : float) (ticks : list Tick) (late after : list Event) :
  _frames_captured (record_until_stopped round6 t_rel ticks late after)
  = Z.of_nat (S (length ticks))
  /\ _events_written (record_until_stopped round6 t_rel ticks late after)
     = Z.of_nat (length (concat (map arrivals ticks) ++ late))
  /\ Z.of_nat (length (csv (record_until_stopped round6 t_rel ticks late after)))
     = _frames_captured (record_until_stopped round6 t_rel ticks late after)
       + _events_written (record_until_stopped round6 t_rel ticks late after).
Proof.
  destruct (loop_counts t_rel ticks) as (Hcap & Hev & Hlen).
  unfold record_until_stopped. cbn [_frames_captured _events_written csv].
  unfold record, flush_tail, drain_all.
  set (st := fold_left (tick round6) ticks (first_frame round6 t_rel)) in *.
  match goal with |- context [write_events round6 ?evs ?s] =>
    destruct (write_events_counts evs s) as [Hw Hl];
    destruct (write_events_log round6 evs s) as (rows & _ & _ & _ & _ & Hc)
  end.
  rewrite Hw, Hl, Hc. simpl. rewrite !length_app in *. lia.
Qed.

End Conservation.

(** ** Events behind an event that is not due *)

Section Blocked.

Import datagrabber datagrabber.SafeDeque events_csv.

Variable round6 : float -> float.

(** With a head that is not due, an iteration writes the frame row
    only, and the arrivals queue up behind the head. *)
Lemma tick_behind_undue_head st tk e q :
  events_q st ++ arrivals tk = e :: q ->
  due (t_boundary_rel tk) e = false ->
  csv (tick round6 st tk)
  = csv st ++ [frame_row round6 (frame_id st + 1) (t_boundary_rel tk)]
  /\ events_q (tick round6 st tk) = e :: q.
Proof.
  intros Hq Hdue. unfold tick. rewrite Hq. unfold due in Hdue.
  simpl. by rewrite Hdue.
Qed.

Lemma loop_behind_undue_head t_rel ticks e :
  head (concat (map arrivals ticks)) = Some e ->
  Forall (fun tk => due (t_boundary_rel tk) e = false) ticks ->
  let st := fold_left (tick round6) ticks (first_frame round6 t_rel) in
  events_q st = concat (map arrivals ticks)
  /\ List.filter is_event_row (csv st) = [].
Proof.
  induction ticks as [|tk ticks IH] using rev_ind; [done|].
  rewrite map_app, concat_app, Forall_app, fold_left_app. simpl.
  rewrite app_nil_r. intros Hhead [Hticks Htk]. apply Forall_cons in Htk as [Htk _].
  set (st := fold_left (tick round6) ticks (first_frame round6 t_rel)) in *.
  assert (Hst : events_q st = concat (map arrivals ticks)
                /\ List.filter is_event_row (csv st) = []).
  { destruct (concat (map arrivals ticks)) as [|e' q] eqn:Hc.
    - destruct (loop_keeps_events round6 t_rel ticks) as (written & Hk & Hrows).
      fold st in Hk, Hrows. rewrite Hc in Hk.
      apply app_eq_nil in Hk as [-> ->]. by inversion Hrows.
    - by apply IH. }
  destruct Hst as [Hq Hrows].
  destruct (concat (map arrivals ticks) ++ arrivals tk) as [|e' q] eqn:Hall;
    [done|]. injection Hhead as ->.
  destruct (tick_behind_undue_head st tk e q) as [-> ->]; [by rewrite Hq|done|].
  split; [done|]. rewrite List.filter_app, Hrows. done.
Qed.

Lemma record_behind_undue_head t_rel ticks late e :
  head (concat (map arrivals ticks)) = Some e ->
  Forall (fun tk => due (t_boundary_rel tk) e = false) ticks ->
  Forall2 (attributed round6 (Z.of_nat (S (length ticks))))
    (concat (map arrivals ticks) ++ late)
    (List.filter is_event_row (csv (record round6 t_rel ticks late))).
Proof.
  intros Hhead Hticks.
  destruct (loop_behind_undue_head t_rel ticks e Hhead Hticks) as [Hq Hrows].
  destruct (record_log round6 t_rel ticks late) as (rows & -> & Hall & _).
  rewrite Hq in Hall.
  by rewrite List.filter_app, Hrows, (attributed_event_rows _ _ _ _ Hall).
Qed.

End Blocked.

(** X5. When the first event of a session is stamped later than
    every frame boundary of the session (as one can be that a listener
    stamps before [_start_perf] is set), no iteration writes an event
    row: every event of the session, whatever its own timestamp, waits
    behind it and is written by the tail flush, under the id of the last
    frame. *)
Theorem undue_head_delays_every_event
    (round6 : float -> float) (t_rel : float)
    (ticks : list datagrabber.Tick) (late : list datagrabber.Event)
    (e : datagrabber.Event) :
  head (concat (map datagrabber.arrivals ticks)) = Some e ->
  Forall (fun tk => datagrabber.SafeDeque.due (datagrabber.t_boundary_rel tk) e
                    = false) ticks ->
  Forall2 (datagrabber.attributed round6 (Z.of_nat (S (length ticks))))
    (concat (map datagrabber.arrivals ticks) ++ late)
    (List.filter events_csv.is_event_row
       (datagrabber.csv (datagrabber.record round6 t_rel ticks late))).
Proof. apply record_behind_undue_head. Qed.

Lemma undue_head_delays_witness :
  Forall2 (datagrabber.attributed (fun t => t) 3)
    [sample.mouse_move 100 10 20; sample.key_down 0.25 "a"]
    (List.filter events_csv.is_event_row
       (datagrabber.csv
          (datagrabber.record (fun t => t) 0 sample.blocked_ticks []))).
Proof.
  refine (undue_head_delays_every_event (fun t => t) 0%float
            sample.blocked_ticks [] (sample.mouse_move 100 10 20) eq_refl _).
  repeat constructor.
Defined.

Section FrameOrder.

Import datagrabber validate_recording events_csv.

Variable round6 : float -> float.

(** X6. The rows of the log of a session are in the order of their
    frame ids, and [load_csv], which sorts the frames by id, returns the
    frames of such a log in the order of the file. *)
Theorem recorded_log_is_in_frame_order
    (t_rel : float) (ticks : list Tick) (late : list Event) :
  StronglySorted (fun r r' => row_frame_id r <= row_frame_id r')
    (csv (record round6 t_rel ticks late))
  /\ fst (load_csv (map read_back (csv (record round6 t_rel ticks late))))
     = frames_of (map read_back (csv (record round6 t_rel ticks late))).
Proof.
  split; [apply record_ids_in_order|].
  destruct (record_frame_ids round6 t_rel ticks late) as (Hids & _ & Hty).
  pose proof (frames_of_read_back _ Hty) as Hfr. rewrite Hids in Hfr.
  unfold load_csv. simpl. apply (sort_by_key_in_order fr_fid).
  rewrite Hfr. apply ids_upto_in_order.
Qed.

End FrameOrder.

(** ** The frame check in full *)

Section FrameTimes.

Import validate_recording.

(** The second loop of [check_frames] reports nothing exactly when no
    frame drops behind the frame before it. *)
Lemma first_time_drop_nil frames :
  first_time_drop frames = []
  <-> forall i prev cur,
        frames !! i = Some prev -> frames !! S i = Some cur ->
        drops prev cur = false.
Proof.
  induction frames as [|prev frames IH]; [by split|].
  destruct frames as [|cur rest].
  - split; [|done]. intros _ [|i] ? ? ?; done.
  - cbn [first_time_drop]. fold (drops prev cur).
    destruct (drops prev cur) eqn:Hd.
    + split; [done|]. intros Hall. by rewrite (Hall 0%nat prev cur) in Hd.
    + rewrite IH. split.
      * intros Hall [|i] p c Hp Hc.
        -- simpl in Hp, Hc. by simplify_eq.
        -- by apply (Hall i).
      * intros Hall i p c Hp Hc. by apply (Hall (S i)).
Qed.

(** It reports at most one [F03], for the first pair that drops. *)
Lemma first_time_drop_cases frames :
  first_time_drop frames = []
  \/ exists i prev cur,
       frames !! i = Some prev /\ frames !! S i = Some cur
       /\ drops prev cur = true
       /\ first_time_drop frames
          = [F03 (fr_fid prev) (fr_t prev) (fr_fid cur) (fr_t cur)]
       /\ forall j p c, (j < i)%nat -> frames !! j = Some p ->
                        frames !! S j = Some c -> drops p c = false.
Proof.
  induction frames as [|prev frames IH]; [by left|].
  destruct frames as [|cur rest]; [by left|].
  change (first_time_drop (prev :: cur :: rest))
    with (if drops prev cur
          then [F03 (fr_fid prev) (fr_t prev) (fr_fid cur) (fr_t cur)]
          else first_time_drop (cur :: rest)).
  destruct (drops prev cur) eqn:Hd.
  - right. exists 0%nat, prev, cur. repeat split; try done. intros; lia.
  - destruct IH as [Hnil|(i & p & c & Hp & Hc & Hdrop & Heq & Hfirst)]; [by left|].
    right. exists (S i), p, c. repeat split; try done.
    intros [|j] p' c' Hj Hp' Hc'.
    + simpl in Hp', Hc'. by simplify_eq.
    + apply (Hfirst j); [lia|done..].
Qed.

End FrameTimes.

Section FrameCheck.

Import validate_recording.

(** X7. [check_frames] reports nothing exactly when there is a
    frame, the ids of the frames, in their order, are [1 .. N], and no
    frame is stamped more than [1e-6] before the frame in front of it. *)
Theorem check_frames_passes_iff (frames : list FrameRow) :
  check_frames frames = []
  <-> frames <> []
      /\ map fr_fid frames = ids_upto (length frames)
      /\ forall i prev cur,
           frames !! i = Some prev -> frames !! S i = Some cur ->
           PrimFloat.ltb (fr_t cur) (fr_t prev - Py.eps) = false.
Proof.
  unfold check_frames. destruct frames as [|fr frames]; [by split; [|intros []]|].
  rewrite app_nil, first_time_drop_nil, ids_upto_from.
  destruct (first_id_mismatch_cases 1 (fr :: frames))
    as [[-> Heq]|[(e & s & ->) Hne]].
  - split; [intros [_ ?]|intros (_ & _ & ?)]; by repeat split.
  - split; [by intros []|]. by intros (_ & ? & _).
Qed.

(** X8. [check_frames] reports an [F03] exactly when some frame is
    stamped more than [1e-6] before the frame in front of it; the [F03]
    it reports names the first such pair of the list; and it reports at
    most two messages in all. *)
Theorem check_frames_time_order (frames : list FrameRow) :
  (existsb is_F03 (check_frames frames) = true
   <-> exists i prev cur,
         frames !! i = Some prev /\ frames !! S i = Some cur
         /\ PrimFloat.ltb (fr_t cur) (fr_t prev - Py.eps) = true)
  /\ (forall e, In e (check_frames frames) -> is_F03 e = true ->
        exists i prev cur,
          frames !! i = Some prev /\ frames !! S i = Some cur
          /\ e = F03 (fr_fid prev) (fr_t prev) (fr_fid cur) (fr_t cur)
          /\ PrimFloat.ltb (fr_t cur) (fr_t prev - Py.eps) = true
          /\ forall j p c, (j < i)%nat -> frames !! j = Some p ->
               frames !! S j = Some c ->
               PrimFloat.ltb (fr_t c) (fr_t p - Py.eps) = false)
  /\ (length (check_frames frames) <= 2)%nat.
Proof.
  unfold check_frames. destruct frames as [|fr frames].
  - split; [|split]; [split; [done|by intros ([|?] & ? & ? & ? & _)]| |simpl; lia].
    intros e [<-|[]]. done.
  - set (fs := fr :: frames).
    assert (Hid : first_id_mismatch 1 fs = []
                  \/ exists e s, first_id_mismatch 1 fs = [F02 e s]).
    { destruct (first_id_mismatch_cases 1 fs) as [[-> _]|[? _]]; auto. }
    destruct (first_time_drop_cases fs)
      as [Hnil|(i & p & c & Hp & Hc & Hdrop & Heq & Hfirst)].
    + rewrite Hnil, app_nil_r. split; [|split].
      * split.
        -- destruct Hid as [->|(e & s & ->)]; done.
        -- intros (i & p & c & Hp & Hc & Hd).
           pose proof (proj1 (first_time_drop_nil fs) Hnil i p c Hp Hc) as Hno.
           unfold drops in Hno. congruence.
      * intros e He. destruct Hid as [Hid|(e' & s & Hid)]; rewrite Hid in He.
        -- done.
        -- destruct He as [<-|[]]. done.
      * destruct Hid as [->|(e & s & ->)]; simpl; lia.
    + rewrite Heq. split; [|split].
      * split; [by exists i, p, c|]. intros _. rewrite existsb_app. simpl.
        by rewrite orb_true_r.
      * intros e He HF. exists i, p, c.
        destruct Hid as [Hid|(e' & s & Hid)]; rewrite Hid in He; simpl in He.
        -- destruct He as [<-|[]]. by repeat split.
        -- destruct He as [<-|[<-|[]]]; [done|]. by repeat split.
      * destruct Hid as [->|(e & s & ->)]; simpl; lia.
Qed.

End FrameCheck.

(** ** What the event check raises and what it counts *)

Section EventCheckRaises.

Import validate_recording.

(** The dict holds a timestamp for the ids of the frames, and for no
    other id. *)
Lemma frame_times_None frames k :
  frame_times frames !! k = None <-> ~ In k (map fr_fid frames).
Proof.
  induction frames as [|fr frames IH] using rev_ind.
  - unfold frame_times. simpl. rewrite lookup_empty. by split; [intros _ []|].
  - rewrite frame_times_snoc, lookup_insert_None, IH, map_app, in_app_iff.
    simpl. intuition.
Qed.

Lemma last_frame frames fr :
  List.last (Some <$> frames) None = Some fr ->
  List.last (map fr_fid frames) 0 = fr_fid fr.
Proof.
  destruct frames as [|fr0 l] using rev_ind; [done|].
  rewrite fmap_app, map_app. simpl. rewrite !last_last. by intros [= ->].
Qed.

(** One event: what is raised is the [KeyError] of an id from 1 to the
    last id that the dict does not hold. *)
Lemma check_event_raise ft last_fid acc ev e :
  check_event ft last_fid acc ev = Py.Raise e ->
  exists k, e = Py.KeyError k /\ ft !! k = None /\ 1 <= k <= last_fid.
Proof.
  destruct acc as [errs warns]. unfold check_event, mbind, result_bind, getitem.
  destruct (Z.ltb_spec (ev_fid ev) 1); [done|].
  destruct (Z.ltb_spec last_fid (ev_fid ev)); [done|]. simpl.
  destruct (Z.ltb_spec (ev_fid ev) last_fid).
  - destruct (ft !! (ev_fid ev + 1)) eqn:Hnext; simpl.
    + destruct (ft !! ev_fid ev) eqn:Hcur; simpl; [done|].
      intros [= <-]. exists (ev_fid ev). repeat split; [done|lia..].
    + intros [= <-]. exists (ev_fid ev + 1). repeat split; [done|lia..].
  - simpl. destruct (ft !! ev_fid ev) eqn:Hcur; simpl; [done|].
    intros [= <-]. exists (ev_fid ev). repeat split; [done|lia..].
Qed.

Lemma check_events_raise ft last_fid events acc e :
  check_events ft last_fid events acc = Py.Raise e ->
  exists k, e = Py.KeyError k /\ ft !! k = None /\ 1 <= k <= last_fid.
Proof.
  revert acc. induction events as [|ev events IH]; intros acc; [done|].
  cbn [check_events]. unfold mbind, result_bind.
  destruct (check_event ft last_fid acc ev) as [acc'|e'] eqn:Hev; simpl.
  - apply IH.
  - intros [= <-]. by eapply check_event_raise.
Qed.

Lemma check_events_vs_frames_raise frames events e :
  check_events_vs_frames frames events = Py.Raise e ->
  exists k, e = Py.KeyError k /\ ~ In k (map fr_fid frames)
            /\ 1 <= k <= List.last (map fr_fid frames) 0.
Proof.
  unfold check_events_vs_frames.
  destruct (List.last (Some <$> frames) None) as [fr|] eqn:Hlast; [|done].
  intros (k & -> & Hk & Hr)%check_events_raise.
  exists k. by rewrite <- frame_times_None, (last_frame _ _ Hlast).
Qed.

(** X9. When [check_events_vs_frames] raises, the exception is the
    [KeyError] of an id from 1 to the id of the last frame that no frame
    carries, and [check_frames] has reported [F02] for these frames. *)
Theorem event_check_raises_only_at_a_gap
    (frames : list FrameRow) (events : list EventRow) (e : Py.exn) :
  check_events_vs_frames frames events = Py.Raise e ->
  (exists k, e = Py.KeyError k /\ ~ In k (map fr_fid frames)
             /\ 1 <= k <= List.last (map fr_fid frames) 0)
  /\ existsb is_F02 (check_frames frames) = true.
Proof.
  intros Hraise. split; [by eapply check_events_vs_frames_raise|].
  apply check_frames_F02. intros Hids.
  destruct frames as [|fr frames]; [done|].
  destruct (check_events_vs_frames_flagged (fr :: frames) Hids events)
    as (errs & warns & Heq & _); [done|]. congruence.
Qed.

Lemma event_check_raises_witness :
  (exists k, Py.KeyError 2 = Py.KeyError k
             /\ ~ In k (map fr_fid (fst (load_csv sample.log_with_dropped_frame)))
             /\ 1 <= k <= List.last
                            (map fr_fid (fst (load_csv sample.log_with_dropped_frame))) 0)
  /\ existsb is_F02 (check_frames (fst (load_csv sample.log_with_dropped_frame)))
     = true.
Proof.
  apply (event_check_raises_only_at_a_gap
           (fst (load_csv sample.log_with_dropped_frame))
           (snd (load_csv sample.log_with_dropped_frame))).
  vm_compute. reflexivity.
Defined.

(** X10. On frames with the ids [1 .. N] the event check raises
    nothing and reports an [E01] exactly for the events whose frame id is
    below 1 or above [N]; the message names that id and [N]. *)
Theorem event_outside_the_frames_gets_E01
    (frames : list FrameRow) (events : list EventRow) :
  map fr_fid frames = ids_upto (length frames) ->
  exists errs warns,
    check_events_vs_frames frames events = Py.Ok (errs, warns)
    /\ forall fid last,
         In (E01 fid last) errs
         <-> frames <> [] /\ last = Z.of_nat (length frames)
             /\ (fid < 1 \/ last < fid)
             /\ exists ev, In ev events /\ ev_fid ev = fid.
Proof.
  intros Hids. destruct frames as [|fr0 frames0] eqn:Hfr.
  { exists [E00], []. split; [done|]. intros fid last.
    split; [by intros [|[]]|by intros [[] _]]. }
  rewrite <- Hfr in *.
  destruct (check_events_vs_frames_flagged frames Hids events)
    as (errs & warns & Heq & He & _); [by rewrite Hfr|].
  exists errs, warns. split; [done|]. intros fid last. rewrite He. split.
  - intros (ev & Hev & [[[= -> ->] Hout]|[(? & _ & _ & _ & _ & ?)
                                         |(? & _ & _ & _ & _ & ?)]]);
      [|done..].
    split; [by rewrite Hfr|]. split; [done|]. split; [done|]. by exists ev.
  - intros (_ & -> & Hout & ev & Hev & <-). exists ev. split; [done|]. by left.
Qed.

Lemma event_outside_the_frames_witness :
  exists errs warns,
    check_events_vs_frames sample.two_frames [sample.key_event_at 3 0.5]
    = Py.Ok (errs, warns)
    /\ forall fid last,
         In (E01 fid last) errs
         <-> sample.two_frames <> [] /\ last = Z.of_nat (length sample.two_frames)
             /\ (fid < 1 \/ last < fid)
             /\ exists ev, In ev [sample.key_event_at 3 0.5] /\ ev_fid ev = fid.
Proof.
  exact (event_outside_the_frames_gets_E01 sample.two_frames
           [sample.key_event_at 3 0.5] eq_refl).
Defined.

End EventCheckRaises.

Section MouseCounts.

Import validate_recording events_csv.




End MouseCounts.

(** ** The image check *)

Section Images.

Import validate_recording.

Lemma size_eqb_refl (size : Z * Z) :
  (fst size =? fst size) && (snd size =? snd size) = true.
Proof. by rewrite !Z.eqb_refl. Qed.

(** With the reference size set, every frame is judged against it. *)
Lemma check_shape_fold_ref disk l errs ref :
  fold_left (check_shape disk) l (errs, Some ref)
  = (errs ++ omap (shape_error disk (Some ref)) l, Some ref).
Proof.
  revert errs. induction l as [|fr l IH]; intros errs.
  - simpl. by rewrite app_nil_r.
  - cbn [fold_left].
    assert (Hstep : check_shape disk (errs, Some ref) fr
                    = (errs ++ option_list (shape_error disk (Some ref) fr),
                       Some ref)).
    { unfold check_shape, shape_error.
      destruct (image_size disk (fr_path fr)) as [size|]; [|done].
      destruct ((fst size =? fst ref) && (snd size =? snd ref)); [|done].
      by rewrite app_nil_r. }
    rewrite Hstep, IH, <- app_assoc. do 2 f_equal.
    cbn [omap list_omap]. by destruct (shape_error disk (Some ref) fr).
Qed.

(** Before that, unreadable images get [I02], and the first image read
    sets the reference size. *)
Lemma check_shape_fold disk l errs :
  fold_left (check_shape disk) l (errs, None)
  = (errs ++ omap (shape_error disk (first_size disk l)) l, first_size disk l).
Proof.
  revert errs. induction l as [|fr l IH]; intros errs.
  - simpl. by rewrite app_nil_r.
  - cbn [fold_left]. unfold first_size. cbn [omap list_omap].
    destruct (image_size disk (fr_path fr)) as [size|] eqn:Hsize.
    + assert (Hstep : check_shape disk (errs, None) fr = (errs, Some size)).
      { unfold check_shape. by rewrite Hsize. }
      rewrite Hstep, check_shape_fold_ref. cbn [head].
      unfold shape_error at 2. by rewrite Hsize, size_eqb_refl.
    + assert (Hstep : check_shape disk (errs, None) fr
                      = (errs ++ [I02 (fr_path fr)], None)).
      { unfold check_shape. by rewrite Hsize. }
      fold (first_size disk l). rewrite Hstep, IH, <- app_assoc.
      unfold shape_error at 2. by rewrite Hsize.
Qed.

Lemma shape_error_not_I01 disk ref l :
  Forall (fun e => is_I01 e = false) (omap (shape_error disk ref) l).
Proof.
  apply List.Forall_forall. intros e He%list_elem_of_In.
  apply list_elem_of_omap in He as (fr & _ & He).
  unfold shape_error in He.
  destruct (image_size disk (fr_path fr)) as [size|], ref as [r|];
    simplify_eq; try done.
  by destruct ((fst size =? fst r) && (snd size =? snd r)); simplify_eq.
Qed.

(** X12. Without the imaging library or with [sample = 0] the image
    check reports the missing files and no size. Otherwise it returns the
    size of the first sampled image that can be read and reports, after
    the missing files, for every sampled frame in turn an [I02] when its
    image cannot be read and an [I03] when its size differs from that
    first size, wherever the frame stands in the sample. *)
Theorem shape_check_against_first_size
    (disk : Disk) (frames : list FrameRow) (sample : Z) :
  check_images_exist_and_shape disk frames sample
  = if negb (pillow disk) || (sample =? 0) then (missing disk frames, None)
    else (missing disk frames
          ++ omap (shape_error disk (first_size disk (sampled frames sample)))
               (sampled frames sample),
          first_size disk (sampled frames sample)).
Proof.
  unfold check_images_exist_and_shape. fold (missing disk frames).
  destruct (negb (pillow disk) || (sample =? 0)); [done|].
  apply check_shape_fold.
Qed.

(** X13. Whatever the sample and whether or not the imaging library is
    there, the image check reports [I01] for a path exactly when a frame
    of the log has this path and the file does not exist. *)
Theorem missing_images_are_reported
    (disk : Disk) (frames : list FrameRow) (sample : Z) (p : string) :
  In (I01 p) (fst (check_images_exist_and_shape disk frames sample))
  <-> exists fr, In fr frames /\ fr_path fr = p /\ path_exists disk p = false.
Proof.
  assert (Hmiss : In (I01 p) (missing disk frames)
                  <-> exists fr, In fr frames /\ fr_path fr = p
                                 /\ path_exists disk p = false).
  { unfold missing. rewrite <- list_elem_of_In, list_elem_of_omap. split.
    - intros (fr & Hin%list_elem_of_In & He). exists fr.
      destruct (path_exists disk (fr_path fr)) eqn:Hp; [done|].
      injection He as <-. by repeat split.
    - intros (fr & Hin%list_elem_of_In & <- & Hp). exists fr. by rewrite Hp. }
  rewrite <- Hmiss. unfold check_images_exist_and_shape. fold (missing disk frames).
  destruct (negb (pillow disk) || (sample =? 0)); [done|].
  rewrite check_shape_fold. simpl. rewrite in_app_iff. split; [|by left].
  intros [?|Hin]; [done|].
  by pose proof (proj1 (List.Forall_forall _ _)
                   (shape_error_not_I01 disk _ _) _ Hin).
Qed.

End Images.

(** ** The output of [main] *)

Section MainOutput.

Import validate_recording.









(** X16. Without [--check-images] the outcome of [main] and what it
    collects depend on the log alone: not on which image files exist, nor
    on their sizes, nor on the imaging library. *)
Theorem main_reads_images_only_on_request (args : Args) (d1 d2 : Disk) :
  check_images args = false ->
  events_csv d1 = events_csv d2 ->
  main_collect args d1 = main_collect args d2.
Proof.
  intros Hno Hlog. unfold main_collect. rewrite Hlog, Hno. done.
Qed.

Lemma main_reads_images_only_on_request_witness :
  main_collect sample.default_args
    (sample.disk_with (Some sample.log_with_dropped_frame))
  = main_collect sample.default_args
      {| events_csv := Some sample.log_with_dropped_frame;
         path_exists := fun _ => false;
         image_size := fun _ => None;
         pillow := false |}.
Proof.
  exact (main_reads_images_only_on_request sample.default_args
           (sample.disk_with (Some sample.log_with_dropped_frame))
           {| events_csv := Some sample.log_with_dropped_frame;
              path_exists := fun _ => false;
              image_size := fun _ => None;
              pillow := false |}
           eq_refl eq_refl).
Defined.

End MainOutput.

(** ** What [load_csv] returns *)

Section SortPermutes.

Context {A : Type} (lt : A -> A -> bool).

Lemma insert_by_Permutation a l : Permutation (Py.insert_by lt a l) (a :: l).
Proof.
  induction l as [|b l IH]; simpl; [done|].
  destruct (lt a b); [done|]. rewrite IH. apply perm_swap.
Qed.

Lemma sort_by_Permutation l : Permutation (Py.sort_by lt l) l.
Proof.
  induction l as [|a l IH] using rev_ind; [done|].
  rewrite sort_by_snoc, insert_by_Permutation, IH.
  apply Permutation_cons_append.
Qed.

End SortPermutes.

Section LoadCsv.

Import validate_recording.

Lemma same_key_in_order {B} (lt : B -> B -> bool) (key : B -> Z) k l :
  (forall a b, lt a b = (key a <? key b)) ->
  StronglySorted (Py.not_after lt) (List.filter (fun b => key b =? k) l).
Proof.
  intros Hlt. induction l as [|b l IH]; [constructor|]. simpl.
  destruct (Z.eqb_spec (key b) k) as [Hb|]; [|done].
  constructor; [done|]. apply List.Forall_forall.
  intros c [_ Hc%Z.eqb_eq]%filter_In. unfold Py.not_after.
  rewrite Hlt. apply Z.ltb_ge. lia.
Qed.

Lemma StronglySorted_weaken {B} (R R' : B -> B -> Prop) l :
  (forall a b, R a b -> R' a b) -> StronglySorted R l -> StronglySorted R' l.
Proof.
  intros HR. induction 1 as [|b l Hs IH Hb]; constructor; [done|].
  eapply Forall_impl; [exact Hb|]. apply HR.
Qed.

Lemma frames_sorted (l : list FrameRow) :
  StronglySorted (fun a b => fr_fid a <= fr_fid b)
    (Py.sort_by (fun a b => fr_fid a <? fr_fid b) l)
  /\ forall k,
       List.filter (fun fr => fr_fid fr =? k)
         (Py.sort_by (fun a b => fr_fid a <? fr_fid b) l)
       = List.filter (fun fr => fr_fid fr =? k) l.
Proof.
  assert (Hall : forall k,
    StronglySorted (Py.not_after (fun a b => fr_fid a <? fr_fid b))
      (Py.sort_by (fun a b => fr_fid a <? fr_fid b) l)
    /\ List.filter (fun fr => fr_fid fr =? k)
         (Py.sort_by (fun a b => fr_fid a <? fr_fid b) l)
       = List.filter (fun fr => fr_fid fr =? k) l).
  { intros k.
    destruct (sort_by_keeps_order (fun a b => fr_fid a <? fr_fid b)
                (fun _ => True) (fun fr => fr_fid fr =? k)) with (l := l)
      as (Hs & _ & Hf).
    - intros a b _ _ Hab%Z.ltb_lt. apply Z.ltb_ge. lia.
    - intros a b c _ _ _ Hab%Z.ltb_lt. rewrite !Z.ltb_lt. lia.
    - by apply Forall_true.
    - by apply (same_key_in_order _ fr_fid).
    - done. }
  split; [|intros k; apply Hall].
  destruct (Hall 0) as [Hs _].
  eapply StronglySorted_weaken; [|exact Hs].
  intros a b Hab. unfold Py.not_after in Hab. by apply Z.ltb_ge in Hab.
Qed.

Lemma events_sorted (l : list EventRow) :
  Forall (fun e => Py.is_number (ev_t e) = true) l ->
  StronglySorted (Py.not_after event_key_lt) (Py.sort_by event_key_lt l).
Proof.
  intros Hnum.
  destruct (sort_by_keeps_order event_key_lt
              (fun e => Py.is_number (ev_t e) = true) (fun _ => false)
              (fun a b _ _ => event_key_lt_asym a b)
              (fun a b c _ _ Hc => event_key_lt_between a b c Hc) l)
    as (Hs & _); [done| |done].
  assert (Hnil : List.filter (fun _ : EventRow => false) l = []).
  { clear. induction l; [done|]. done. }
  rewrite Hnil. constructor.
Qed.

(** X17. [load_csv] returns the frame rows and the event rows of the
    file, each of them once; the frames are in the order of their ids,
    frames with one id staying in the order of the file; and when no
    timestamp is a NaN the events are in the order of their frame ids
    and, within a frame id, of their timestamps. *)
Theorem load_csv_sorts (rows : list CsvRow) :
  Permutation (fst (load_csv rows)) (frames_of rows)
  /\ Permutation (snd (load_csv rows)) (events_of rows)
  /\ StronglySorted (fun a b => fr_fid a <= fr_fid b) (fst (load_csv rows))
  /\ (forall k,
        List.filter (fun fr => fr_fid fr =? k) (fst (load_csv rows))
        = List.filter (fun fr => fr_fid fr =? k) (frames_of rows))
  /\ (Forall (fun e => Py.is_number (ev_t e) = true) (events_of rows) ->
      StronglySorted (fun a b => event_key_lt b a = false) (snd (load_csv rows))).
Proof.
  unfold load_csv. simpl.
  split; [apply sort_by_Permutation|]. split; [apply sort_by_Permutation|].
  destruct (frames_sorted (frames_of rows)) as [Hs Hk].
  split; [done|]. split; [done|]. apply events_sorted.
Qed.

End LoadCsv.

(** ** Letter case and blanks in the name of the stop key *)

Section TextCase.

Lemma isspace_upper_char c : Py.isspace (Py.upper_char c) = Py.isspace c.
Proof. by destruct c as [[] [] [] [] [] [] [] []]. Qed.

Lemma isspace_lower_char c : Py.isspace (Py.lower_char c) = Py.isspace c.
Proof. by destruct c as [[] [] [] [] [] [] [] []]. Qed.

Lemma upper_char_upper_char c : Py.upper_char (Py.upper_char c) = Py.upper_char c.
Proof. by destruct c as [[] [] [] [] [] [] [] []]. Qed.

Lemma upper_char_lower_char c : Py.upper_char (Py.lower_char c) = Py.upper_char c.
Proof. by destruct c as [[] [] [] [] [] [] [] []]. Qed.

Lemma map_string_map_string f g s :
  Py.map_string f (Py.map_string g s) = Py.map_string (fun c => f (g c)) s.
Proof. induction s as [|c s IH]; [done|]. simpl. by rewrite IH. Qed.

Lemma map_string_ext f g s :
  (forall c, f c = g c) -> Py.map_string f s = Py.map_string g s.
Proof. intros Hfg. induction s as [|c s IH]; [done|]. simpl. by rewrite Hfg, IH. Qed.

Lemma upper_upper s : Py.upper (Py.upper s) = Py.upper s.
Proof.
  unfold Py.upper. rewrite map_string_map_string.
  apply map_string_ext, upper_char_upper_char.
Qed.

Lemma upper_lower s : Py.upper (Py.lower s) = Py.upper s.
Proof.
  unfold Py.upper, Py.lower. rewrite map_string_map_string.
  apply map_string_ext, upper_char_lower_char.
Qed.

(** Trimming and a change of case that keeps blanks blank commute. *)
Lemma lstrip_map_string f s :
  (forall c, Py.isspace (f c) = Py.isspace c) ->
  Py.lstrip (Py.map_string f s) = Py.map_string f (Py.lstrip s).
Proof.
  intros Hf. induction s as [|c s IH]; [done|]. simpl. rewrite Hf.
  by destruct (Py.isspace c).
Qed.

Lemma rstrip_map_string f s :
  (forall c, Py.isspace (f c) = Py.isspace c) ->
  Py.rstrip (Py.map_string f s) = Py.map_string f (Py.rstrip s).
Proof.
  intros Hf. induction s as [|c s IH]; [done|]. simpl. rewrite IH, Hf.
  destruct (Py.rstrip s); simpl; [|done]. by destruct (Py.isspace c).
Qed.

Lemma strip_map_string f s :
  (forall c, Py.isspace (f c) = Py.isspace c) ->
  Py.strip (Py.map_string f s) = Py.map_string f (Py.strip s).
Proof.
  intros Hf. unfold Py.strip. by rewrite lstrip_map_string, rstrip_map_string.
Qed.

Lemma rstrip_rstrip s : Py.rstrip (Py.rstrip s) = Py.rstrip s.
Proof.
  induction s as [|c s IH]; [done|]. simpl.
  destruct (Py.rstrip s) as [|c' r] eqn:Hr.
  - destruct (Py.isspace c) eqn:Hc; [done|]. simpl. by rewrite Hc.
  - change (Py.rstrip (String c (String c' r)))
      with (match Py.rstrip (String c' r) with
            | EmptyString => if Py.isspace c then EmptyString
                             else String c EmptyString
            | r' => String c r'
            end).
    by rewrite IH.
Qed.

Lemma lstrip_head s :
  match Py.lstrip s with
  | EmptyString => True
  | String c _ => Py.isspace c = false
  end.
Proof.
  induction s as [|c s IH]; [done|]. simpl.
  by destruct (Py.isspace c) eqn:Hc; [|simpl].
Qed.

Lemma strip_strip s : Py.strip (Py.strip s) = Py.strip s.
Proof.
  unfold Py.strip. pose proof (lstrip_head s) as Hh.
  destruct (Py.lstrip s) as [|c t]; [done|].
  assert (Hl : Py.lstrip (Py.rstrip (String c t)) = Py.rstrip (String c t)).
  { simpl. destruct (Py.rstrip t); rewrite ?Hh; simpl; by rewrite Hh. }
  by rewrite Hl, rstrip_rstrip.
Qed.

End TextCase.

Section StopKeyName.

Import datagrabber Recorder.

Lemma parse_stop_key_same a b :
  Py.upper (Py.strip a) = Py.upper (Py.strip b) ->
  _parse_stop_key a = _parse_stop_key b.
Proof. unfold _parse_stop_key. by intros ->. Qed.

Lemma stop_key_upper name : _parse_stop_key (Py.upper name) = _parse_stop_key name.
Proof.
  apply parse_stop_key_same. unfold Py.upper at 2.
  by rewrite (strip_map_string _ _ isspace_upper_char), upper_upper.
Qed.

(** X20. [_parse_stop_key] gives the same key for a name, for the
    name in upper case and for the name without the blanks around it;
    for a name of ASCII characters it gives that key for the name in
    lower case as well. *)
Theorem stop_key_name_ignores_case_and_blanks (name : string) :
  _parse_stop_key (Py.upper name) = _parse_stop_key name
  /\ _parse_stop_key (Py.strip name) = _parse_stop_key name
  /\ (Py.isascii name = true ->
      _parse_stop_key (Py.lower name) = _parse_stop_key name).
Proof.
  split; [|split; [|intros _]]; apply parse_stop_key_same.
  - unfold Py.upper at 2.
    by rewrite (strip_map_string _ _ isspace_upper_char), upper_upper.
  - by rewrite strip_strip.
  - unfold Py.lower.
    by rewrite (strip_map_string _ _ isspace_lower_char), upper_lower.
Qed.

(** X21. The constructor, which puts the name of the stop key in
    upper case before it parses it and takes [F10] for an empty name,
    keeps the key that [_parse_stop_key] gives for the name as it was
    passed; it keeps a frame rate of at least 1, the one passed when that
    is at least 1. *)
Theorem init_parses_the_stop_key_given (fps0 : Z) (stop_key : string) :
  _stop_key_obj (__init__ fps0 stop_key) = _parse_stop_key stop_key
  /\ 1 <= fps (__init__ fps0 stop_key)
  /\ (1 <= fps0 -> fps (__init__ fps0 stop_key) = fps0)
  /\ stop_key_name (__init__ fps0 "") = "F10".
Proof.
  unfold __init__. simpl. split; [|split; [lia|split; [lia|done]]].
  destruct (String.eqb_spec stop_key "") as [->|_]; [done|].
  apply parse_stop_key_same. unfold Py.upper at 2.
  by rewrite (strip_map_string _ _ isspace_upper_char), upper_upper.
Qed.

End StopKeyName.

(** ** The validator on the lines of the file *)

Section LoadOfFile.

Import validate_recording validate_recording_file.

Variable float_ : string -> option float.

Lemma load_rows_app rows1 rows2 :
  load_rows float_ (rows1 ++ rows2)
  = (l1 ← load_rows float_ rows1;
     l2 ← load_rows float_ rows2;
     Py.Ok (l1 ++ l2)).
Proof.
  induction rows1 as [|row rows1 IH]; simpl.
  - by destruct (load_rows float_ rows2).
  - destruct (load_row float_ row) as [l|e]; [|done]. simpl. rewrite IH.
    destruct (load_rows float_ rows1) as [l1|e]; [|done]. simpl.
    by destruct (load_rows float_ rows2).
Qed.

Lemma load_rows_passed_over before row after :
  load_row float_ row = Py.Ok nothing_loaded ->
  validate_recording_file.load_csv float_ (before ++ row :: after)
  = validate_recording_file.load_csv float_ (before ++ after).
Proof.
  intros Hrow. unfold validate_recording_file.load_csv.
  rewrite !load_rows_app. simpl. rewrite Hrow. simpl.
  destruct (load_rows float_ before) as [l1|e]; [|done]. simpl.
  destruct (load_rows float_ after) as [l2|e]; [|done]. simpl.
  by rewrite !omap_app.
Qed.

Lemma load_rows_raises before row after e ls :
  load_row float_ row = Py.Raise e ->
  load_rows float_ before = Py.Ok ls ->
  validate_recording_file.load_csv float_ (before ++ row :: after) = Py.Raise e.
Proof.
  intros Hrow Hbefore. unfold validate_recording_file.load_csv.
  rewrite load_rows_app, Hbefore. simpl. by rewrite Hrow.
Qed.

Lemma load_row_nothing row :
  load_row float_ row = Py.Ok nothing_loaded
  <-> exists rtype fid t,
        strip_cell (get_or_empty row "row_type") = Py.Ok rtype
        /\ int_cell (get row "frame_id") = Py.Ok fid
        /\ float_cell float_ (get row "time_s") = Py.Ok t
        /\ rtype <> "frame" /\ rtype <> "event".
Proof.
  unfold load_row.
  destruct (strip_cell (get_or_empty row "row_type")) as [rtype|e]; simpl.
  2: { split; [done|]. by intros (? & ? & ? & ? & _). }
  destruct (int_cell (get row "frame_id")) as [fid|e]; simpl.
  2: { split; [done|]. by intros (? & ? & ? & _ & ? & _). }
  destruct (float_cell float_ (get row "time_s")) as [t|e]; simpl.
  2: { split; [done|]. by intros (? & ? & ? & _ & _ & ? & _). }
  destruct (String.eqb_spec rtype "frame") as [->|Hf].
  { split; [done|]. by intros (? & ? & ? & [= <-] & _ & _ & ? & _). }
  destruct (String.eqb_spec rtype "event") as [->|He].
  { split.
    - by destruct (strip_cell (get_or_empty row "event_type")).
    - by intros (? & ? & ? & [= <-] & _ & _ & _ & ?). }
  split; [|done]. intros _. by exists rtype, fid, t.
Qed.

Lemma load_rows_lengths rows loaded :
  load_rows float_ rows = Py.Ok loaded ->
  (length (omap frame_of_loaded loaded) + length (omap event_of_loaded loaded))%nat
  = length (List.filter (fun row => negb (passed_over float_ row)) rows).
Proof.
  revert loaded. induction rows as [|row rows IH]; intros loaded.
  - by intros [= <-].
  - cbn [load_rows List.filter]. unfold passed_over at 1.
    destruct (load_row float_ row) as [l|e]; [|done].
    destruct (load_rows float_ rows) as [ls|e]; [|done].
    intros [= <-]. specialize (IH ls eq_refl).
    destruct l; cbn [omap list_omap frame_of_loaded event_of_loaded negb length];
      rewrite <- IH; lia.
Qed.

(** X18. [load_csv] reads [row_type], [frame_id] and [time_s] on every
    line before it looks at the type. A line is passed over exactly when
    its [row_type] is there and, trimmed, is neither [frame] nor [event],
    and its [frame_id] and [time_s] are read by [int] and [float] (empty
    or missing cells are read as zero): such a line changes nothing in
    what [load_csv] returns or raises. A line on which one of the three
    reads raises makes [load_csv] raise, whatever its type, when the
    lines before it load. When [load_csv] returns, the frames and events
    returned are as many as the lines not passed over. *)
Theorem load_csv_passes_over_other_rows
    (before after : list DictRow) (row : DictRow) :
  (load_row float_ row = Py.Ok nothing_loaded
   <-> exists rtype fid t,
         strip_cell (get_or_empty row "row_type") = Py.Ok rtype
         /\ int_cell (get row "frame_id") = Py.Ok fid
         /\ float_cell float_ (get row "time_s") = Py.Ok t
         /\ rtype <> "frame" /\ rtype <> "event")
  /\ (load_row float_ row = Py.Ok nothing_loaded ->
      validate_recording_file.load_csv float_ (before ++ row :: after)
      = validate_recording_file.load_csv float_ (before ++ after))
  /\ (forall e ls,
         load_row float_ row = Py.Raise e ->
         load_rows float_ before = Py.Ok ls ->
         validate_recording_file.load_csv float_ (before ++ row :: after)
         = Py.Raise e)
  /\ (forall frames events,
         validate_recording_file.load_csv float_ (before ++ row :: after)
         = Py.Ok (frames, events) ->
         (length frames + length events)%nat
         = length (List.filter (fun row => negb (passed_over float_ row))
                     (before ++ row :: after))).
Proof.
  split; [apply load_row_nothing|]. split; [apply load_rows_passed_over|].
  split; [intros e ls; apply load_rows_raises|].
  intros frames events. unfold validate_recording_file.load_csv.
  destruct (load_rows float_ (before ++ row :: after)) as [loaded|e] eqn:Hl;
    [|done].
  simpl. intros [= <- <-].
  rewrite (Permutation_length (sort_by_Permutation _ _)),
    (Permutation_length (sort_by_Permutation _ _)).
  by apply load_rows_lengths.
Qed.

End LoadOfFile.

Section MainOfFile.

Import validate_recording validate_recording_file.

Variable float_ : string -> option float.





End MainOfFile.

Section SortMaps.

Context {A B : Type} (f : A -> B) (lt : A -> A -> bool) (lt' : B -> B -> bool).
Hypothesis same_order : forall a b, lt' (f a) (f b) = lt a b.



End SortMaps.

Section LinesThatLoad.

Import validate_recording validate_recording_file.

Variable float_ : string -> option float.









End LinesThatLoad.


(** The sample lines. A line of another type whose [frame_id] is no
    integer makes [main] end with the [ValueError] of [load_csv], nothing
    collected and nothing printed; without it the log passes. With
    [--check-images], a frame line without path makes [main] end with a
    [TypeError] after the checks of frames and events have passed;
    without that option the same log passes. *)
Lemma main_on_sample_lines :
  validate_recording_file.main_collect sample.float_ sample.default_args
    (Some [sample.frame_1_line; sample.note_abc_line; sample.key_down_line])
    (sample.disk_with None)
  = (validate_recording.Uncaught Py.ValueError [], [], [])
  /\ validate_recording_file.main sample.float_ sample.default_args
       (Some [sample.frame_1_line; sample.note_line; sample.key_down_line])
       (sample.disk_with None)
     = validate_recording.Returns
         [validate_recording.summary_header;
          validate_recording.summary 1 1;
          validate_recording.ok_line]
  /\ validate_recording_file.main_collect sample.float_ sample.with_images
       (Some [sample.frame_1_line; sample.short_frame_line])
       (sample.disk_with None)
     = (validate_recording.Uncaught Py.TypeError [], [], [])
  /\ validate_recording_file.main sample.float_ sample.default_args
       (Some [sample.frame_1_line; sample.short_frame_line])
       (sample.disk_with None)
     = validate_recording.Returns
         [validate_recording.summary_header;
          validate_recording.summary 2 0;
          validate_recording.ok_line].
Proof. repeat split; vm_compute; reflexivity. Qed.

Lemma load_csv_passes_over_witness :
  validate_recording_file.load_csv sample.float_
    ([sample.frame_1_line] ++ sample.note_line :: [sample.key_down_line])
  = validate_recording_file.load_csv sample.float_
      ([sample.frame_1_line] ++ [sample.key_down_line]).
Proof.
  exact (proj1 (proj2 (load_csv_passes_over_other_rows sample.float_
                         [sample.frame_1_line] [sample.key_down_line]
                         sample.note_line))
           eq_refl).
Defined.

(** ** The listener callbacks *)

Section Listeners.

Import datagrabber listeners.

Lemma call_fields self c :
  _start_perf (call self c) = _start_perf self
  /\ _stop_flag (call self c) = _stop_flag self || presses_stop_key c
  /\ exists ev,
       listeners.events_q (call self c) = listeners.events_q self ++ [ev]
       /\ ts ev = _now_rel self (clock_of c) /\ etype ev = etype_of c.
Proof.
  destruct c; simpl; repeat split; try (by rewrite ?orb_false_r);
    try (eexists; by repeat split).
  by destruct (is_stop_key key), (_stop_flag self).
Qed.

Lemma run_snoc calls c self : run (calls ++ [c]) self = call (run calls self) c.
Proof. unfold run. by rewrite fold_left_app. Qed.

Lemma run_fields calls self :
  _start_perf (run calls self) = _start_perf self
  /\ _stop_flag (run calls self) = _stop_flag self || existsb presses_stop_key calls
  /\ exists evs,
       listeners.events_q (run calls self) = listeners.events_q self ++ evs
       /\ map ts evs = map (fun c => _now_rel self (clock_of c)) calls
       /\ map etype evs = map etype_of calls.
Proof.
  induction calls as [|c calls IH] using rev_ind.
  - simpl. rewrite orb_false_r. repeat split. exists []. by rewrite app_nil_r.
  - rewrite run_snoc. destruct IH as (Hp & Hf & evs & Hq & Hts & Hty).
    destruct (call_fields (run calls self) c) as (Hp' & Hf' & ev & Hq' & Hts' & Hty').
    rewrite Hp', Hf', Hq', Hp, Hf, Hq, existsb_app. simpl.
    rewrite orb_false_r, orb_assoc. repeat split.
    exists (evs ++ [ev]). rewrite !map_app, Hts, Hty, <- app_assoc. simpl.
    rewrite Hts', Hty'. unfold _now_rel. by rewrite Hp.
Qed.

End Listeners.

Section Modifiers.

Import datagrabber listeners.

Lemma modifier_of_order nm m : modifier_of nm = Some m -> In m order.
Proof.
  unfold modifier_of, order. repeat case_bool_decide; intros [= <-]; simpl; tauto.
Qed.

(** What one call does to the set of held modifiers. *)
Lemma call_pressed_mods self c m :
  m ∈ _pressed_mods (call self c)
  <-> action_on m c = Some true
      \/ (action_on m c = None /\ m ∈ _pressed_mods self).
Proof.
  destruct c as [t key|t key| | |]; simpl; [| |intuition congruence..].
  - destruct (modifier_of (name key)) as [m'|] eqn:Hm.
    + rewrite elem_of_union, elem_of_singleton.
      case_bool_decide as Heq; simplify_eq; intuition congruence.
    + rewrite bool_decide_eq_false_2 by done. intuition congruence.
  - destruct (modifier_of (name key)) as [m'|] eqn:Hm.
    + rewrite elem_of_difference, elem_of_singleton.
      case_bool_decide as Heq; simplify_eq; intuition congruence.
    + rewrite bool_decide_eq_false_2 by done. intuition congruence.
Qed.

Lemma run_pressed_mods calls self m :
  m ∈ _pressed_mods (run calls self)
  <-> last (omap (action_on m) calls) = Some true
      \/ (last (omap (action_on m) calls) = None /\ m ∈ _pressed_mods self).
Proof.
  induction calls as [|c calls IH] using rev_ind.
  - simpl. intuition congruence.
  - rewrite run_snoc, call_pressed_mods, IH, omap_app. simpl.
    destruct (action_on m c) as [b|]; simpl.
    + rewrite last_snoc. intuition congruence.
    + rewrite app_nil_r. intuition congruence.
Qed.

Lemma run_pressed_mods_order calls m :
  m ∈ _pressed_mods (run calls initial) -> In m order.
Proof.
  induction calls as [|c calls IH] using rev_ind; [by intros ?%elem_of_empty|].
  rewrite run_snoc, call_pressed_mods.
  intros [Hact|[_ Hm]]; [|by apply IH].
  destruct c as [t key|t key| | |]; simpl in Hact; try done;
    case_bool_decide; try done. by eapply modifier_of_order.
Qed.

Lemma collect_mods_code X :
  _collect_mods X
  = code (bool_decide ("cmd" ∈ X)) (bool_decide ("ctrl" ∈ X))
      (bool_decide ("alt" ∈ X)) (bool_decide ("shift" ∈ X)).
Proof.
  unfold _collect_mods, code, order. case_bool_decide as He.
  - subst X. by rewrite !bool_decide_eq_false_2 by apply not_elem_of_empty.
  - simpl. by destruct (bool_decide ("cmd" ∈ X)), (bool_decide ("ctrl" ∈ X)),
             (bool_decide ("alt" ∈ X)), (bool_decide ("shift" ∈ X)).
Qed.

Lemma code_inj a b c d a' b' c' d' :
  code a b c d = code a' b' c' d' -> a = a' /\ b = b' /\ c = c' /\ d = d'.
Proof.
  destruct a, b, c, d, a', b', c', d'; simpl; intros H; try done;
    by discriminate H.
Qed.

(** X22. After any run of listener calls a modifier is among the
    held ones exactly when the last call that pressed or released a key
    standing for it was a press, or no call touched it and it was held
    before. The keys standing for one modifier are not told apart: the
    release of the right shift key clears [shift] while the left one is
    still down. *)
Theorem held_modifiers_follow_the_last_action
    (calls : list Call) (self : Self) (m : string) :
  m ∈ _pressed_mods (run calls self)
  <-> last (omap (action_on m) calls) = Some true
      \/ (last (omap (action_on m) calls) = None /\ m ∈ _pressed_mods self).
Proof. apply run_pressed_mods. Qed.

(** X23. The text that [_collect_mods] makes of the held modifiers
    tells which ones are held: two runs of listener calls from the state
    of the constructor that end with the same text end with the same set
    of held modifiers. *)
Theorem modifiers_text_tells_the_held_modifiers (calls1 calls2 : list Call) :
  _collect_mods (_pressed_mods (run calls1 initial))
  = _collect_mods (_pressed_mods (run calls2 initial)) ->
  _pressed_mods (run calls1 initial) = _pressed_mods (run calls2 initial).
Proof.
  rewrite !collect_mods_code. intros (H1 & H2 & H3 & H4)%code_inj.
  apply set_eq. intros m.
  assert (Hm : forall calls, m ∈ _pressed_mods (run calls initial) ->
                 m = "cmd" \/ m = "ctrl" \/ m = "alt" \/ m = "shift").
  { intros calls Hin%run_pressed_mods_order. simpl in Hin. intuition. }
  split; intros Hin; destruct (Hm _ Hin) as [-> | [-> | [-> | ->]]].
  all: apply (bool_decide_eq_true_2 _) in Hin; apply (bool_decide_eq_true_1 _);
    congruence.
Qed.

Lemma modifiers_text_witness :
  _pressed_mods
    (run [kb_on_press 1 {| name := "shift_l"; vk := None; is_stop_key := false |};
          kb_on_press 2 {| name := "a"; vk := Some 65; is_stop_key := false |}]
       initial)
  = _pressed_mods
      (run [kb_on_press 1 {| name := "shift_r"; vk := None; is_stop_key := false |}]
         initial).
Proof.
  apply (modifiers_text_tells_the_held_modifiers
           [kb_on_press 1 {| name := "shift_l"; vk := None; is_stop_key := false |};
            kb_on_press 2 {| name := "a"; vk := Some 65; is_stop_key := false |}]
           [kb_on_press 1 {| name := "shift_r"; vk := None; is_stop_key := false |}]).
  rewrite !collect_mods_code. vm_compute. reflexivity.
Defined.

(** X24. After any run of listener calls the stop flag is set
    exactly when it was set before or one of the calls was a press of the
    stop key; no call clears it, and neither a release of the stop key nor
    a mouse event sets it. *)
Theorem stop_flag_is_set_by_a_press_of_the_stop_key
    (calls : list Call) (self : Self) :
  _stop_flag (run calls self)
  = _stop_flag self || existsb presses_stop_key calls.
Proof. apply run_fields. Qed.

(** X25. Every listener call appends one event behind what the
    queue held, also the press of the stop key: after a run of calls the
    queue holds, behind its former content and in the order of the calls,
    one event for each call, of the type of the callback and stamped with
    the clock reading of the call less the start time. *)
Theorem listeners_queue_one_event_per_call (calls : list Call) (self : Self) :
  exists evs,
    listeners.events_q (run calls self) = listeners.events_q self ++ evs
    /\ map ts evs = map (fun c => _now_rel self (clock_of c)) calls
    /\ map etype evs = map etype_of calls.
Proof. apply run_fields. Qed.

End Modifiers.

(** ** The panel *)

Section Panel.

Import datagrabber tk_dataset_recorder.

Lemma parse_stop_key_esc name :
  _parse_stop_key name = Key_esc -> Py.upper (Py.strip name) = "ESC".
Proof.
  unfold _parse_stop_key. rewrite base_lookup.
  generalize (Py.upper (Py.strip name)). clear name. intros name.
  repeat case_decide; try done.
  destruct (parse_function_key name) as [k|] eqn:Hk.
  - apply parse_function_key_Some in Hk as (? & ? & _ & _ & _ & _ & ->). done.
  - by destruct (String.length name =? 1)%nat.
Qed.

(** X26. Whatever the environment variable [STOP_KEY] holds, the
    stop key that the panel keeps for the recorder is not Esc, neither as
    [_parse_stop_key] reads it nor as the constructor of the recorder
    does. *)
Theorem panel_never_keeps_esc (STOP_KEY : option string) (fps : Z) :
  _parse_stop_key (_stop_key STOP_KEY) <> Key_esc
  /\ Recorder._stop_key_obj (Recorder.__init__ fps (_stop_key STOP_KEY))
     <> Key_esc.
Proof.
  assert (Hno : _parse_stop_key (_stop_key STOP_KEY) <> Key_esc).
  { intros Hesc%parse_stop_key_esc. unfold _stop_key in Hesc.
    destruct (String.eqb_spec (Py.upper (Py.strip (default "" STOP_KEY))) "ESC")
      as [He|Hne]; [done|].
    by rewrite strip_strip in Hesc. }
  split; [done|].
  unfold Recorder.__init__. cbn [Recorder._stop_key_obj].
  destruct (String.eqb_spec (_stop_key STOP_KEY) "") as [_|_]; [done|].
  intros Hesc. apply Hno. rewrite <- Hesc. symmetry.
  apply stop_key_upper.
Qed.

Lemma serve_from ts k n :
  serve (length ts + n) {| tasks := k ++ ts; idx := length k |}
  = map Some (numbered (S (length k)) ts) ++ repeat None n.
Proof.
  revert k. induction ts as [|t ts IH]; intros k.
  - simpl. rewrite app_nil_r. induction n as [|n IHn]; [done|].
    simpl. unfold get_next_task. simpl. rewrite Nat.leb_refl. by f_equal.
  - simpl. unfold get_next_task at 1. simpl.
    rewrite (proj2 (Nat.leb_gt _ _)) by (rewrite length_app; simpl; lia).
    rewrite nth_error_app2, Nat.sub_diag by lia. simpl.
    rewrite Nat.add_1_r. f_equal.
    specialize (IH (k ++ [t])). rewrite <- app_assoc, length_app in IH.
    simpl in IH. rewrite Nat.add_1_r in IH. exact IH.
Qed.

(** X27. A [LocalListTaskProvider] serves the tasks of its list that
    are not blank, in the order of the list, with the ids [local_1],
    [local_2], ...; once they are served every further call returns
    [None]. *)
Theorem tasks_are_served_in_order (all : list string) (n : nat) :
  serve (length (tasks (LocalListTaskProvider_init all)) + n)
    (LocalListTaskProvider_init all)
  = map Some
      (numbered 1
         (List.filter (fun t => negb (String.eqb (Py.strip t) "")) all))
    ++ repeat None n.
Proof. apply (serve_from _ []). Qed.

End Panel.
